(** * MU Seat Finder: a shallow embedding of the polling / notification core

    The development follows the latest revision of [seat-finder.js]
    (v2.1), with the v2.0 registry and the v1.0 per-CRN availability test
    next to it where the revisions differ.

    Layout:
    - [JS]        the fragment of the JavaScript run time the program uses:
                  strings, [Number], [parseInt], [split], [trim], and the
                  insertion-ordered [Map];
    - [Registry]  class [CourseMonitor];
    - [Eff]       the monad of effects: collaborator calls answered by an
                  oracle, exceptions, [process.exit], and the event trace;
    - [SeatFinder] the functions of the program;
    - [Legacy]    the v1.0 availability test;
    - [Observe]   what is read off a run: traces, worlds, example data;
    - theorems. *)

From Stdlib Require Import ZArith List String Ascii Bool Lia.
Import ListNotations.

Set Implicit Arguments.

(* ================================================================== *)
(** ** JavaScript values used by the program *)
(* ================================================================== *)

Module JS.

Local Open Scope string_scope.
Local Open Scope Z_scope.

(** A JS Number: an IEEE-754 double.  A finite double is written as the
    decimal [m * 10^e] that it is equal to (every double [q * 2^k] is one:
    for [k < 0] it is [q * 5^(-k) * 10^k]); [to_double] below rounds any
    decimal to the nearest double, and every operation that produces a
    Number goes through it.  The sign of zero is not tracked: the program
    never observes it. *)
Inductive jsnum : Type :=
| NaN
| PInf
| NInf
| Dec (m e : Z).

(** [undefined] is [None]: the result of reading an array index that is
    not there. *)
Definition jsval := option jsnum.

(** ToNumber on a number-or-undefined. *)
Definition ToNumber (v : jsval) : jsnum :=
  match v with
  | Some n => n
  | None => NaN
  end.

(** An integer literal of the program (each of them is a double). *)
Definition int (n : Z) : jsnum := Dec n 0.

Definition signed (neg : bool) (m : Z) : Z := if neg then - m else m.

(** The double nearest to [m * 10^e], ties to the even significand
    (roundTiesToEven): overflow gives an infinity, underflow a subnormal
    or zero.  With [N / D] the absolute value and [p] the integer part of
    its binary logarithm, the last place of the result has weight [2^k];
    [q] is the value in units of the last place, rounded down, and [q']
    the same rounded to nearest.  A result that is an integer is written
    [Dec n 0]; any other is written with the smallest power of ten. *)
Definition to_double (m e : Z) : jsnum :=
  if m =? 0 then Dec 0 0 else
  let neg := m <? 0 in
  let a := Z.abs m in
  let N := if 0 <=? e then a * 10 ^ e else a in
  let D := if 0 <=? e then 1 else 10 ^ (- e) in
  let l := Z.log2 N - Z.log2 D in
  let p := if (if 0 <=? l then D * 2 ^ l <=? N else D <=? N * 2 ^ (- l))
           then l else l - 1 in
  let k := Z.max (p - 52) (-1074) in
  let num := if 0 <=? k then N else N * 2 ^ (- k) in
  let den := if 0 <=? k then D * 2 ^ k else D in
  let q := num / den in
  let r := num mod den in
  let q' := if 2 * r <? den then q
            else if den <? 2 * r then q + 1
            else if Z.even q then q else q + 1 in
  if 0 <=? k then
    if 2 ^ 1024 <=? q' * 2 ^ k then (if neg then NInf else PInf)
    else Dec (signed neg (q' * 2 ^ k)) 0
  else
    let g := Z.gcd q' (2 ^ (- k)) in
    let j := Z.log2 (2 ^ (- k) / g) in
    Dec (signed neg (q' / g * 5 ^ j)) (- j).

Arguments to_double : simpl never.

(** [a - b] on Numbers: the exact difference, rounded. *)
Definition sub (a b : jsnum) : jsnum :=
  match a, b with
  | NaN, _ | _, NaN => NaN
  | PInf, PInf => NaN
  | PInf, _ => PInf
  | NInf, NInf => NaN
  | NInf, _ => NInf
  | Dec _ _, PInf => NInf
  | Dec _ _, NInf => PInf
  | Dec m1 e1, Dec m2 e2 =>
      let e := Z.min e1 e2 in
      to_double (m1 * 10 ^ (e1 - e) - m2 * 10 ^ (e2 - e)) e
  end.

(** [a > 0]. *)
Definition gt0 (a : jsnum) : bool :=
  match a with
  | NaN => false
  | PInf => true
  | NInf => false
  | Dec m _ => 0 <? m
  end.

(** [a < b], the relational comparison of two Numbers. *)
Definition lt (a b : jsnum) : bool := gt0 (sub b a).

(** [isNaN(v)] (the global function, which applies ToNumber first). *)
Definition isNaN (v : jsval) : bool :=
  match ToNumber v with
  | NaN => true
  | _ => false
  end.

(** ToBoolean on a Number: [NaN] and zero are falsy. *)
Definition truthy (a : jsnum) : bool :=
  match a with
  | NaN => false
  | Dec m _ => negb (m =? 0)
  | _ => true
  end.

(** [a || b] on Numbers. *)
Definition or_else (a b : jsnum) : jsnum := if truthy a then a else b.

(** *** Characters

    A character of a Rocq [string] stands for the UTF-16 code unit of the
    same number, so the embedding covers the strings made of code units
    0..255. *)

(** WhiteSpace and LineTerminator code units below 256:
    TAB, LF, VT, FF, CR, SP, NBSP. *)
Definition is_ws (c : ascii) : bool :=
  let n := N_of_ascii c in
  ((9 <=? n) && (n <=? 13) || (n =? 32) || (n =? 160))%N.

(** The value of [c] as a digit in radix [r] (2 <= r <= 16). *)
Definition digit_of (r : Z) (c : ascii) : option Z :=
  let n := Z.of_N (N_of_ascii c) in
  let v :=
    if (48 <=? n) && (n <=? 57) then Some (n - 48)
    else if (97 <=? n) && (n <=? 102) then Some (n - 87)
    else if (65 <=? n) && (n <=? 70) then Some (n - 55)
    else None in
  match v with
  | Some d => if d <? r then Some d else None
  | None => None
  end.

Definition is_digit (r : Z) (c : ascii) : bool :=
  match digit_of r c with
  | Some _ => true
  | None => false
  end.

(** *** String helpers *)

(** The longest prefix of [s] whose characters satisfy [p], and the rest. *)
Fixpoint span (p : ascii -> bool) (s : string) : string * string :=
  match s with
  | "" => ("", "")
  | String c r =>
      if p c then let '(a, b) := span p r in (String c a, b)
      else ("", s)
  end.

(** Every character of [s] satisfies [p]. *)
Fixpoint every (p : ascii -> bool) (s : string) : bool :=
  match s with
  | "" => true
  | String c r => p c && every p r
  end.

Definition is_empty (s : string) : bool :=
  match s with
  | "" => true
  | _ => false
  end.

(** The number written by the digits of [s] in radix [r], read after the
    digits already accumulated in [acc]. *)
Fixpoint digits_val (r : Z) (acc : Z) (s : string) : Z :=
  match s with
  | "" => acc
  | String c t =>
      match digit_of r c with
      | Some d => digits_val r (acc * r + d) t
      | None => acc
      end
  end.

(** [String.prototype.trimStart], [trimEnd] and [trim]. *)
Fixpoint trimStart (s : string) : string :=
  match s with
  | "" => ""
  | String c r => if is_ws c then trimStart r else s
  end.

Fixpoint trimEnd (s : string) : string :=
  match s with
  | "" => ""
  | String c r =>
      let r' := trimEnd r in
      if is_ws c && is_empty r' then "" else String c r'
  end.

Definition trim (s : string) : string := trimEnd (trimStart s).

(** [s.split(sep)] for a one-character separator: never empty, and the
    empty string splits into one empty field. *)
Fixpoint split (sep : ascii) (s : string) : list string :=
  match s with
  | "" => [""]
  | String c r =>
      if Ascii.eqb c sep then "" :: split sep r
      else match split sep r with
           | f :: fs => String c f :: fs
           | [] => [String c ""]
           end
  end.

(** An optional leading sign: [(negative, rest)]. *)
Definition strip_sign (s : string) : bool * string :=
  match s with
  | String c r =>
      if Ascii.eqb c "+" then (false, r)
      else if Ascii.eqb c "-" then (true, r)
      else (false, s)
  | "" => (false, s)
  end.

(** *** [Number(string)]: StringToNumber *)

(** NonDecimalIntegerLiteral: [0x], [0o], [0b] (either case) followed by
    at least one digit of the radix and nothing else. *)
Definition non_decimal (s : string) : option Z :=
  match s with
  | String c (String x r) =>
      let radix :=
        if negb (Ascii.eqb c "0") then None
        else if Ascii.eqb x "x" || Ascii.eqb x "X" then Some 16
        else if Ascii.eqb x "o" || Ascii.eqb x "O" then Some 8
        else if Ascii.eqb x "b" || Ascii.eqb x "B" then Some 2
        else None in
      match radix with
      | Some rd =>
          let '(ds, rest) := span (is_digit rd) r in
          if negb (is_empty ds) && is_empty rest
          then Some (digits_val rd 0 ds) else None
      | None => None
      end
  | _ => None
  end.

(** ExponentPart, or nothing: the exponent it denotes. *)
Definition exponent_part (s : string) : option Z :=
  match s with
  | "" => Some 0
  | String c r =>
      if Ascii.eqb c "e" || Ascii.eqb c "E" then
        let '(neg, d) := strip_sign r in
        let '(ds, rest) := span (is_digit 10) d in
        if negb (is_empty ds) && is_empty rest
        then Some (signed neg (digits_val 10 0 ds)) else None
      else None
  end.

(** StrUnsignedDecimalLiteral other than [Infinity]:
    digits, an optional fraction, an optional exponent, with at least one
    digit before or after the dot.  The result is (mantissa, exponent). *)
Definition unsigned_decimal (s : string) : option (Z * Z) :=
  let '(ip, r1) := span (is_digit 10) s in
  let '(fp, r2) :=
    match r1 with
    | String c r => if Ascii.eqb c "." then span (is_digit 10) r else ("", r1)
    | "" => ("", r1)
    end in
  if is_empty ip && is_empty fp then None
  else match exponent_part r2 with
       | Some ex =>
           Some (digits_val 10 0 (ip ++ fp), ex - Z.of_nat (String.length fp))
       | None => None
       end.

Definition StringToNumber (t : string) : jsnum :=
  if is_empty t then int 0
  else match non_decimal t with
       | Some n => to_double n 0
       | None =>
           let '(neg, u) := strip_sign t in
           if String.eqb u "Infinity" then (if neg then NInf else PInf)
           else match unsigned_decimal u with
                | Some (m, e) => to_double (signed neg m) e
                | None => NaN
                end
       end.

(** [Number(s)] for a string [s]. *)
Definition Number (s : string) : jsnum := StringToNumber (trim s).

(** [Number(v)] for a string-or-undefined (an unset environment
    variable is [undefined]). *)
Definition Number_opt (v : option string) : jsnum :=
  match v with
  | Some s => Number s
  | None => NaN
  end.

(** *** [parseInt(string)] with no radix argument *)
Definition parseInt (s : string) : jsnum :=
  let '(neg, u) := strip_sign (trimStart s) in
  let '(radix, body) :=
    match u with
    | String c (String x r) =>
        if Ascii.eqb c "0" && (Ascii.eqb x "x" || Ascii.eqb x "X")
        then (16, r) else (10, u)
    | _ => (10, u)
    end in
  let '(ds, _) := span (is_digit radix) body in
  if is_empty ds then NaN
  else to_double (signed neg (digits_val radix 0 ds)) 0.

(** *** [Map]: insertion-ordered, unique keys *)

Section JSMap.
Variable V : Type.

Definition Map := list (string * V).

Definition map_empty : Map := [].

(** [m.set(k, v)]: an existing key keeps its position and takes the new
    value; a new key goes last. *)
Fixpoint map_set (k : string) (v : V) (m : Map) : Map :=
  match m with
  | [] => [(k, v)]
  | (k', v') :: r =>
      if String.eqb k k' then (k, v) :: r
      else (k', v') :: map_set k v r
  end.

(** [m.delete(k)]: no entry with key [k] is left. *)
Definition map_delete (k : string) (m : Map) : Map :=
  List.filter (fun kv => negb (String.eqb k (fst kv))) m.

Fixpoint map_get (k : string) (m : Map) : option V :=
  match m with
  | [] => None
  | (k', v') :: r => if String.eqb k k' then Some v' else map_get k r
  end.

(** [[...m.keys()]]. *)
Definition map_keys (m : Map) : list string := List.map fst m.

(** [m.size]. *)
Definition map_size (m : Map) : nat := List.length m.
End JSMap.

End JS.

Import JS.
Local Open Scope string_scope.
Local Open Scope list_scope.

(* ================================================================== *)
(** ** The registry: class [CourseMonitor] *)
(* ================================================================== *)

Module Registry.

(** The object literal stored by [add] in v2.1: [{}]. *)
Inductive EmptyObject : Type := empty_object.

(** The object literal stored by [add] in v2.0: [{ notified: false }]. *)
Record CourseRecord : Type := { notified : bool }.

Section Monitor.
(** [R] is the type of the stored records and [fresh] the literal that
    [add] stores; the two revisions differ only there. *)
Variable R : Type.
Variable fresh : R.

Record CourseMonitor : Type := {
  courses : Map R;
  confirmationSent : bool
}.

(** [new CourseMonitor()]. *)
Definition create : CourseMonitor :=
  {| courses := map_empty R; confirmationSent := false |}.

(** [add(crn) { this.courses.set(crn, <literal>); }] *)
Definition add (crn : string) (m : CourseMonitor) : CourseMonitor :=
  {| courses := map_set crn fresh (courses m);
     confirmationSent := confirmationSent m |}.

(** [delete(crn) { this.courses.delete(crn); }] *)
Definition delete (crn : string) (m : CourseMonitor) : CourseMonitor :=
  {| courses := map_delete crn (courses m);
     confirmationSent := confirmationSent m |}.

(** [get all() { return [...this.courses.keys()]; }] *)
Definition all (m : CourseMonitor) : list string := map_keys (courses m).

(** [get size() { return this.courses.size; }] *)
Definition size (m : CourseMonitor) : nat := map_size (courses m).

Definition markSent (m : CourseMonitor) : CourseMonitor :=
  {| courses := courses m; confirmationSent := true |}.
End Monitor.

(** v2.1 and v2.0 instances of [add]. *)
Definition add21 := add empty_object.
Definition add20 := add {| notified := false |}.

End Registry.

Import Registry.

(* ================================================================== *)
(** ** Effects *)
(* ================================================================== *)

Module Eff.

Local Open Scope list_scope.

(** The outcome of an awaited collaborator call: the promise resolves
    with a value (text, when the call returns text) or rejects with an
    [Error] carrying a message. *)
Inductive Outcome : Type :=
| Resolved (v : string)
| Rejected (message : string).

(** A thrown value: an [Error] object, or [undefined] (what [withRetry]
    would throw if it were asked for zero attempts). *)
Inductive exn : Type :=
| Error (message : string)
| Undefined.

(** The mails the program sends; subject and text are determined by
    these data ([from] and [to] are both the recipient). *)
Inductive Mail : Type :=
| Confirmation (crns : list string) (interval : jsnum)
| SeatAvailable (crn : string) (current max : jsval).

(** The calls made to the collaborators (DNS, SMTP, Puppeteer). *)
Inductive Call : Type :=
| DnsLookup
| SendMail (m : Mail) (to : string)
| Launch
| NewPage
| SetUserAgent
| Goto
| WaitForSelector (selector : string)
| Select (selector value : string)
| Click (selector : string)
| EvaluateOxford
| ClearValue (selector : string)
| TypeText (selector text : string)
| InnerText (selector : string)
| Close.

(** Lines written with [console.log]; those from [StatusLine] on are
    written by v1.0 only. *)
Inductive LogLine : Type :=
| NotificationSent (crn : string)
| Reading (crn : string) (current max : jsval)
| AllDone
| StatusLine (crn status : string)
| AvailableSeats (n : jsnum)
| SendingNotification (crn : string)
| EmailSent
| CheckEmailAndNetwork
| StatusNotFound (crn : string).

(** Lines written with [console.error]; those from
    [ErrorSendingEmail] on are written by v1.0 only. *)
Inductive ErrLine : Type :=
| CouldNotFetch (crn : string) (message : string)
| NotOnNetwork
| Fatal (message : string)
| ErrorSendingEmail (e : exn)
| ErrorChecking (crn : string) (message : string).

(** What an observer of the process sees, in order. *)
Inductive Event : Type :=
| Called (c : Call) (o : Outcome)
| Slept (ms : jsnum)
| Log (l : LogLine)
| LogError (l : ErrLine).

(** The signals for which the program installs a handler. *)
Inductive Signal : Type := SIGINT | SIGTERM.

(** The module-level state of the program, the number of collaborator
    calls made so far, and the signals for which [process.on] has
    installed a listener (the only listener the program ever installs is
    [cleanup]). *)
Record World : Type := {
  clock : nat;
  monitor : CourseMonitor EmptyObject;
  termCode : string;
  browser : bool;
  handled : list Signal
}.

(** How a computation ends: a value, a thrown exception, [process.exit],
    or the loop budget of the embedding running out. *)
Inductive Result (A : Type) : Type :=
| Val (a : A)
| Throw (e : exn)
| Exit (code : Z)
| OutOfFuel.

Arguments Throw {A} e.
Arguments Exit {A} code.
Arguments OutOfFuel {A}.

Definition M (A : Type) : Type := World -> Result A * World * list Event.

Definition ret {A} (a : A) : M A := fun w => (Val a, w, []).

Definition bind {A B} (m : M A) (k : A -> M B) : M B :=
  fun w =>
    let '(r, w1, t1) := m w in
    match r with
    | Val a => let '(r2, w2, t2) := k a w1 in (r2, w2, t1 ++ t2)
    | Throw e => (Throw e, w1, t1)
    | Exit c => (Exit c, w1, t1)
    | OutOfFuel => (OutOfFuel, w1, t1)
    end.

Definition throw {A} (e : exn) : M A := fun w => (Throw e, w, []).

Definition exit {A} (code : Z) : M A := fun w => (Exit code, w, []).

(** [try { m } catch (e) { h e }]: only exceptions are caught. *)
Definition try_catch {A} (m : M A) (h : exn -> M A) : M A :=
  fun w =>
    let '(r, w1, t1) := m w in
    match r with
    | Throw e => let '(r2, w2, t2) := h e w1 in (r2, w2, t1 ++ t2)
    | _ => (r, w1, t1)
    end.

Definition emit (ev : Event) : M unit := fun w => (Val tt, w, [ev]).

Definition get_monitor : M (CourseMonitor EmptyObject) :=
  fun w => (Val (monitor w), w, []).

Definition set_monitor (m : CourseMonitor EmptyObject) : M unit :=
  fun w => (Val tt,
            {| clock := clock w; monitor := m;
               termCode := termCode w; browser := browser w;
               handled := handled w |}, []).

Definition get_termCode : M string := fun w => (Val (termCode w), w, []).

Definition get_browser : M bool := fun w => (Val (browser w), w, []).

Definition set_browser (b : bool) : M unit :=
  fun w => (Val tt,
            {| clock := clock w; monitor := monitor w;
               termCode := termCode w; browser := b;
               handled := handled w |}, []).

(** [process.on(s, cleanup)]: one more listener for [s]. *)
Definition on_signal (s : Signal) : M unit :=
  fun w => (Val tt,
            {| clock := clock w; monitor := monitor w;
               termCode := termCode w; browser := browser w;
               handled := handled w ++ [s] |}, []).


Definition tick (w : World) : World :=
  {| clock := S (clock w); monitor := monitor w;
     termCode := termCode w; browser := browser w;
     handled := handled w |}.

(** [e.message]; reading a property of [undefined] throws a TypeError. *)
Definition message_of (e : exn) : M string :=
  match e with
  | Error msg => ret msg
  | Undefined => throw (Error "Cannot read properties of undefined")
  end.

Section Oracle.
(** [env n] is the outcome of the [n]-th collaborator call of the run. *)
Variable env : nat -> Outcome.

(** [await c]: the call is made, its outcome recorded, and a rejection
    is thrown at the caller. *)
Definition call (c : Call) : M string :=
  fun w =>
    match env (clock w) with
    | Resolved v => (Val v, tick w, [Called c (Resolved v)])
    | Rejected msg => (Throw (Error msg), tick w, [Called c (Rejected msg)])
    end.
End Oracle.

Fixpoint forEach {A} (l : list A) (f : A -> M unit) : M unit :=
  match l with
  | [] => ret tt
  | x :: r => bind (f x) (fun _ => forEach r f)
  end.

End Eff.

Import Eff.

Declare Scope eff_scope.
Delimit Scope eff_scope with eff.
Notation "x <- m ;; k" := (bind m (fun x => k))
  (at level 61, m at next level, right associativity) : eff_scope.
Notation "m ;; k" := (bind m (fun _ => k))
  (at level 61, right associativity) : eff_scope.
Local Open Scope eff_scope.

(* ================================================================== *)
(** ** The program (v2.1) *)
(* ================================================================== *)

Module SeatFinder.

Section Program.
(** The outcomes of the collaborator calls, in call order. *)
Variable env : nat -> Outcome.
(** [process.env.SEAT_CHECK_INTERVAL]; [None] when it is not set. *)
Variable SEAT_CHECK_INTERVAL : option string.

(** [const CHECK_INTERVAL = Number(process.env.SEAT_CHECK_INTERVAL) || 120_000;] *)
Definition CHECK_INTERVAL : jsnum :=
  or_else (Number_opt SEAT_CHECK_INTERVAL) (int 120000).

(** The delay of the off-network branch of the loop: [sleep(60_000)]. *)
Definition OFF_NETWORK_DELAY : jsnum := int 60000.

(** [const sleep = ms => new Promise(r => setTimeout(r, ms));] *)
Definition sleep (ms : jsnum) : M unit := emit (Slept ms).

(** [async function checkMiamiConnection()] *)
Definition checkMiamiConnection : M bool :=
  try_catch (call env DnsLookup ;; ret true) (fun _ => ret false).

(** [async function sendMail(transporter, subject, text, to)] *)
Definition sendMail (m : Mail) (to : string) : M unit :=
  call env (SendMail m to) ;; ret tt.

(** The [for] loop of [withRetry], entered at index [i] with [left]
    iterations to go and [err] the last error caught. *)
Fixpoint withRetry_from {A} (fn : M A) (attempts : nat) (delay : jsnum)
         (i left : nat) (err : exn) : M A :=
  match left with
  | O => throw err
  | S left' =>
      try_catch fn
        (fun e =>
           (if Nat.ltb i (attempts - 1) then sleep delay else ret tt) ;;
           withRetry_from fn attempts delay (S i) left' e)
  end.

(** [async function withRetry(fn, attempts = 3, delay = 2000)] *)
Definition withRetry {A} (fn : M A) (attempts : nat) (delay : jsnum) : M A :=
  withRetry_from fn attempts delay 0 attempts Undefined.

(** [monitor.delete(crn)] on the module-level monitor. *)
Definition monitor_delete (crn : string) : M unit :=
  m <- get_monitor ;; set_monitor (delete crn m).

(** [const [current, max] = status.split('/').map(Number);] *)
Definition parseStatus (status : string) : jsval * jsval :=
  let fields := List.map Number (split "/" status) in
  (nth_error fields 0, nth_error fields 1).

(** [max - current > 0] *)
Definition seatsOpen (current max : jsval) : bool :=
  gt0 (sub (ToNumber max) (ToNumber current)).

Definition statusSelector (crn : string) : string := "#statusMessage" ++ crn.

(** The three statements of the branch taken when seats are open. *)
Definition notify (email crn : string) (current max : jsval) : M unit :=
  sendMail (SeatAvailable crn current max) email ;;
  emit (Log (NotificationSent crn)) ;;
  monitor_delete crn.

(** The body of the [try] block of [pollOnce]; the text answered by the
    page is the element's [innerText], trimmed by the callback. *)
Definition checkStatus (email crn : string) : M unit :=
  call env (WaitForSelector (statusSelector crn)) ;;
  text <- call env (InnerText (statusSelector crn)) ;;
  let status := trim text in
  let '(current, max) := parseStatus status in
  if seatsOpen current max then notify email crn current max
  else emit (Log (Reading crn current max)).

(** The [try { ... } catch (e) { ... }] statement of [pollOnce]. *)
Definition tryStatus (email crn : string) : M unit :=
  try_catch (checkStatus email crn)
    (fun e => msg <- message_of e ;; emit (LogError (CouldNotFetch crn msg))).

(** The body of the [for (const crn of monitor.all)] loop. *)
Definition pollCRN (email crn : string) : M unit :=
  call env (WaitForSelector "#crnNumber") ;;
  call env (ClearValue "#crnNumber") ;;
  call env (TypeText "#crnNumber" crn) ;;
  call env (Click "#courseSearch") ;;
  tryStatus email crn.

(** [async function pollOnce(email, transporter, page)] *)
Definition pollOnce (email : string) : M unit :=
  call env (WaitForSelector "#termFilter") ;;
  tc <- get_termCode ;;
  call env (Select "#termFilter" tc) ;;
  call env (WaitForSelector ".ms-choice") ;;
  call env (Click ".ms-choice") ;;
  sleep (int 500) ;;
  call env EvaluateOxford ;;
  call env (Click "body") ;;
  call env (Click "#advancedLink") ;;
  m <- get_monitor ;;
  forEach (all m) (pollCRN email).

(** [if (browser) await browser.close();] *)
Definition closeBrowser : M unit :=
  b <- get_browser ;;
  if b then call env Close ;; ret tt else ret tt.

(** [const cleanup = async () => { if (browser) await browser.close(); process.exit(0); };]
    When [browser.close()] rejects, [process.exit(0)] is not reached and
    the error goes to whoever awaits [cleanup]. *)
Definition cleanup : M unit :=
  closeBrowser ;;
  exit 0%Z.

(** Navigation and one poll:
    [await withRetry(() => page.goto(...)); await pollOnce(...);] *)
Definition cycle (email : string) : M unit :=
  withRetry (call env Goto) 3 (int 2000) ;;
  pollOnce email.

(** One pass through the body of [while (monitor.size)]. *)
Definition iteration (email : string) : M unit :=
  ok <- checkMiamiConnection ;;
  if negb ok then
    emit (LogError NotOnNetwork) ;;
    sleep OFF_NETWORK_DELAY
  else
    cycle email ;;
    m <- get_monitor ;;
    if negb (Nat.eqb (size m) 0) then sleep CHECK_INTERVAL else ret tt.

(** What follows the loop: the closing log line and [await cleanup()]. *)
Definition finish : M unit :=
  emit (Log AllDone) ;;
  cleanup.

(** [while (monitor.size) { ... }], with a budget of [fuel] passes. *)
Fixpoint monitorLoop (fuel : nat) (email : string) : M unit :=
  m <- get_monitor ;;
  if Nat.eqb (size m) 0 then ret tt
  else match fuel with
       | O => fun w => (OutOfFuel, w, [])
       | S fuel' => iteration email ;; monitorLoop fuel' email
       end.

(** The first statement of [seatFinder]:
    [if (!monitor.confirmationSent) { await sendMail(...); monitor.confirmationSent = true; }] *)
Definition confirm (email : string) : M unit :=
  m <- get_monitor ;;
  if negb (confirmationSent m) then
    sendMail (Confirmation (all m) CHECK_INTERVAL) email ;;
    m' <- get_monitor ;;
    set_monitor (markSent m')
  else ret tt.

(** The rest of [seatFinder]: the browser is launched, [cleanup] is
    installed as the listener of SIGINT and SIGTERM, the loop runs, the
    process exits.  [createTransport] and
    [page.setDefaultNavigationTimeout] only build or set values and have
    no event. *)
Definition session (fuel : nat) (email : string) : M unit :=
  call env Launch ;;
  set_browser true ;;
  call env NewPage ;;
  call env SetUserAgent ;;
  on_signal SIGINT ;;
  on_signal SIGTERM ;;
  monitorLoop fuel email ;;
  finish.

(** [async function seatFinder(email)] *)
Definition seatFinder (fuel : nat) (email : string) : M unit :=
  confirm email ;;
  session fuel email.

(** The end of the top-level function, from the connectivity check
    that follows the interactive setup; the setup has filled in the
    monitor and the term code of the starting world.  This is the main
    flow of the process: what it does as long as no signal is delivered.
    An error thrown by the handler of the [catch] (a [browser.close()]
    that rejects) leaves the function: the result is [Throw]. *)
Definition main (fuel : nat) (email : string) : M unit :=
  try_catch
    (ok <- checkMiamiConnection ;;
     if negb ok then throw (Error "Not connected to Miami network/VPN.")
     else seatFinder fuel email)
    (fun e =>
       msg <- message_of e ;;
       emit (LogError (Fatal msg)) ;;
       closeBrowser ;;
       exit 1%Z).



End Program.

End SeatFinder.

(* ================================================================== *)
(** ** The v1.0 availability test *)
(* ================================================================== *)

Module Legacy.

Section Program.
Variable env : nat -> Outcome.

(** [const [current, max] = statusMessage.split('/').map(num => parseInt(num));] *)
Definition parseStatus (statusMessage : string) : jsval * jsval :=
  let fields := List.map parseInt (split "/" statusMessage) in
  (nth_error fields 0, nth_error fields 1).

(** [async function sendEmailNotification(crn, current, max, email)]:
    the error of a failed send is logged and thrown again. *)
Definition sendEmailNotification (crn : string) (current max : jsval)
           (email : string) : M unit :=
  try_catch
    (call env (SendMail (SeatAvailable crn current max) email) ;;
     emit (Log EmailSent))
    (fun e =>
       emit (LogError (ErrorSendingEmail e)) ;;
       emit (Log CheckEmailAndNetwork) ;;
       throw e).

(** The body of the [try] block of the CRN loop of [searchCourses].
    The element found by [waitForSelector] is taken to be still there
    when its text is read, so [statusMessage] is a string.  The records
    of the registry are never read, so the block runs on the world of
    v2.1 and [monitor.courses.delete(crn)] is the same deletion. *)
Definition checkStatus (email crn : string) : M unit :=
  call env (WaitForSelector (SeatFinder.statusSelector crn)) ;;
  text <- call env (InnerText (SeatFinder.statusSelector crn)) ;;
  let statusMessage := trim text in
  if negb (is_empty statusMessage) then
    emit (Log (StatusLine crn statusMessage)) ;;
    let '(current, max) := parseStatus statusMessage in
    if negb (isNaN current) && negb (isNaN max) then
      let availableSeats := sub (ToNumber max) (ToNumber current) in
      emit (Log (AvailableSeats availableSeats)) ;;
      if gt0 availableSeats then
        emit (Log (SendingNotification crn)) ;;
        sendEmailNotification crn current max email ;;
        SeatFinder.monitor_delete crn
      else ret tt
    else ret tt
  else emit (Log (StatusNotFound crn)).

(** The [try { ... } catch (error) { ... }] statement of the CRN loop;
    the help text printed after a [TimeoutError] is not recorded. *)
Definition tryStatus (email crn : string) : M unit :=
  try_catch (checkStatus email crn)
    (fun e => msg <- message_of e ;; emit (LogError (ErrorChecking crn msg))).
End Program.

End Legacy.

(* ================================================================== *)
(** ** Observations on runs *)
(* ================================================================== *)

Module Observe.

(** An oracle that answers the calls of a run from a list, and resolves
    every call after the end of the list. *)
Definition script (l : list Outcome) (n : nat) : Outcome :=
  nth n l (Resolved "").

(** The registry after the setup has added [crns] in order. *)
Definition registry_of (crns : list string) : CourseMonitor EmptyObject :=
  fold_left (fun m crn => add21 crn m) crns (create EmptyObject).

(** The world at the end of the interactive setup. *)
Definition start (crns : list string) (term : string) : World :=
  {| clock := 0; monitor := registry_of crns;
     termCode := term; browser := false; handled := [] |}.

(** The world [n] collaborator calls later, nothing else changed. *)
Definition advance (n : nat) (w : World) : World :=
  {| clock := n + clock w; monitor := monitor w;
     termCode := termCode w; browser := browser w;
     handled := handled w |}.

Definition with_monitor (m : CourseMonitor EmptyObject) (w : World) : World :=
  {| clock := clock w; monitor := m;
     termCode := termCode w; browser := browser w;
     handled := handled w |}.

Definition trace_of {A} (x : Result A * World * list Event) : list Event :=
  snd x.

Definition world_of {A} (x : Result A * World * list Event) : World :=
  snd (fst x).

Definition result_of {A} (x : Result A * World * list Event) : Result A :=
  fst (fst x).

Definition rejected (o : Outcome) : bool :=
  match o with
  | Rejected _ => true
  | Resolved _ => false
  end.

(** The event is a send of the start-of-run confirmation mail. *)
Definition is_confirmation (ev : Event) : bool :=
  match ev with
  | Called (SendMail (Confirmation _ _) _) _ => true
  | _ => false
  end.

(** The event is a send of a seat notification. *)
Definition is_notification (ev : Event) : bool :=
  match ev with
  | Called (SendMail (SeatAvailable _ _ _) _) _ => true
  | _ => false
  end.

(** The event is a call to the page or the browser, other than the
    closing of the browser: what a poll cycle is made of. *)
Definition is_page_call (ev : Event) : bool :=
  match ev with
  | Called DnsLookup _ => false
  | Called (SendMail _ _) _ => false
  | Called Close _ => false
  | Called _ _ => true
  | _ => false
  end.

Definition is_sleep (ev : Event) : bool :=
  match ev with
  | Slept _ => true
  | _ => false
  end.

Definition is_error_line (ev : Event) : bool :=
  match ev with
  | LogError _ => true
  | _ => false
  end.

(** What the program did with one status reading: it called the
    notifier, or else it reported a failure, or else it left the CRN
    alone. *)
Inductive Choice : Type := Notify | Failure | Skip.

Definition choice_of (t : list Event) : Choice :=
  if existsb is_notification t then Notify
  else if existsb is_error_line t then Failure
  else Skip.

(** The events of one pass of the loop that finds the network
    unreachable, when the lookup is the [n]-th call. *)
Definition off_network_pass (env : nat -> Outcome) (n : nat) : list Event :=
  [Called DnsLookup (env n); LogError NotOnNetwork;
   Slept SeatFinder.OFF_NETWORK_DELAY].

(** The events of [k] such passes in a row, the first lookup being the
    [n]-th call. *)
Fixpoint off_network_passes (env : nat -> Outcome) (n k : nat) : list Event :=
  match k with
  | O => []
  | S k' => off_network_pass env n ++ off_network_passes env (S n) k'
  end.

(** The outcome [x] of a computation, seen after the events [t0]. *)
Definition preceded_by {A} (t0 : list Event)
           (x : Result A * World * list Event) : Result A * World * list Event :=
  (result_of x, world_of x, t0 ++ trace_of x).

(** The number of sends of the confirmation mail in a trace. *)
Definition confirmations (t : list Event) : nat :=
  List.length (List.filter is_confirmation t).

(** A successful send of a seat notification for [crn] to [email]. *)
Definition notified_ok (email crn : string) (ev : Event) : Prop :=
  exists current max v,
    ev = Called (SendMail (SeatAvailable crn current max) email) (Resolved v).

(** The computation [m] keeps the relation [Q]: from every world [w], it
    leads to a world [w'] through events [t] with [Q w w' t]. *)
Definition keeps (Q : World -> World -> list Event -> Prop)
           {A} (m : M A) : Prop :=
  forall w, Q w (world_of (m w)) (trace_of (m w)).

(** Example data: a recipient, an answer that resolves with nothing of
    interest, and the world after [seatFinder] has launched the browser
    for the CRNs [crns]. *)
Definition someone : string := "student@miamioh.edu".

Definition ok : Outcome := Resolved "".

Definition polling (crns : list string) (term : string) : World :=
  {| clock := 0; monitor := markSent (registry_of crns);
     termCode := term; browser := true; handled := [SIGINT; SIGTERM] |}.

(** The answers to the seven page calls that open [pollOnce], and to the
    four that enter a CRN, all resolving. *)
Definition filters_ok : list Outcome := repeat ok 7.
Definition search_ok : list Outcome := repeat ok 4.

(** Every CRN that left the registry between [w] and [w'] has a
    successful send of its notification among the events [t]. *)
Definition removal_notified (email : string)
           (w w' : World) (t : list Event) : Prop :=
  forall crn,
    In crn (all (monitor w)) -> ~ In crn (all (monitor w')) ->
    Exists (notified_ok email crn) t.

(** No send of the confirmation mail among the events. *)
Definition no_confirmation (w w' : World) (t : list Event) : Prop :=
  confirmations t = 0.

(** The flag [confirmationSent], once set, stays set. *)
Definition flag_stays (w w' : World) (t : list Event) : Prop :=
  confirmationSent (monitor w) = true -> confirmationSent (monitor w') = true.

(** What each revision does with the reading of [crn], judged by the
    events of its [try] statement. *)
Definition latest_choice (env : nat -> Outcome) (email crn : string)
           (w : World) : Choice :=
  choice_of (trace_of (SeatFinder.tryStatus env email crn w)).

Definition legacy_choice (env : nat -> Outcome) (email crn : string)
           (w : World) : Choice :=
  choice_of (trace_of (Legacy.tryStatus env email crn w)).

(** A string of decimal digits only. *)
Definition all_digits (s : string) : bool := every (is_digit 10) s.

(** A count of enrolled or of seats as the page prints it: one to
    fifteen decimal digits (a value that a Number holds exactly). *)
Definition is_count (s : string) : bool :=
  all_digits s && negb (is_empty s) && Nat.leb (String.length s) 15.

End Observe.

Import Observe.


(* ================================================================== *)
(** ** Configuration read from the environment (v2.1) *)
(* ================================================================== *)

Module Config.

Definition MIAMI_DNS : string := "mualmaip11.mcs.miamioh.edu".
Definition MIAMI_EMAIL_DOMAIN : string := "@miamioh.edu".

(** [a || b] for [a] a string or [undefined]: the empty string and
    [undefined] are falsy. *)
Definition str_or (a : option string) (b : string) : string :=
  match a with
  | Some s => if is_empty s then b else s
  | None => b
  end.

(** ToBoolean on a string or [undefined]. *)
Definition str_truthy (a : option string) : bool :=
  match a with
  | Some s => negb (is_empty s)
  | None => false
  end.

(** The [auth] object: [{ user, pass }] or [{ user }]. *)
Record Auth : Type := { user : string; pass : option string }.

(** The object given to [nodemailer.createTransport]. *)
Record Transport : Type := {
  host : string;
  port : jsnum;
  secure : bool;
  rejectUnauthorized : bool;
  auth : Auth
}.

(** The object returned by [buildLaunchOpts]. *)
Record LaunchOpts : Type := {
  headless : bool;
  slowMo : jsnum;
  args : list string
}.

Section Env.
(** The variables of [process.env] that the two functions read. *)
Variables SMTP_HOST SMTP_PORT SMTP_USER SMTP_PASS : option string.
Variables HEADLESS PUPPETEER_SLOWMO : option string.

(** [function createTransport(userEmail)] *)
Definition createTransport (userEmail : string) : Transport :=
  let host := str_or SMTP_HOST MIAMI_DNS in
  let port := or_else (Number_opt SMTP_PORT) (int 587) in
  let authUser := str_or SMTP_USER userEmail in
  let authPass := SMTP_PASS in
  {| host := host;
     port := port;
     secure := false;
     rejectUnauthorized := false;
     auth := if str_truthy authPass
             then {| user := authUser; pass := authPass |}
             else {| user := authUser; pass := None |} |}.

(** [function buildLaunchOpts()]; [x !== 'false'] on a string or
    [undefined]. *)
Definition buildLaunchOpts : LaunchOpts :=
  {| headless :=
       match HEADLESS with
       | Some s => negb (String.eqb s "false")
       | None => true
       end;
     slowMo := or_else (Number_opt PUPPETEER_SLOWMO) (int 0);
     args := ["--no-sandbox"; "--disable-setuid-sandbox"] |}.
End Env.

End Config.

(* ================================================================== *)
(** ** The interactive setup of the top-level function (v2.1) *)
(* ================================================================== *)

Module Setup.

(** [s.endsWith(suffix)]. *)
Definition endsWith (s suffix : string) : bool :=
  let n := String.length s in
  let k := String.length suffix in
  Nat.leb k n && String.eqb (substring (n - k) k s) suffix.

(** [/^\d{n}$/.test(s)] and [/^[0-9]{n}$/.test(s)]: exactly [n]
    characters, all of them decimal digits. *)
Definition test_digits (n : nat) (s : string) : bool :=
  Nat.eqb (String.length s) n && every (is_digit 10) s.

(** Reading a property of the object literal [termMap]: the key is one
    of the literal, or it names a property that every object inherits
    from [Object.prototype], or it names nothing. *)
Inductive Lookup : Type :=
| Own (code : string)
| Inherited
| Missing.

(** The property names of [Object.prototype]. *)
Definition object_prototype_keys : list string :=
  ["constructor"; "__defineGetter__"; "__defineSetter__"; "hasOwnProperty";
   "__lookupGetter__"; "__lookupSetter__"; "isPrototypeOf";
   "propertyIsEnumerable"; "toString"; "valueOf"; "__proto__";
   "toLocaleString"].

(** [termMap[termChoice]] for
    [const termMap = { 1: '10', 2: '15', 3: '20', 4: '30' };] *)
Definition termMap (termChoice : string) : Lookup :=
  if String.eqb termChoice "1" then Own "10"
  else if String.eqb termChoice "2" then Own "15"
  else if String.eqb termChoice "3" then Own "20"
  else if String.eqb termChoice "4" then Own "30"
  else if existsb (String.eqb termChoice) object_prototype_keys then Inherited
  else Missing.

(** The lines the CRN loop writes with [console.log]. *)
Inductive SetupLine : Type :=
| AddAtLeastOne
| MustBeFiveDigits
| Added (crn : string).

(** How the setup ends: an error is thrown, or the run can start, or the
    answers given to the embedding have run out while the program is
    still asking. *)
Inductive SetupResult : Type :=
| Failed (message : string)
| Ready (email termCode : string) (m : CourseMonitor EmptyObject)
| NoInput.

(** The [while (true)] loop that reads the CRNs; [answers] are the lines
    typed at the prompts, in order. *)
Fixpoint readCRNs (answers : list string) (m : CourseMonitor EmptyObject)
  : option (CourseMonitor EmptyObject) * list SetupLine :=
  match answers with
  | [] => (None, [])
  | a :: rest =>
      let crn := trim a in
      if is_empty crn then
        if negb (Nat.eqb (size m) 0) then (Some m, [])
        else let '(r, ls) := readCRNs rest m in (r, AddAtLeastOne :: ls)
      else if negb (test_digits 5 crn) then
        let '(r, ls) := readCRNs rest m in (r, MustBeFiveDigits :: ls)
      else
        let '(r, ls) := readCRNs rest (add21 crn m) in (r, Added crn :: ls)
  end.

(** The top-level function up to the end of the CRN loop.  A term choice
    that names an inherited property passes the first test, and the term
    code made with it (the year followed by the text of a function or of
    an object) is never six digits, so the second test throws. *)
Definition setup (answers : list string) : SetupResult * list SetupLine :=
  match answers with
  | [] => (NoInput, [])
  | a1 :: rest1 =>
      let email := trim a1 in
      if negb (endsWith email Config.MIAMI_EMAIL_DOMAIN)
      then (Failed "Invalid Miami email.", [])
      else
        match rest1 with
        | a2 :: a3 :: rest3 =>
            let year := trim a2 in
            let termChoice := trim a3 in
            match termMap termChoice with
            | Missing => (Failed "Invalid term choice.", [])
            | Inherited => (Failed "Term code must be 6 digits.", [])
            | Own code =>
                let termCode := (year ++ code)%string in
                if negb (test_digits 6 termCode)
                then (Failed "Term code must be 6 digits.", [])
                else
                  match readCRNs rest3 (create EmptyObject) with
                  | (Some m, ls) => (Ready email termCode m, ls)
                  | (None, ls) => (NoInput, ls)
                  end
            end
        | _ => (NoInput, [])
        end
  end.

(** The whole top-level function, as seen from outside the process: how
    it ends and the events of the run.  An error of the setup is caught
    by the same handler as an error of [seatFinder]; no browser has been
    launched then. *)
Definition program (env : nat -> Outcome) (interval : option string)
           (fuel : nat) (answers : list string) : Result unit * list Event :=
  match fst (setup answers) with
  | Failed msg => (Exit 1%Z, [LogError (Fatal msg)])
  | Ready email termCode m =>
      let run :=
        SeatFinder.main env interval fuel email
          {| clock := 0; monitor := m; termCode := termCode;
             browser := false; handled := [] |} in
      (result_of run, trace_of run)
  | NoInput => (OutOfFuel, [])
  end.

End Setup.

(* ================================================================== *)
(** ** More observations on runs *)
(* ================================================================== *)

Module Observe2.

(** The events of [k] failed attempts of [withRetry] at the call [c],
    each followed by the delay, the first attempt being the [n]-th call
    of the run. *)
Fixpoint failed_attempts (env : nat -> Outcome) (c : Call) (delay : jsnum)
         (n k : nat) : list Event :=
  match k with
  | O => []
  | S k' => Called c (env n) :: Slept delay ::
            failed_attempts env c delay (S n) k'
  end.

(** The event is a send of a mail. *)
Definition is_mail (ev : Event) : bool :=
  match ev with
  | Called (SendMail _ _) _ => true
  | _ => false
  end.

(** The computation ends with a value, with an [Error] thrown, or with
    the budget of the embedding used up: it does not end the process and
    does not throw [undefined]. *)
Definition plain {A} (m : M A) : Prop :=
  forall w,
    match result_of (m w) with
    | Throw Undefined => False
    | Exit _ => False
    | _ => True
    end.

(** The computation does not return and does not throw [undefined]: it
    throws an [Error], or uses up the budget of the embedding, or ends
    the process with code 0 in a world whose registry is empty. *)
Definition ends_well {A} (m : M A) : Prop :=
  forall w,
    match result_of (m w) with
    | OutOfFuel => True
    | Throw (Error _) => True
    | Exit c => c = 0%Z /\ size (monitor (world_of (m w))) = 0
    | _ => False
    end.

(** Between [w] and [w'] no CRN has been added and the term code has not
    changed. *)
Definition frame (w w' : World) (t : list Event) : Prop :=
  incl (all (monitor w')) (all (monitor w)) /\ termCode w' = termCode w.

(** An oracle under which every call succeeds. *)
Definition ok_script : nat -> Outcome := script [].

(** The statements [m] placed where [await seatFinder(email)] is: in the
    [try] of the top-level function, under its [catch] block. *)
Definition at_top_level (env : nat -> Outcome) (m : M unit) : M unit :=
  try_catch m
    (fun e =>
       msg <- message_of e ;;
       emit (LogError (Fatal msg)) ;;
       SeatFinder.closeBrowser env ;;
       exit 1%Z).

(** The tests that guard the notification of v1.0, on the text answered
    for the status element: [if (statusMessage)],
    [!isNaN(current) && !isNaN(max)] and [availableSeats > 0]. *)
Definition legacy_guard (text : string) : bool :=
  let statusMessage := trim text in
  negb (is_empty statusMessage) &&
  (negb (isNaN (fst (Legacy.parseStatus statusMessage))) &&
   negb (isNaN (snd (Legacy.parseStatus statusMessage)))) &&
  gt0 (sub (ToNumber (snd (Legacy.parseStatus statusMessage)))
           (ToNumber (fst (Legacy.parseStatus statusMessage)))).


(** The value of a count, as a natural number would be read. *)
Definition count_of (s : string) : Z := digits_val 10 0 s.

End Observe2.

Import Observe2.
(* ================================================================== *)
(** ** Facts about the JavaScript [Map] and the registry *)
(* ================================================================== *)

Unset Implicit Arguments.
Local Open Scope eff_scope.

Section MapFacts.
Variable V : Type.
Implicit Types (m : Map V) (k : string) (v : V).

Lemma map_set_keys_present k v m :
  In k (map_keys m) -> map_keys (map_set k v m) = map_keys m.
Proof.
  induction m as [|[k' v'] r IH]; simpl; intros H.
  - contradiction.
  - destruct (String.eqb_spec k k') as [->|Hne]; simpl.
    + reflexivity.
    + f_equal. apply IH. destruct H as [H|H]; [congruence|exact H].
Qed.

Lemma map_set_size_present k v m :
  In k (map_keys m) -> map_size (map_set k v m) = map_size m.
Proof.
  intros H. unfold map_size.
  rewrite <- (length_map fst (map_set k v m)), <- (length_map fst m).
  fold (map_keys (map_set k v m)). fold (map_keys m).
  now rewrite map_set_keys_present.
Qed.

Lemma map_set_twice k v m : map_set k v (map_set k v m) = map_set k v m.
Proof.
  induction m as [|[k' v'] r IH]; simpl.
  - now rewrite String.eqb_refl.
  - destruct (String.eqb_spec k k') as [->|Hne]; simpl.
    + now rewrite String.eqb_refl.
    + destruct (String.eqb_spec k k'); [contradiction|]. now rewrite IH.
Qed.

Lemma map_get_set k v m : map_get k (map_set k v m) = Some v.
Proof.
  induction m as [|[k' v'] r IH]; simpl.
  - now rewrite String.eqb_refl.
  - destruct (String.eqb_spec k k') as [->|Hne]; simpl.
    + now rewrite String.eqb_refl.
    + destruct (String.eqb_spec k k'); [contradiction|]. exact IH.
Qed.

Lemma map_set_same k v m :
  In k (map_keys m) ->
  (forall k' v', In (k', v') m -> v' = v) ->
  map_set k v m = m.
Proof.
  induction m as [|[k' v'] r IH]; simpl; intros H Hall.
  - contradiction.
  - destruct (String.eqb_spec k k') as [->|Hne].
    + f_equal. f_equal. symmetry. apply (Hall k'). now left.
    + f_equal. apply IH.
      * destruct H as [H|H]; [congruence|exact H].
      * intros k2 v2 Hin. apply (Hall k2). now right.
Qed.

Lemma map_delete_keys k m :
  map_keys (map_delete k m) =
  filter (fun k' => negb (String.eqb k k')) (map_keys m).
Proof.
  induction m as [|[k' v'] r IH]; simpl; [reflexivity|].
  destruct (String.eqb k k'); simpl; now rewrite IH.
Qed.

Lemma map_delete_not_in k m : ~ In k (map_keys (map_delete k m)).
Proof.
  rewrite map_delete_keys. intros H. apply filter_In in H as [_ H].
  now rewrite String.eqb_refl in H.
Qed.

Lemma map_delete_other k k' m :
  k <> k' ->
  (In k' (map_keys (map_delete k m)) <-> In k' (map_keys m)).
Proof.
  intros Hne. rewrite map_delete_keys, filter_In.
  destruct (String.eqb_spec k k'); [contradiction|]. simpl. tauto.
Qed.
End MapFacts.

(** C9.  Adding a CRN that the registry already holds changes nothing
    that can be observed: the keys and their insertion order ([all]) and
    the size stay the same, the record under the CRN is the fresh
    [{ notified: false }], a registry whose records all have
    [notified = false] is left equal to itself, and adding a CRN twice
    gives the registry that adding it once gives. *)
Theorem add_existing_crn_idempotent :
  forall (m : CourseMonitor CourseRecord) (crn : string),
    In crn (all m) ->
    all (add20 crn m) = all m /\
    size (add20 crn m) = size m /\
    map_get crn (courses (add20 crn m)) = Some {| notified := false |} /\
    ((forall k r, In (k, r) (courses m) -> notified r = false) ->
     add20 crn m = m) /\
    (forall m0 : CourseMonitor CourseRecord,
        add20 crn (add20 crn m0) = add20 crn m0).
Proof.
  intros [cs sent] crn Hin. unfold all, size, add20, add in *. simpl in *.
  repeat split.
  - now apply map_set_keys_present.
  - now apply map_set_size_present.
  - apply map_get_set.
  - intros Hall. f_equal. apply map_set_same; [exact Hin|].
    intros k' [n] Hk. specialize (Hall _ _ Hk). simpl in Hall. now subst.
  - intros [cs0 sent0]. simpl. f_equal. apply map_set_twice.
Qed.

Lemma add_existing_crn_idempotent_witness :
  let m := add20 "22222" (add20 "11111" (create CourseRecord)) in
  In "11111" (all m) /\
  all (add20 "11111" m) = ["11111"; "22222"] /\
  size (add20 "11111" m) = 2.
Proof.
  pose proof (add_existing_crn_idempotent
                (add20 "22222" (add20 "11111" (create CourseRecord)))
                "11111") as H.
  assert (Hin : In "11111"
                   (all (add20 "22222" (add20 "11111" (create CourseRecord)))))
    by (simpl; auto).
  destruct (H Hin) as (Ha & Hs & _).
  split; [exact Hin|]. split.
  - rewrite Ha. reflexivity.
  - rewrite Hs. reflexivity.
Defined.

(** The same for the registry of v2.1, whose records are [{}]. *)
Lemma add21_existing_crn (m : CourseMonitor EmptyObject) (crn : string) :
  In crn (all m) ->
  all (add21 crn m) = all m /\ size (add21 crn m) = size m /\
  add21 crn m = m.
Proof.
  destruct m as [cs sent]. unfold all, size, add21, add. simpl. intros Hin.
  repeat split.
  - now apply map_set_keys_present.
  - now apply map_set_size_present.
  - f_equal. apply map_set_same; [exact Hin|]. now intros k' [] _.
Qed.

(* ================================================================== *)
(** ** Running computations step by step *)
(* ================================================================== *)

Lemma preceded_by_nil {A} (x : Result A * World * list Event) :
  preceded_by [] x = x.
Proof. destruct x as [[r w] t]. reflexivity. Qed.

Lemma preceded_by_app {A} t1 t2 (x : Result A * World * list Event) :
  preceded_by t1 (preceded_by t2 x) = preceded_by (t1 ++ t2) x.
Proof.
  destruct x as [[r w] t]. unfold preceded_by, result_of, world_of, trace_of.
  simpl. now rewrite app_assoc.
Qed.

Lemma bind_val {A B} (m : M A) (k : A -> M B) w a w1 t1 :
  m w = (Val a, w1, t1) -> bind m k w = preceded_by t1 (k a w1).
Proof.
  intros H. unfold bind, preceded_by, result_of, world_of, trace_of.
  rewrite H. destruct (k a w1) as [[r2 w2] t2]. reflexivity.
Qed.

Lemma bind_throw {A B} (m : M A) (k : A -> M B) w e w1 t1 :
  m w = (Throw e, w1, t1) -> bind m k w = (Throw e, w1, t1).
Proof. intros H. unfold bind. now rewrite H. Qed.

Lemma try_val {A} (m : M A) (h : exn -> M A) w a w1 t1 :
  m w = (Val a, w1, t1) -> try_catch m h w = (Val a, w1, t1).
Proof. intros H. unfold try_catch. now rewrite H. Qed.

Lemma try_throw {A} (m : M A) (h : exn -> M A) w e w1 t1 :
  m w = (Throw e, w1, t1) -> try_catch m h w = preceded_by t1 (h e w1).
Proof.
  intros H. unfold try_catch, preceded_by, result_of, world_of, trace_of.
  rewrite H. destruct (h e w1) as [[r2 w2] t2]. reflexivity.
Qed.

Lemma call_resolved env c w v :
  env (clock w) = Resolved v ->
  call env c w = (Val v, tick w, [Called c (Resolved v)]).
Proof. intros H. unfold call. now rewrite H. Qed.

Lemma call_rejected env c w msg :
  env (clock w) = Rejected msg ->
  call env c w = (Throw (Error msg), tick w, [Called c (Rejected msg)]).
Proof. intros H. unfold call. now rewrite H. Qed.

Lemma call_world env c w : world_of (call env c w) = tick w.
Proof. unfold call. now destruct (env (clock w)). Qed.

Lemma call_trace env c w :
  trace_of (call env c w) = [Called c (env (clock w))].
Proof. unfold call. now destruct (env (clock w)). Qed.

Lemma advance_tick n w : advance n (tick w) = advance (S n) w.
Proof. unfold advance, tick. simpl. f_equal. lia. Qed.

Lemma advance_0 w : advance 0 w = w.
Proof. destruct w; reflexivity. Qed.

Section Steps.
Variable env : nat -> Outcome.
Variable interval : option string.
Variable email : string.

Lemma check_unreachable w msg :
  env (clock w) = Rejected msg ->
  SeatFinder.checkMiamiConnection env w =
    (Val false, tick w, [Called DnsLookup (Rejected msg)]).
Proof.
  intros H. unfold SeatFinder.checkMiamiConnection, try_catch, bind, call.
  rewrite H. reflexivity.
Qed.

Lemma check_reachable w v :
  env (clock w) = Resolved v ->
  SeatFinder.checkMiamiConnection env w =
    (Val true, tick w, [Called DnsLookup (Resolved v)]).
Proof.
  intros H. unfold SeatFinder.checkMiamiConnection, try_catch, bind, call.
  rewrite H. reflexivity.
Qed.

Lemma notify_resolved crn current max w v :
  env (clock w) = Resolved v ->
  SeatFinder.notify env email crn current max w =
    (Val tt, with_monitor (delete crn (monitor w)) (tick w),
     [Called (SendMail (SeatAvailable crn current max) email) (Resolved v);
      Log (NotificationSent crn)]).
Proof.
  intros H.
  unfold SeatFinder.notify, SeatFinder.sendMail, SeatFinder.monitor_delete.
  unfold bind, call. rewrite H. reflexivity.
Qed.

Lemma notify_rejected crn current max w msg :
  env (clock w) = Rejected msg ->
  SeatFinder.notify env email crn current max w =
    (Throw (Error msg), tick w,
     [Called (SendMail (SeatAvailable crn current max) email) (Rejected msg)]).
Proof.
  intros H.
  unfold SeatFinder.notify, SeatFinder.sendMail, SeatFinder.monitor_delete.
  unfold bind, call. rewrite H. reflexivity.
Qed.

Lemma iteration_unreachable w msg :
  env (clock w) = Rejected msg ->
  SeatFinder.iteration env interval email w =
    (Val tt, tick w, off_network_pass env (clock w)).
Proof.
  intros H. unfold SeatFinder.iteration.
  rewrite (bind_val _ _ _ _ _ _ (check_unreachable w msg H)).
  unfold off_network_pass. rewrite H. reflexivity.
Qed.

Lemma monitorLoop_step fuel w :
  size (monitor w) <> 0 ->
  SeatFinder.monitorLoop env interval (S fuel) email w =
    (SeatFinder.iteration env interval email ;;
     SeatFinder.monitorLoop env interval fuel email) w.
Proof.
  intros H. simpl. unfold bind at 1. unfold get_monitor.
  destruct (Nat.eqb_spec (size (monitor w)) 0) as [E|_]; [contradiction|].
  simpl. destruct (bind _ _ w) as [[r w1] t]. reflexivity.
Qed.

Lemma monitorLoop_done fuel w :
  size (monitor w) = 0 ->
  SeatFinder.monitorLoop env interval fuel email w = (Val tt, w, []).
Proof.
  intros H. destruct fuel; simpl; unfold bind, get_monitor; rewrite H;
    reflexivity.
Qed.
End Steps.

(* ================================================================== *)
(** ** Properties kept by every step of a computation *)
(* ================================================================== *)

Section Keeps.
Variable env : nat -> Outcome.
Variable interval : option string.
Variable email : string.

(** [Q w w' t]: going from world [w] to world [w'] while the events [t]
    happen is acceptable.  An acceptable relation holds of doing
    nothing and of doing one acceptable thing after another. *)
Variable Q : World -> World -> list Event -> Prop.
Hypothesis Q_refl : forall w, Q w w [].
Hypothesis Q_trans :
  forall w w1 w2 t1 t2, Q w w1 t1 -> Q w1 w2 t2 -> Q w w2 (t1 ++ t2).

(** The steps that the loop of [seatFinder] takes: any call other than
    a send of the confirmation mail, any event that is not a call, and
    the removal of a CRN right after the successful send of its
    notification. *)
Hypothesis Q_call :
  forall c o w, is_confirmation (Called c o) = false ->
                Q w (tick w) [Called c o].
Hypothesis Q_emit :
  forall ev w, is_confirmation ev = false -> Q w w [ev].
Hypothesis Q_notify :
  forall crn current max v w,
    Q w (with_monitor (delete crn (monitor w)) (tick w))
      [Called (SendMail (SeatAvailable crn current max) email) (Resolved v);
       Log (NotificationSent crn)].
Hypothesis Q_browser :
  forall b hs w,
    Q w {| clock := clock w; monitor := monitor w;
           termCode := termCode w; browser := b; handled := hs |} [].

Lemma keeps_ret {A} (a : A) : keeps Q (ret a).
Proof. intros w. apply Q_refl. Qed.

Lemma keeps_throw {A} e : keeps Q (@throw A e).
Proof. intros w. apply Q_refl. Qed.

Lemma keeps_exit {A} c : keeps Q (@exit A c).
Proof. intros w. apply Q_refl. Qed.

Lemma keeps_out_of_fuel {A} : keeps Q (fun w => (@OutOfFuel A, w, [])).
Proof. intros w. apply Q_refl. Qed.

Lemma keeps_bind {A B} (m : M A) (k : A -> M B) :
  keeps Q m -> (forall a, keeps Q (k a)) -> keeps Q (bind m k).
Proof.
  intros Hm Hk w. specialize (Hm w). unfold bind.
  destruct (m w) as [[r w1] t1]. unfold world_of, trace_of in *. simpl in *.
  destruct r as [a| | |]; simpl; try exact Hm.
  specialize (Hk a w1). destruct (k a w1) as [[r2 w2] t2]. simpl in *.
  eapply Q_trans; eassumption.
Qed.

Lemma keeps_try {A} (m : M A) (h : exn -> M A) :
  keeps Q m -> (forall e, keeps Q (h e)) -> keeps Q (try_catch m h).
Proof.
  intros Hm Hh w. specialize (Hm w). unfold try_catch.
  destruct (m w) as [[r w1] t1]. unfold world_of, trace_of in *. simpl in *.
  destruct r as [a|e| |]; simpl; try exact Hm.
  specialize (Hh e w1). destruct (h e w1) as [[r2 w2] t2]. simpl in *.
  eapply Q_trans; eassumption.
Qed.

Lemma keeps_forEach {A} (l : list A) (f : A -> M unit) :
  (forall x, keeps Q (f x)) -> keeps Q (forEach l f).
Proof.
  intros Hf. induction l as [|x r IH]; simpl.
  - apply keeps_ret.
  - apply keeps_bind; [apply Hf | intros _; exact IH].
Qed.

Lemma keeps_get_monitor : keeps Q get_monitor.
Proof. intros w. apply Q_refl. Qed.

Lemma keeps_get_termCode : keeps Q get_termCode.
Proof. intros w. apply Q_refl. Qed.

Lemma keeps_get_browser : keeps Q get_browser.
Proof. intros w. apply Q_refl. Qed.

Lemma keeps_message_of e : keeps Q (message_of e).
Proof. destruct e; [apply keeps_ret | apply keeps_throw]. Qed.

Lemma keeps_if {A} (b : bool) (m1 m2 : M A) :
  keeps Q m1 -> keeps Q m2 -> keeps Q (if b then m1 else m2).
Proof. now destruct b. Qed.

Lemma keeps_call c :
  (forall o, is_confirmation (Called c o) = false) ->
  keeps Q (call env c).
Proof.
  intros Hc w. rewrite call_world, call_trace. now apply Q_call.
Qed.

Lemma keeps_emit ev : is_confirmation ev = false -> keeps Q (emit ev).
Proof. intros H w. now apply Q_emit. Qed.

(** One step of a proof that a computation keeps [Q]: the rule for the
    head construct, side conditions closed by computation. *)
Ltac keeps_step :=
  first
    [ apply keeps_ret
    | apply keeps_throw
    | apply keeps_exit
    | apply keeps_out_of_fuel
    | apply keeps_get_monitor
    | apply keeps_get_termCode
    | apply keeps_get_browser
    | apply keeps_message_of
    | apply keeps_call; intros ?; reflexivity
    | apply keeps_emit; reflexivity
    | apply keeps_bind; [ | intros ? ]
    | apply keeps_try; [ | intros ? ]
    | apply keeps_if ].

Lemma keeps_checkMiamiConnection :
  keeps Q (SeatFinder.checkMiamiConnection env).
Proof. unfold SeatFinder.checkMiamiConnection. repeat keeps_step. Qed.

Lemma keeps_withRetry_from {A} (fn : M A) attempts delay left :
  keeps Q fn ->
  forall i err,
    keeps Q (SeatFinder.withRetry_from fn attempts delay i left err).
Proof.
  intros Hfn. induction left as [|left IH]; intros i err; simpl.
  - apply keeps_throw.
  - apply keeps_try; [exact Hfn | intros e].
    apply keeps_bind; [ | intros _; apply IH].
    unfold SeatFinder.sleep. repeat keeps_step.
Qed.

Lemma keeps_checkStatus crn :
  keeps Q (SeatFinder.checkStatus env email crn).
Proof.
  unfold SeatFinder.checkStatus.
  apply keeps_bind; [keeps_step | intros _].
  apply keeps_bind; [keeps_step | intros text].
  destruct (SeatFinder.parseStatus (trim text)) as [current max].
  destruct (SeatFinder.seatsOpen current max); [ | keeps_step].
  intros w.
  destruct (env (clock w)) as [v|msg] eqn:E.
  - rewrite (notify_resolved _ _ _ _ _ _ _ E).
    exact (Q_notify crn current max v w).
  - rewrite (notify_rejected _ _ _ _ _ _ _ E).
    now apply (Q_call _ (Rejected msg) w).
Qed.

Lemma keeps_tryStatus crn : keeps Q (SeatFinder.tryStatus env email crn).
Proof.
  unfold SeatFinder.tryStatus.
  apply keeps_try; [apply keeps_checkStatus | intros e].
  repeat keeps_step.
Qed.

Lemma keeps_pollCRN crn : keeps Q (SeatFinder.pollCRN env email crn).
Proof.
  unfold SeatFinder.pollCRN.
  repeat (apply keeps_bind; [keeps_step | intros _]).
  apply keeps_tryStatus.
Qed.

Lemma keeps_pollOnce : keeps Q (SeatFinder.pollOnce env email).
Proof.
  unfold SeatFinder.pollOnce, SeatFinder.sleep.
  repeat (apply keeps_bind; [keeps_step | intros ?]).
  apply keeps_forEach. apply keeps_pollCRN.
Qed.

Lemma keeps_cycle : keeps Q (SeatFinder.cycle env email).
Proof.
  unfold SeatFinder.cycle, SeatFinder.withRetry.
  apply keeps_bind; [ | intros _; apply keeps_pollOnce].
  apply keeps_withRetry_from. keeps_step.
Qed.

Lemma keeps_iteration : keeps Q (SeatFinder.iteration env interval email).
Proof.
  unfold SeatFinder.iteration, SeatFinder.sleep.
  apply keeps_bind; [apply keeps_checkMiamiConnection | intros ok].
  apply keeps_if; [repeat keeps_step | ].
  apply keeps_bind; [apply keeps_cycle | intros _].
  repeat keeps_step.
Qed.

Lemma keeps_monitorLoop fuel :
  keeps Q (SeatFinder.monitorLoop env interval fuel email).
Proof.
  induction fuel as [|fuel IH]; simpl.
  - repeat keeps_step.
  - apply keeps_bind; [keeps_step | intros m].
    apply keeps_if; [keeps_step | ].
    apply keeps_bind; [apply keeps_iteration | intros _; exact IH].
Qed.

Lemma keeps_closeBrowser : keeps Q (SeatFinder.closeBrowser env).
Proof. unfold SeatFinder.closeBrowser. repeat keeps_step. Qed.

Lemma keeps_finish : keeps Q (SeatFinder.finish env).
Proof.
  unfold SeatFinder.finish, SeatFinder.cleanup.
  apply keeps_bind; [keeps_step | intros _].
  apply keeps_bind; [apply keeps_closeBrowser | intros _]. keeps_step.
Qed.

Lemma keeps_set_browser b : keeps Q (set_browser b).
Proof. intros w. apply Q_browser. Qed.

Lemma keeps_on_signal s : keeps Q (on_signal s).
Proof. intros w. apply Q_browser. Qed.

Lemma keeps_session fuel :
  keeps Q (SeatFinder.session env interval fuel email).
Proof.
  unfold SeatFinder.session.
  apply keeps_bind; [keeps_step | intros _].
  apply keeps_bind; [apply keeps_set_browser | intros _].
  apply keeps_bind; [keeps_step | intros _].
  apply keeps_bind; [keeps_step | intros _].
  apply keeps_bind; [apply keeps_on_signal | intros _].
  apply keeps_bind; [apply keeps_on_signal | intros _].
  apply keeps_bind; [apply keeps_monitorLoop | intros _].
  apply keeps_finish.
Qed.

(** The handler of the top level. *)
Lemma keeps_fatal e :
  keeps Q (msg <- message_of e ;;
           emit (LogError (Fatal msg)) ;;
           SeatFinder.closeBrowser env ;;
           @exit unit 1%Z).
Proof.
  apply keeps_bind; [keeps_step | intros msg].
  apply keeps_bind; [keeps_step | intros _].
  apply keeps_bind; [apply keeps_closeBrowser | intros _]. keeps_step.
Qed.

Lemma keeps_main fuel :
  keeps Q (SeatFinder.confirm env interval email) ->
  keeps Q (SeatFinder.main env interval fuel email).
Proof.
  intros Hconfirm. unfold SeatFinder.main, SeatFinder.seatFinder.
  apply keeps_try; [ | intros e; apply keeps_fatal].
  apply keeps_bind; [apply keeps_checkMiamiConnection | intros okay].
  apply keeps_if; [keeps_step | ].
  apply keeps_bind; [exact Hconfirm | intros _; apply keeps_session].
Qed.
End Keeps.

(* ================================================================== *)
(** ** The monitor loop *)
(* ================================================================== *)

Section LoopFacts.
Variable env : nat -> Outcome.
Variable interval : option string.
Variable email : string.

Lemma off_network_passes_no_page_call n k :
  forallb (fun ev => negb (is_page_call ev))
          (off_network_passes env n k) = true.
Proof.
  revert n. induction k as [|k IH]; intros n; simpl; [reflexivity|].
  rewrite IH. destruct (env n); reflexivity.
Qed.

Lemma off_network_loop N : forall fuel w,
  size (monitor w) <> 0 ->
  (forall i, i < N -> rejected (env (i + clock w)) = true) ->
  SeatFinder.monitorLoop env interval (N + fuel) email w =
    preceded_by (off_network_passes env (clock w) N)
                (SeatFinder.monitorLoop env interval fuel email (advance N w)).
Proof.
  induction N as [|N IH]; intros fuel w Hsize Hrej.
  - simpl off_network_passes. now rewrite advance_0, preceded_by_nil.
  - change (S N + fuel) with (S (N + fuel)).
    rewrite monitorLoop_step by exact Hsize.
    assert (H0 : rejected (env (clock w)) = true) by (apply (Hrej 0); lia).
    destruct (env (clock w)) as [v|msg] eqn:E; [discriminate|].
    rewrite (bind_val _ _ _ _ _ _ (iteration_unreachable env interval email w msg E)).
    rewrite IH.
    + rewrite advance_tick, preceded_by_app. reflexivity.
    + exact Hsize.
    + intros i Hi. simpl. replace (i + S (clock w)) with (S i + clock w) by lia.
      apply Hrej. lia.
Qed.

Lemma cycle_navigation_exhausted w m1 m2 m3 :
  env (clock w) = Rejected m1 ->
  env (1 + clock w) = Rejected m2 ->
  env (2 + clock w) = Rejected m3 ->
  SeatFinder.cycle env email w =
    (Throw (Error m3), advance 3 w,
     [Called Goto (Rejected m1); Slept (int 2000);
      Called Goto (Rejected m2); Slept (int 2000);
      Called Goto (Rejected m3)]).
Proof.
  intros H1 H2 H3.
  unfold SeatFinder.cycle, SeatFinder.withRetry, SeatFinder.withRetry_from.
  unfold bind, try_catch, call, SeatFinder.sleep, emit, ret, throw. simpl.
  simpl in H2, H3. rewrite H1. simpl. rewrite H2. simpl. rewrite H3.
  reflexivity.
Qed.

(** When every attempt to load the page fails, the pass through the
    loop body ends with the last error thrown, and so does the loop:
    nothing in [seatFinder] catches it. *)
Lemma loop_navigation_exhausted fuel w v m1 m2 m3 :
  size (monitor w) <> 0 ->
  env (clock w) = Resolved v ->
  env (1 + clock w) = Rejected m1 ->
  env (2 + clock w) = Rejected m2 ->
  env (3 + clock w) = Rejected m3 ->
  SeatFinder.monitorLoop env interval (S fuel) email w =
    (Throw (Error m3), advance 4 w,
     [Called DnsLookup (Resolved v);
      Called Goto (Rejected m1); Slept (int 2000);
      Called Goto (Rejected m2); Slept (int 2000);
      Called Goto (Rejected m3)]).
Proof.
  intros Hsize H0 H1 H2 H3.
  rewrite monitorLoop_step by exact Hsize.
  apply bind_throw. unfold SeatFinder.iteration.
  rewrite (bind_val _ _ _ _ _ _ (check_reachable env w v H0)).
  change (negb true) with false. cbv beta iota.
  rewrite (bind_throw _ _ _ _ _ _
             (cycle_navigation_exhausted (tick w) m1 m2 m3 H1 H2 H3)).
  reflexivity.
Qed.
End LoopFacts.

(** C8.  If the connectivity probe fails [N] times in a row while CRNs
    are monitored, the loop makes [N] passes that consist of the failed
    lookup, the error line and the 60 s sleep: no call to the page is
    made, and the loop then continues from a world that differs from the
    starting one only in the count of calls made, so the registry (keys,
    records, order) is the one it started with. *)
Theorem off_network_keeps_registry :
  forall env interval email N fuel w,
    size (monitor w) <> 0 ->
    (forall i, i < N -> rejected (env (i + clock w)) = true) ->
    SeatFinder.monitorLoop env interval (N + fuel) email w =
      preceded_by (off_network_passes env (clock w) N)
                  (SeatFinder.monitorLoop env interval fuel email (advance N w)) /\
    monitor (advance N w) = monitor w /\
    forallb (fun ev => negb (is_page_call ev))
            (off_network_passes env (clock w) N) = true.
Proof.
  intros env interval email N fuel w Hsize Hrej. split; [|split].
  - now apply off_network_loop.
  - reflexivity.
  - apply off_network_passes_no_page_call.
Qed.

Lemma off_network_keeps_registry_witness :
  let env := script [Rejected "ENOTFOUND"; Rejected "ENOTFOUND";
                     Rejected "ENOTFOUND"] in
  let w := polling ["11111"; "22222"] "202610" in
  SeatFinder.monitorLoop env None (3 + 0) someone w =
    (OutOfFuel, advance 3 w,
     [Called DnsLookup (Rejected "ENOTFOUND"); LogError NotOnNetwork;
      Slept (int 60000);
      Called DnsLookup (Rejected "ENOTFOUND"); LogError NotOnNetwork;
      Slept (int 60000);
      Called DnsLookup (Rejected "ENOTFOUND"); LogError NotOnNetwork;
      Slept (int 60000)]) /\
  all (monitor (advance 3 w)) = ["11111"; "22222"].
Proof.
  intros env w.
  assert (Hsize : size (monitor w) <> 0) by (vm_compute; discriminate).
  assert (Hrej : forall i, i < 3 -> rejected (env (i + clock w)) = true).
  { intros i Hi. destruct i as [|[|[|i]]]; try reflexivity. lia. }
  destruct (off_network_keeps_registry env None someone 3 0 w Hsize Hrej)
    as (Hrun & _ & _).
  split; [rewrite Hrun|]; reflexivity.
Defined.

Section EndOfRun.
Variable env : nat -> Outcome.
Variable interval : option string.
Variable email : string.

Lemma closeBrowser_none w :
  browser w = false ->
  SeatFinder.closeBrowser env w = (Val tt, w, []).
Proof.
  intros Hb. unfold SeatFinder.closeBrowser, bind, get_browser, ret.
  now rewrite Hb.
Qed.

Lemma closeBrowser_closed w v :
  browser w = true ->
  env (clock w) = Resolved v ->
  SeatFinder.closeBrowser env w =
    (Val tt, tick w, [Called Close (Resolved v)]).
Proof.
  intros Hb H0. unfold SeatFinder.closeBrowser, bind, get_browser, ret, call.
  now rewrite Hb, H0.
Qed.

Lemma closeBrowser_failed w msg :
  browser w = true ->
  env (clock w) = Rejected msg ->
  SeatFinder.closeBrowser env w =
    (Throw (Error msg), tick w, [Called Close (Rejected msg)]).
Proof.
  intros Hb H0. unfold SeatFinder.closeBrowser, bind, get_browser, ret, call.
  now rewrite Hb, H0.
Qed.

Lemma finish_no_browser w :
  browser w = false ->
  SeatFinder.finish env w = (Exit 0%Z, w, [Log AllDone]).
Proof.
  intros Hb. unfold SeatFinder.finish, SeatFinder.cleanup.
  unfold bind at 1. unfold emit at 1.
  unfold bind. rewrite (closeBrowser_none w Hb). reflexivity.
Qed.

Lemma finish_exits w v :
  browser w = true ->
  env (clock w) = Resolved v ->
  SeatFinder.finish env w =
    (Exit 0%Z, tick w, [Log AllDone; Called Close (Resolved v)]).
Proof.
  intros Hb H0. unfold SeatFinder.finish, SeatFinder.cleanup.
  unfold bind at 1. unfold emit at 1.
  unfold bind. rewrite (closeBrowser_closed w v Hb H0). reflexivity.
Qed.

Lemma finish_close_failed w msg :
  browser w = true ->
  env (clock w) = Rejected msg ->
  SeatFinder.finish env w =
    (Throw (Error msg), tick w, [Log AllDone; Called Close (Rejected msg)]).
Proof.
  intros Hb H0. unfold SeatFinder.finish, SeatFinder.cleanup.
  unfold bind at 1. unfold emit at 1.
  unfold bind. rewrite (closeBrowser_failed w msg Hb H0). reflexivity.
Qed.

Lemma fatal_handler_no_browser msg w :
  browser w = false ->
  (m <- message_of (Error msg) ;;
   emit (LogError (Fatal m)) ;;
   SeatFinder.closeBrowser env ;;
   @exit unit 1%Z) w =
  (Exit 1%Z, w, [LogError (Fatal msg)]).
Proof.
  intros Hb.
  unfold SeatFinder.closeBrowser, bind, message_of, emit, get_browser, exit,
    ret.
  simpl. now rewrite Hb.
Qed.

Lemma fatal_handler_closes msg w v :
  browser w = true ->
  env (clock w) = Resolved v ->
  (m <- message_of (Error msg) ;;
   emit (LogError (Fatal m)) ;;
   SeatFinder.closeBrowser env ;;
   @exit unit 1%Z) w =
  (Exit 1%Z, tick w, [LogError (Fatal msg); Called Close (Resolved v)]).
Proof.
  intros Hb H0.
  unfold SeatFinder.closeBrowser, bind, message_of, emit, get_browser, exit,
    ret, call.
  simpl. now rewrite Hb, H0.
Qed.

Lemma fatal_handler_close_fails msg w msg' :
  browser w = true ->
  env (clock w) = Rejected msg' ->
  (m <- message_of (Error msg) ;;
   emit (LogError (Fatal m)) ;;
   SeatFinder.closeBrowser env ;;
   @exit unit 1%Z) w =
  (Throw (Error msg'), tick w,
   [LogError (Fatal msg); Called Close (Rejected msg')]).
Proof.
  intros Hb H0.
  unfold SeatFinder.closeBrowser, bind, message_of, emit, get_browser, exit,
    ret, call.
  simpl. now rewrite Hb, H0.
Qed.


Lemma iteration_more w v w1 t1 :
  env (clock w) = Resolved v ->
  SeatFinder.cycle env email (tick w) = (Val tt, w1, t1) ->
  size (monitor w1) <> 0 ->
  SeatFinder.iteration env interval email w =
    (Val tt, w1,
     Called DnsLookup (Resolved v) :: t1 ++
     [Slept (SeatFinder.CHECK_INTERVAL interval)]).
Proof.
  intros H0 Hc Hz. unfold SeatFinder.iteration.
  rewrite (bind_val _ _ _ _ _ _ (check_reachable env w v H0)).
  change (negb true) with false. cbv beta iota.
  rewrite (bind_val _ _ _ _ _ _ Hc).
  unfold bind, get_monitor.
  destruct (Nat.eqb_spec (size (monitor w1)) 0) as [E|_]; [contradiction|].
  reflexivity.
Qed.
End EndOfRun.

(** [main] is its [try] block run under the [catch] block. *)
Lemma main_at_top_level env interval fuel email :
  SeatFinder.main env interval fuel email =
    at_top_level env
      (okay <- SeatFinder.checkMiamiConnection env ;;
       if negb okay then throw (Error "Not connected to Miami network/VPN.")
       else SeatFinder.seatFinder env interval fuel email).
Proof. reflexivity. Qed.




(** C3 (what the code does).  A run in which the page cannot be loaded:
    the three attempts of [withRetry] fail, two seconds apart, the last
    error leaves [seatFinder], and the top level reports it as fatal,
    closes the browser (which succeeds) and exits with code 1.  No
    cadence sleep follows and the CRN is never polled. *)
Theorem navigation_exhaustion_is_fatal :
  let env := script [ok; ok; ok; ok; ok; ok;
                     Rejected "net::ERR_TIMED_OUT";
                     Rejected "net::ERR_TIMED_OUT";
                     Rejected "net::ERR_NAME_NOT_RESOLVED"] in
  let w := start ["12345"] "202610" in
  SeatFinder.main env None 10 someone w =
    (Exit 1%Z,
     with_monitor (markSent (monitor w))
       {| clock := 10; monitor := monitor w; termCode := termCode w;
          browser := true; handled := [SIGINT; SIGTERM] |},
     [Called DnsLookup ok;
      Called (SendMail (Confirmation ["12345"] (int 120000)) someone) ok;
      Called Launch ok; Called NewPage ok; Called SetUserAgent ok;
      Called DnsLookup ok;
      Called Goto (Rejected "net::ERR_TIMED_OUT"); Slept (int 2000);
      Called Goto (Rejected "net::ERR_TIMED_OUT"); Slept (int 2000);
      Called Goto (Rejected "net::ERR_NAME_NOT_RESOLVED");
      LogError (Fatal "net::ERR_NAME_NOT_RESOLVED");
      Called Close ok]).
Proof. vm_compute. reflexivity. Qed.

(* ================================================================== *)
(** ** Notification and removal *)
(* ================================================================== *)

Section Notification.
Variable env : nat -> Outcome.
Variable email : string.

Lemma tryStatus_open_sent crn w v0 text v :
  env (clock w) = Resolved v0 ->
  env (1 + clock w) = Resolved text ->
  env (2 + clock w) = Resolved v ->
  SeatFinder.seatsOpen (fst (SeatFinder.parseStatus (trim text)))
                       (snd (SeatFinder.parseStatus (trim text))) = true ->
  SeatFinder.tryStatus env email crn w =
    (Val tt, with_monitor (delete crn (monitor w)) (advance 3 w),
     [Called (WaitForSelector (SeatFinder.statusSelector crn)) (Resolved v0);
      Called (InnerText (SeatFinder.statusSelector crn)) (Resolved text);
      Called (SendMail (SeatAvailable crn
                          (fst (SeatFinder.parseStatus (trim text)))
                          (snd (SeatFinder.parseStatus (trim text)))) email)
             (Resolved v);
      Log (NotificationSent crn)]).
Proof.
  intros H0 H1 H2 Hopen. unfold SeatFinder.tryStatus.
  apply try_val. unfold SeatFinder.checkStatus.
  rewrite (bind_val _ _ _ _ _ _ (call_resolved env _ w v0 H0)).
  rewrite (bind_val _ _ _ _ _ _ (call_resolved env _ (tick w) text H1)).
  destruct (SeatFinder.parseStatus (trim text)) as [current max].
  simpl in Hopen. rewrite Hopen.
  rewrite (notify_resolved env email crn current max (tick (tick w)) v H2).
  reflexivity.
Qed.

Lemma tryStatus_open_failed crn w v0 text msg :
  env (clock w) = Resolved v0 ->
  env (1 + clock w) = Resolved text ->
  env (2 + clock w) = Rejected msg ->
  SeatFinder.seatsOpen (fst (SeatFinder.parseStatus (trim text)))
                       (snd (SeatFinder.parseStatus (trim text))) = true ->
  SeatFinder.tryStatus env email crn w =
    (Val tt, advance 3 w,
     [Called (WaitForSelector (SeatFinder.statusSelector crn)) (Resolved v0);
      Called (InnerText (SeatFinder.statusSelector crn)) (Resolved text);
      Called (SendMail (SeatAvailable crn
                          (fst (SeatFinder.parseStatus (trim text)))
                          (snd (SeatFinder.parseStatus (trim text)))) email)
             (Rejected msg);
      LogError (CouldNotFetch crn msg)]).
Proof.
  intros H0 H1 H2 Hopen. unfold SeatFinder.tryStatus.
  assert (Hthrow :
    SeatFinder.checkStatus env email crn w =
      (Throw (Error msg), advance 3 w,
       [Called (WaitForSelector (SeatFinder.statusSelector crn)) (Resolved v0);
        Called (InnerText (SeatFinder.statusSelector crn)) (Resolved text);
        Called (SendMail (SeatAvailable crn
                            (fst (SeatFinder.parseStatus (trim text)))
                            (snd (SeatFinder.parseStatus (trim text)))) email)
               (Rejected msg)])).
  { unfold SeatFinder.checkStatus.
    rewrite (bind_val _ _ _ _ _ _ (call_resolved env _ w v0 H0)).
    rewrite (bind_val _ _ _ _ _ _ (call_resolved env _ (tick w) text H1)).
    destruct (SeatFinder.parseStatus (trim text)) as [current max].
    simpl in Hopen. rewrite Hopen.
    rewrite (notify_rejected env email crn current max (tick (tick w)) msg H2).
    reflexivity. }
  rewrite (try_throw _ _ _ _ _ _ Hthrow). reflexivity.
Qed.

Lemma removal_notified_refl w : removal_notified email w w [].
Proof. intros crn Hin Hout. contradiction. Qed.

Lemma removal_notified_trans w w1 w2 t1 t2 :
  removal_notified email w w1 t1 ->
  removal_notified email w1 w2 t2 ->
  removal_notified email w w2 (t1 ++ t2).
Proof.
  intros H1 H2 crn Hin Hout. apply Exists_app.
  destruct (in_dec string_dec crn (all (monitor w1))) as [Hmid|Hmid].
  - right. now apply H2.
  - left. now apply H1.
Qed.

Lemma removal_notified_same_keys w w' t :
  all (monitor w') = all (monitor w) -> removal_notified email w w' t.
Proof. intros E crn Hin Hout. rewrite E in Hout. contradiction. Qed.

Lemma removal_notified_notify crn current max v w :
  removal_notified email w
    (with_monitor (delete crn (monitor w)) (tick w))
    [Called (SendMail (SeatAvailable crn current max) email) (Resolved v);
     Log (NotificationSent crn)].
Proof.
  intros crn0 Hin Hout. apply Exists_cons_hd.
  destruct (string_dec crn crn0) as [->|Hne].
  - now exists current, max, v.
  - exfalso. apply Hout. simpl. unfold all, delete. simpl.
    now apply map_delete_other.
Qed.

Lemma keeps_removal_notified_confirm interval :
  keeps (removal_notified email) (SeatFinder.confirm env interval email).
Proof.
  intros w. apply removal_notified_same_keys.
  unfold SeatFinder.confirm, SeatFinder.sendMail, bind, get_monitor, call,
    set_monitor, ret, world_of.
  destruct (confirmationSent (monitor w)); simpl; [reflexivity|].
  destruct (env (clock w)); reflexivity.
Qed.

Lemma main_removal_notified interval fuel :
  keeps (removal_notified email) (SeatFinder.main env interval fuel email).
Proof.
  apply keeps_main.
  - apply removal_notified_refl.
  - apply removal_notified_trans.
  - intros c o w _. now apply removal_notified_same_keys.
  - intros ev w _. now apply removal_notified_same_keys.
  - apply removal_notified_notify.
  - intros b hs w. now apply removal_notified_same_keys.
  - apply keeps_removal_notified_confirm.
Qed.
End Notification.

(** C1.  A CRN whose status element is found and whose text parses to
    [max - current > 0]: the notifier is called once, for that CRN; if
    the send succeeds the CRN is deleted from the registry, and if the
    send throws the registry is what it was, so a CRN that was in it is
    still in it.  Over a whole run, every CRN that has left the registry
    has a successful send of its notification in the trace. *)
Theorem notified_then_removed :
  forall env email crn w v0 text,
    env (clock w) = Resolved v0 ->
    env (1 + clock w) = Resolved text ->
    SeatFinder.seatsOpen (fst (SeatFinder.parseStatus (trim text)))
                         (snd (SeatFinder.parseStatus (trim text))) = true ->
    let run := SeatFinder.tryStatus env email crn w in
    let send :=
      Called (SendMail (SeatAvailable crn
                          (fst (SeatFinder.parseStatus (trim text)))
                          (snd (SeatFinder.parseStatus (trim text)))) email)
             (env (2 + clock w)) in
    result_of run = Val tt /\
    filter is_notification (trace_of run) = [send] /\
    monitor (world_of run) =
      (if rejected (env (2 + clock w)) then monitor w
       else delete crn (monitor w)) /\
    (In crn (all (monitor (world_of run))) <->
     In crn (all (monitor w)) /\ rejected (env (2 + clock w)) = true) /\
    (forall interval fuel w0,
        removal_notified email w0
          (world_of (SeatFinder.main env interval fuel email w0))
          (trace_of (SeatFinder.main env interval fuel email w0))).
Proof.
  intros env email crn w v0 text H0 H1 Hopen run send. subst run send.
  assert (Hrun : forall interval fuel w0,
             removal_notified email w0
               (world_of (SeatFinder.main env interval fuel email w0))
               (trace_of (SeatFinder.main env interval fuel email w0)))
    by (intros interval fuel w0; apply main_removal_notified).
  destruct (env (2 + clock w)) as [v|msg] eqn:H2.
  - rewrite (tryStatus_open_sent env email crn w v0 text v H0 H1 H2 Hopen).
    unfold result_of, world_of, trace_of. simpl.
    split; [reflexivity|]. split; [reflexivity|]. split; [reflexivity|].
    split; [|exact Hrun]. split.
    + intros Hin. exfalso. revert Hin. apply map_delete_not_in.
    + intros [_ H]. discriminate.
  - rewrite (tryStatus_open_failed env email crn w v0 text msg H0 H1 H2 Hopen).
    unfold result_of, world_of, trace_of. simpl.
    split; [reflexivity|]. split; [reflexivity|]. split; [reflexivity|].
    split; [|exact Hrun]. tauto.
Qed.

Lemma notified_then_removed_witness :
  let w := polling ["11111"; "22222"] "202610" in
  let sent := SeatFinder.tryStatus (script [ok; Resolved "5/10"; ok])
                                   someone "22222" w in
  let failed := SeatFinder.tryStatus
                  (script [ok; Resolved "5/10"; Rejected "relay down"])
                  someone "22222" w in
  all (monitor (world_of sent)) = ["11111"] /\
  all (monitor (world_of failed)) = ["11111"; "22222"] /\
  filter is_notification (trace_of failed) =
    [Called (SendMail (SeatAvailable "22222" (Some (int 5)) (Some (int 10)))
                      someone) (Rejected "relay down")].
Proof.
  intros w sent failed.
  destruct (notified_then_removed (script [ok; Resolved "5/10"; ok])
              someone "22222" w "" "5/10" eq_refl eq_refl eq_refl)
    as (_ & _ & Hs & _).
  destruct (notified_then_removed
              (script [ok; Resolved "5/10"; Rejected "relay down"])
              someone "22222" w "" "5/10" eq_refl eq_refl eq_refl)
    as (_ & Hn & Hf & _).
  split; [|split].
  - unfold sent. rewrite Hs. reflexivity.
  - unfold failed. rewrite Hf. reflexivity.
  - unfold failed. rewrite Hn. reflexivity.
Defined.

(** Readings are doubles.  Counts that differ by less than the spacing
    of the doubles near them read as equal, and counts beyond the range
    of the doubles read as [Infinity]: in both cases [max - current > 0]
    is false, nothing is sent and the CRN stays. *)
Example rounded_readings_are_not_open :
  let w := polling ["12345"] "202610" in
  SeatFinder.tryStatus
    (script [ok; Resolved "9007199254740992/9007199254740993"; ok])
    someone "12345" w =
    (Val tt, advance 2 w,
     [Called (WaitForSelector "#statusMessage12345") ok;
      Called (InnerText "#statusMessage12345")
             (Resolved "9007199254740992/9007199254740993");
      Log (Reading "12345" (Some (int 9007199254740992))
                           (Some (int 9007199254740992)))]) /\
  SeatFinder.tryStatus (script [ok; Resolved "1e400/1e401"; ok])
                       someone "12345" w =
    (Val tt, advance 2 w,
     [Called (WaitForSelector "#statusMessage12345") ok;
      Called (InnerText "#statusMessage12345") (Resolved "1e400/1e401");
      Log (Reading "12345" (Some PInf) (Some PInf))]).
Proof. vm_compute. split; reflexivity. Qed.

(* ================================================================== *)
(** ** The confirmation mail *)
(* ================================================================== *)

Section ConfirmationFacts.
Variable env : nat -> Outcome.
Variable interval : option string.
Variable email : string.

Lemma confirmations_app t1 t2 :
  confirmations (t1 ++ t2) = confirmations t1 + confirmations t2.
Proof. unfold confirmations. now rewrite filter_app, length_app. Qed.

Lemma confirmations_preceded {A} t0 (x : Result A * World * list Event) :
  confirmations (trace_of (preceded_by t0 x)) =
  confirmations t0 + confirmations (trace_of x).
Proof. unfold preceded_by, trace_of. simpl. apply confirmations_app. Qed.

Lemma no_confirmation_refl w : no_confirmation w w [].
Proof. reflexivity. Qed.

Lemma no_confirmation_trans w w1 w2 t1 t2 :
  no_confirmation w w1 t1 -> no_confirmation w1 w2 t2 ->
  no_confirmation w w2 (t1 ++ t2).
Proof.
  unfold no_confirmation. intros H1 H2.
  now rewrite confirmations_app, H1, H2.
Qed.

Lemma no_confirmation_one ev w w' :
  is_confirmation ev = false -> no_confirmation w w' [ev].
Proof. unfold no_confirmation, confirmations. simpl. now intros ->. Qed.

Lemma session_no_confirmation fuel :
  keeps no_confirmation (SeatFinder.session env interval fuel email).
Proof.
  apply keeps_session.
  - apply no_confirmation_refl.
  - apply no_confirmation_trans.
  - intros c o w H. now apply no_confirmation_one.
  - intros ev w H. now apply no_confirmation_one.
  - reflexivity.
  - reflexivity.
Qed.

Lemma monitorLoop_no_confirmation fuel :
  keeps no_confirmation (SeatFinder.monitorLoop env interval fuel email).
Proof.
  apply keeps_monitorLoop.
  - apply no_confirmation_refl.
  - apply no_confirmation_trans.
  - intros c o w H. now apply no_confirmation_one.
  - intros ev w H. now apply no_confirmation_one.
  - reflexivity.
Qed.

Lemma fatal_no_confirmation e w :
  confirmations
    (trace_of ((msg <- message_of e ;;
                emit (LogError (Fatal msg)) ;;
                SeatFinder.closeBrowser env ;;
                @exit unit 1%Z) w)) = 0.
Proof.
  destruct e;
    unfold SeatFinder.closeBrowser, bind, message_of, emit, get_browser,
      call, exit, ret, throw;
    simpl; [destruct (browser w); [destruct (env (clock w))|]|];
    reflexivity.
Qed.

(** [confirm] when the flag is set: nothing happens. *)
Lemma confirm_already_sent w :
  confirmationSent (monitor w) = true ->
  SeatFinder.confirm env interval email w = (Val tt, w, []).
Proof.
  intros H. unfold SeatFinder.confirm, bind, get_monitor. now rewrite H.
Qed.

(** [confirm] when the flag is not set and the send succeeds. *)
Lemma confirm_sent w v :
  confirmationSent (monitor w) = false ->
  env (clock w) = Resolved v ->
  SeatFinder.confirm env interval email w =
    (Val tt, with_monitor (markSent (monitor w)) (tick w),
     [Called (SendMail (Confirmation (all (monitor w))
                          (SeatFinder.CHECK_INTERVAL interval)) email)
             (Resolved v)]).
Proof.
  intros H E.
  unfold SeatFinder.confirm, SeatFinder.sendMail, bind, get_monitor, call,
    set_monitor, ret.
  rewrite H. simpl. rewrite E. reflexivity.
Qed.

(** [confirm] when the flag is not set and the send fails: the error is
    thrown and the flag is still not set. *)
Lemma confirm_failed w msg :
  confirmationSent (monitor w) = false ->
  env (clock w) = Rejected msg ->
  SeatFinder.confirm env interval email w =
    (Throw (Error msg), tick w,
     [Called (SendMail (Confirmation (all (monitor w))
                          (SeatFinder.CHECK_INTERVAL interval)) email)
             (Rejected msg)]).
Proof.
  intros H E.
  unfold SeatFinder.confirm, SeatFinder.sendMail, bind, get_monitor, call,
    set_monitor, ret.
  rewrite H. simpl. rewrite E. reflexivity.
Qed.

Lemma seatFinder_confirmations fuel w :
  confirmations (trace_of (SeatFinder.seatFinder env interval fuel email w))
  <= (if confirmationSent (monitor w) then 0 else 1).
Proof.
  unfold SeatFinder.seatFinder.
  destruct (confirmationSent (monitor w)) eqn:Hs.
  - rewrite (bind_val _ _ _ _ _ _ (confirm_already_sent w Hs)).
    rewrite preceded_by_nil. now rewrite (session_no_confirmation fuel w).
  - destruct (env (clock w)) as [v|msg] eqn:E.
    + rewrite (bind_val _ _ _ _ _ _ (confirm_sent w v Hs E)).
      rewrite confirmations_preceded, (session_no_confirmation fuel _).
      reflexivity.
    + rewrite (bind_throw _ _ _ _ _ _ (confirm_failed w msg Hs E)).
      reflexivity.
Qed.

Lemma trace_of_bind {A B} (m : M A) (k : A -> M B) w :
  trace_of (bind m k w) =
  trace_of (m w) ++
  match result_of (m w) with
  | Val a => trace_of (k a (world_of (m w)))
  | _ => []
  end.
Proof.
  unfold bind, trace_of, result_of, world_of.
  destruct (m w) as [[r w1] t1]. simpl.
  destruct r as [a| | |]; simpl; try now rewrite app_nil_r.
  now destruct (k a w1) as [[r2 w2] t2].
Qed.

Lemma trace_of_try {A} (m : M A) (h : exn -> M A) w :
  trace_of (try_catch m h w) =
  trace_of (m w) ++
  match result_of (m w) with
  | Throw e => trace_of (h e (world_of (m w)))
  | _ => []
  end.
Proof.
  unfold try_catch, trace_of, result_of, world_of.
  destruct (m w) as [[r w1] t1]. simpl.
  destruct r as [a|e| |]; simpl; try now rewrite app_nil_r.
  now destruct (h e w1) as [[r2 w2] t2].
Qed.

Lemma checkMiamiConnection_total w :
  SeatFinder.checkMiamiConnection env w =
    (Val (negb (rejected (env (clock w)))), tick w,
     [Called DnsLookup (env (clock w))]).
Proof.
  destruct (env (clock w)) as [v|msg] eqn:E.
  - now rewrite (check_reachable env w v E).
  - now rewrite (check_unreachable env w msg E).
Qed.

Lemma main_confirmations fuel w :
  confirmations (trace_of (SeatFinder.main env interval fuel email w))
  <= (if confirmationSent (monitor w) then 0 else 1).
Proof.
  unfold SeatFinder.main. rewrite trace_of_try, confirmations_app.
  match goal with
  | |- _ + confirmations ?t <= _ =>
      assert (Hh : confirmations t = 0)
  end.
  { destruct (result_of _); try reflexivity. apply fatal_no_confirmation. }
  rewrite Hh, Nat.add_0_r.
  rewrite (bind_val _ _ _ _ _ _ (checkMiamiConnection_total w)).
  rewrite confirmations_preceded.
  change (confirmations [Called DnsLookup (env (clock w))]) with 0.
  destruct (rejected (env (clock w))); simpl negb; cbv iota.
  - change (0 + 0 <= (if confirmationSent (monitor w) then 0 else 1)).
    destruct (confirmationSent (monitor w)); lia.
  - apply (seatFinder_confirmations fuel (tick w)).
Qed.
End ConfirmationFacts.

(** The flag [confirmationSent] is never cleared: once it is set, it is
    set in every later world of the run. *)
Lemma flag_stays_set env interval email fuel :
  keeps flag_stays (SeatFinder.session env interval fuel email).
Proof.
  apply keeps_session; unfold flag_stays; auto.
Qed.

(** C7.  A run sends the confirmation mail at most once, whatever the
    number of passes through the loop: [main] and [seatFinder] send it at
    most once, and not at all when the flag [confirmationSent] is already
    set; the loop itself never sends it. *)
Theorem confirmation_sent_at_most_once :
  forall env interval fuel email w,
    confirmations (trace_of (SeatFinder.main env interval fuel email w))
      <= (if confirmationSent (monitor w) then 0 else 1) /\
    confirmations (trace_of (SeatFinder.seatFinder env interval fuel email w))
      <= (if confirmationSent (monitor w) then 0 else 1) /\
    confirmations (trace_of (SeatFinder.monitorLoop env interval fuel email w))
      = 0.
Proof.
  intros env interval fuel email w. split; [|split].
  - apply main_confirmations.
  - apply seatFinder_confirmations.
  - apply (monitorLoop_no_confirmation env interval email fuel w).
Qed.

(** C4 (what the code does).  When the send of the confirmation mail
    fails, the error leaves [seatFinder] before the browser is launched;
    the top level logs it as fatal and the process exits with code 1.
    The flag is not set and the loop is never entered. *)
Theorem confirmation_failure_is_fatal :
  forall env interval fuel email w v msg,
    confirmationSent (monitor w) = false ->
    browser w = false ->
    env (clock w) = Resolved v ->
    env (1 + clock w) = Rejected msg ->
    SeatFinder.main env interval fuel email w =
      (Exit 1%Z, advance 2 w,
       [Called DnsLookup (Resolved v);
        Called (SendMail (Confirmation (all (monitor w))
                             (SeatFinder.CHECK_INTERVAL interval)) email)
               (Rejected msg);
        LogError (Fatal msg)]).
Proof.
  intros env interval fuel email w v msg Hs Hb H0 H1.
  unfold SeatFinder.main.
  assert (Hthrow :
    (okay <- SeatFinder.checkMiamiConnection env ;;
     if negb okay then throw (Error "Not connected to Miami network/VPN.")
     else SeatFinder.seatFinder env interval fuel email) w =
    (Throw (Error msg), advance 2 w,
     [Called DnsLookup (Resolved v);
      Called (SendMail (Confirmation (all (monitor w))
                           (SeatFinder.CHECK_INTERVAL interval)) email)
             (Rejected msg)])).
  { rewrite (bind_val _ _ _ _ _ _ (check_reachable env w v H0)).
    change (negb true) with false. cbv beta iota.
    unfold SeatFinder.seatFinder.
    rewrite (bind_throw _ _ _ _ _ _
               (confirm_failed env interval email (tick w) msg Hs H1)).
    reflexivity. }
  rewrite (try_throw _ _ _ _ _ _ Hthrow).
  unfold SeatFinder.closeBrowser, bind, message_of, emit, get_browser, exit,
    ret.
  simpl. rewrite Hb. reflexivity.
Qed.

Lemma confirmation_failure_is_fatal_witness :
  let env := script [ok; Rejected "ECONNREFUSED"] in
  let w := start ["12345"; "67890"] "202610" in
  SeatFinder.main env None 10 someone w =
    (Exit 1%Z, advance 2 w,
     [Called DnsLookup ok;
      Called (SendMail (Confirmation ["12345"; "67890"] (int 120000)) someone)
             (Rejected "ECONNREFUSED");
      LogError (Fatal "ECONNREFUSED")]).
Proof.
  intros env w.
  exact (confirmation_failure_is_fatal env None 10 someone w ""
           "ECONNREFUSED" eq_refl eq_refl eq_refl eq_refl).
Defined.

(** C4 as stated fails: here the confirmation mail cannot be sent, every
    later call would succeed, and still the run ends at once with exit
    code 1, without a single call to the page and without a probe of the
    loop. *)
Lemma confirmation_failure_stops_monitoring :
  let env := script [ok; Rejected "ECONNREFUSED"] in
  let run := SeatFinder.main env None 10 someone (start ["12345"] "202610") in
  result_of run = Exit 1%Z /\
  existsb is_page_call (trace_of run) = false /\
  List.length (trace_of run) = 3 /\
  all (monitor (world_of run)) = ["12345"].
Proof. vm_compute. repeat split; reflexivity. Qed.

(* ================================================================== *)
(** ** The delay of the off-network branch *)
(* ================================================================== *)

(** C5 (what the code does).  When the probe fails, the pass through the
    loop sleeps 60000 ms, whatever the polling interval is set to, and
    the loop goes back to the probe.  The default interval is 120000 ms,
    so the delay is shorter than the default cadence; for an interval
    set lower, such as 30000 ms, it is the longer of the two. *)
Theorem off_network_delay_is_fixed :
  forall env interval email fuel w msg,
    size (monitor w) <> 0 ->
    env (clock w) = Rejected msg ->
    SeatFinder.monitorLoop env interval (S fuel) email w =
      preceded_by
        [Called DnsLookup (Rejected msg); LogError NotOnNetwork;
         Slept (int 60000)]
        (SeatFinder.monitorLoop env interval fuel email (tick w)) /\
    SeatFinder.CHECK_INTERVAL None = int 120000 /\
    lt (int 60000) (SeatFinder.CHECK_INTERVAL None) = true /\
    lt (SeatFinder.CHECK_INTERVAL (Some "30000")) (int 60000) = true.
Proof.
  intros env interval email fuel w msg Hsize H.
  split; [|repeat split].
  rewrite monitorLoop_step by exact Hsize.
  rewrite (bind_val _ _ _ _ _ _ (iteration_unreachable env interval email w msg H)).
  unfold off_network_pass. rewrite H. reflexivity.
Qed.

Lemma off_network_delay_is_fixed_witness :
  let env := script [Rejected "ENOTFOUND"] in
  let w := polling ["12345"] "202610" in
  SeatFinder.monitorLoop env (Some "5000") 1 someone w =
    (OutOfFuel, tick w,
     [Called DnsLookup (Rejected "ENOTFOUND"); LogError NotOnNetwork;
      Slept (int 60000)]).
Proof.
  intros env w.
  assert (Hsize : size (monitor w) <> 0) by (vm_compute; discriminate).
  destruct (off_network_delay_is_fixed env (Some "5000") someone 0 w
              "ENOTFOUND" Hsize eq_refl) as (Hrun & _).
  rewrite Hrun. reflexivity.
Defined.

(** C5 as stated fails: with the interval left at its default, the
    delay taken when the network is unreachable is 60000 ms and the
    cadence is 120000 ms, so the delay is not the longer one. *)
Lemma off_network_delay_shorter_than_default_cadence :
  let env := script [Rejected "ENOTFOUND"] in
  let run := SeatFinder.iteration env None someone
                                  (polling ["12345"] "202610") in
  filter is_sleep (trace_of run) = [Slept (int 60000)] /\
  SeatFinder.CHECK_INTERVAL None = int 120000 /\
  lt (SeatFinder.CHECK_INTERVAL None) (int 60000) = false.
Proof. vm_compute. repeat split; reflexivity. Qed.

(* ================================================================== *)
(** ** Reading the status text *)
(* ================================================================== *)

Lemma digit_char c :
  is_digit 10 c = true ->
  is_ws c = false /\
  Ascii.eqb c "/" = false /\
  Ascii.eqb c "+" = false /\
  Ascii.eqb c "-" = false /\
  Ascii.eqb c "." = false /\
  Ascii.eqb c "x" = false /\ Ascii.eqb c "X" = false /\
  Ascii.eqb c "I" = false.
Proof.
  destruct c as [b0 b1 b2 b3 b4 b5 b6 b7].
  destruct b0, b1, b2, b3, b4, b5, b6, b7; intros H;
    try discriminate H; repeat split; reflexivity.
Qed.

Lemma append_empty_r s : (s ++ "")%string = s.
Proof. induction s as [|c r IH]; simpl; [reflexivity|now rewrite IH]. Qed.

Lemma every_append p a b :
  every p (a ++ b)%string = every p a && every p b.
Proof.
  induction a as [|c r IH]; simpl; [reflexivity|].
  now rewrite IH, andb_assoc.
Qed.

Lemma every_weaken (p q : ascii -> bool) s :
  (forall c, p c = true -> q c = true) -> every p s = true -> every q s = true.
Proof.
  intros Hpq. induction s as [|c r IH]; simpl; [reflexivity|].
  intros H. apply andb_true_iff in H as [Hc Hr].
  now rewrite (Hpq c Hc), IH.
Qed.

Lemma span_every p s : every p s = true -> span p s = (s, "").
Proof.
  induction s as [|c r IH]; simpl; [reflexivity|].
  intros H. apply andb_true_iff in H as [Hc Hr].
  now rewrite Hc, IH.
Qed.

Lemma trimEnd_no_ws s :
  every (fun c => negb (is_ws c)) s = true -> trimEnd s = s.
Proof.
  induction s as [|c r IH]; simpl; [reflexivity|].
  intros H. apply andb_true_iff in H as [Hc Hr].
  rewrite IH by exact Hr. apply negb_true_iff in Hc. now rewrite Hc.
Qed.

Lemma trimStart_no_ws s :
  every (fun c => negb (is_ws c)) s = true -> trimStart s = s.
Proof.
  destruct s as [|c r]; simpl; [reflexivity|].
  intros H. apply andb_true_iff in H as [Hc _].
  apply negb_true_iff in Hc. now rewrite Hc.
Qed.

Lemma trim_no_ws s :
  every (fun c => negb (is_ws c)) s = true -> trim s = s.
Proof.
  intros H. unfold trim. rewrite trimStart_no_ws by exact H.
  now apply trimEnd_no_ws.
Qed.

Lemma digits_no_ws d :
  all_digits d = true -> every (fun c => negb (is_ws c)) d = true.
Proof.
  apply every_weaken. intros c Hc.
  destruct (digit_char c Hc) as (-> & _). reflexivity.
Qed.

Lemma split_no_sep sep s :
  every (fun c => negb (Ascii.eqb c sep)) s = true -> split sep s = [s].
Proof.
  induction s as [|c r IH]; simpl; [reflexivity|].
  intros H. apply andb_true_iff in H as [Hc Hr].
  apply negb_true_iff in Hc. now rewrite Hc, IH.
Qed.

Lemma split_at_sep sep a b :
  every (fun c => negb (Ascii.eqb c sep)) a = true ->
  split sep (a ++ String sep b)%string = a :: split sep b.
Proof.
  induction a as [|c r IH]; simpl.
  - intros _. now rewrite Ascii.eqb_refl.
  - intros H. apply andb_true_iff in H as [Hc Hr].
    apply negb_true_iff in Hc. now rewrite Hc, IH.
Qed.

Lemma digits_no_slash d :
  all_digits d = true -> every (fun c => negb (Ascii.eqb c "/")) d = true.
Proof.
  apply every_weaken. intros c Hc.
  destruct (digit_char c Hc) as (_ & -> & _). reflexivity.
Qed.

Lemma split_pair d1 d2 :
  all_digits d1 = true -> all_digits d2 = true ->
  split "/" (d1 ++ "/" ++ d2)%string = [d1; d2].
Proof.
  intros H1 H2. change ("/" ++ d2)%string with (String "/" d2).
  rewrite split_at_sep by now apply digits_no_slash.
  now rewrite split_no_sep by now apply digits_no_slash.
Qed.

Lemma trim_pair d1 d2 :
  all_digits d1 = true -> all_digits d2 = true ->
  trim (d1 ++ "/" ++ d2)%string = (d1 ++ "/" ++ d2)%string.
Proof.
  intros H1 H2. apply trim_no_ws.
  change ("/" ++ d2)%string with (String "/" d2).
  rewrite every_append. simpl.
  now rewrite !digits_no_ws.
Qed.

(** *** Rounding is exact on the integers up to [2^53] *)

Lemma signed_abs n : signed (n <? 0)%Z (Z.abs n) = n.
Proof. unfold signed. destruct (Z.ltb_spec n 0); lia. Qed.

Lemma to_double_int n :
  (Z.abs n <= 2 ^ 53)%Z -> to_double n 0 = int n.
Proof.
  intros Hn. unfold to_double, int.
  destruct (Z.eqb_spec n 0) as [->|Hz]; [reflexivity|].
  change (0 <=? 0)%Z with true. cbv iota.
  change (10 ^ 0)%Z with 1%Z. rewrite Z.mul_1_r.
  change (Z.log2 1) with 0%Z. rewrite Z.sub_0_r.
  set (N := Z.abs n) in *.
  assert (HN : (0 < N)%Z) by (unfold N; lia).
  pose proof (Z.log2_spec N HN) as [Hlo Hhi].
  pose proof (Z.log2_nonneg N) as Hl0.
  set (l := Z.log2 N) in *.
  assert (Hl53 : (l <= 53)%Z).
  { destruct (Z_le_gt_dec l 53) as [H|H]; [exact H|exfalso].
    assert (2 ^ 54 <= 2 ^ l)%Z by (apply Z.pow_le_mono_r; lia).
    change (2 ^ 54)%Z with 18014398509481984%Z in *.
    change (2 ^ 53)%Z with 9007199254740992%Z in *. lia. }
  cbv zeta.
  destruct (Z.leb_spec 0 l) as [_|]; [|lia].
  rewrite Z.mul_1_l.
  destruct (Z.leb_spec (2 ^ l) N) as [_|]; [|lia].
  rewrite (Z.max_l (l - 52) (-1074)) by lia.
  destruct (Z.leb_spec 0 (l - 52)) as [Hk|Hk].
  - rewrite Z.mul_1_l.
    assert (Hmod : (N mod 2 ^ (l - 52) = 0)%Z).
    { assert (l = 52 \/ l = 53)%Z as [E|E] by lia; rewrite E.
      - change (2 ^ (52 - 52))%Z with 1%Z. apply Z.mod_1_r.
      - change (2 ^ (53 - 52))%Z with 2%Z.
        rewrite E in Hlo. assert (N = 2 ^ 53)%Z as -> by lia. reflexivity. }
    rewrite Hmod.
    assert (Hpos : (0 < 2 ^ (l - 52))%Z) by (apply Z.pow_pos_nonneg; lia).
    destruct (Z.ltb_spec (2 * 0) (2 ^ (l - 52))) as [_|]; [|lia].
    assert (Hq : (N / 2 ^ (l - 52) * 2 ^ (l - 52) = N)%Z).
    { pose proof (Z.div_mod N (2 ^ (l - 52))) as E. lia. }
    rewrite Hq.
    destruct (Z.leb_spec (2 ^ 1024) N) as [Hbig|_].
    + exfalso.
      assert (2 ^ 53 < 2 ^ 1024)%Z by (apply Z.pow_lt_mono_r; lia). lia.
    + unfold N. now rewrite signed_abs.
  - rewrite Z.mod_1_r, Z.div_1_r.
    change (2 * 0 <? 1)%Z with true. cbv iota.
    assert (Hpos : (0 < 2 ^ (- (l - 52)))%Z) by (apply Z.pow_pos_nonneg; lia).
    set (P := (2 ^ (- (l - 52)))%Z) in *.
    assert (Hg : Z.gcd (N * P) P = P).
    { rewrite Z.gcd_comm, (Z.mul_comm N P). apply Z.gcd_mul_diag_l. lia. }
    rewrite Hg, Z.div_same, Z.div_mul by lia.
    change (Z.log2 1) with 0%Z. change (5 ^ 0)%Z with 1%Z. rewrite Z.mul_1_r.
    unfold N. now rewrite signed_abs.
Qed.

Lemma to_double_int_truthy n : n <> 0%Z -> truthy (to_double n 0) = true.
Proof.
  intros Hz.
  destruct (Z_le_gt_dec (Z.abs n) (2 ^ 53)) as [Hs|Hb].
  { rewrite to_double_int by exact Hs. unfold int, truthy.
    destruct (Z.eqb_spec n 0); [contradiction|reflexivity]. }
  unfold to_double.
  destruct (Z.eqb_spec n 0) as [|_]; [contradiction|].
  change (0 <=? 0)%Z with true. cbv iota.
  change (10 ^ 0)%Z with 1%Z. rewrite Z.mul_1_r.
  change (Z.log2 1) with 0%Z. rewrite Z.sub_0_r.
  set (N := Z.abs n) in *.
  assert (HN : (0 < N)%Z) by (unfold N; lia).
  pose proof (Z.log2_spec N HN) as [Hlo Hhi].
  assert (Hl53 : (53 <= Z.log2 N)%Z).
  { rewrite <- (Z.log2_pow2 53) by lia. apply Z.log2_le_mono. lia. }
  set (l := Z.log2 N) in *.
  cbv zeta.
  destruct (Z.leb_spec 0 l) as [_|]; [|lia].
  rewrite Z.mul_1_l.
  destruct (Z.leb_spec (2 ^ l) N) as [_|]; [|lia].
  rewrite (Z.max_l (l - 52) (-1074)) by lia.
  destruct (Z.leb_spec 0 (l - 52)) as [_|]; [|lia].
  rewrite Z.mul_1_l.
  assert (Hpos : (0 < 2 ^ (l - 52))%Z) by (apply Z.pow_pos_nonneg; lia).
  assert (Hq : (2 ^ 52 <= N / 2 ^ (l - 52))%Z).
  { apply Z.div_le_lower_bound; [exact Hpos|].
    rewrite <- Z.pow_add_r by lia.
    replace (l - 52 + 52)%Z with l by lia. exact Hlo. }
  set (q := (N / 2 ^ (l - 52))%Z) in *.
  set (r := (N mod 2 ^ (l - 52))%Z).
  set (q' := if (2 * r <? 2 ^ (l - 52))%Z then q
             else if (2 ^ (l - 52) <? 2 * r)%Z then (q + 1)%Z
                  else if Z.even q then q else (q + 1)%Z).
  assert (Hq' : (0 < q')%Z).
  { assert (0 < 2 ^ 52)%Z by (apply Z.pow_pos_nonneg; lia).
    subst q'. destruct (2 * r <? 2 ^ (l - 52))%Z; [lia|].
    destruct (2 ^ (l - 52) <? 2 * r)%Z; [lia|].
    destruct (Z.even q); lia. }
  destruct (2 ^ 1024 <=? q' * 2 ^ (l - 52))%Z.
  - destruct (n <? 0)%Z; reflexivity.
  - assert (0 < q' * 2 ^ (l - 52))%Z by (apply Z.mul_pos_pos; assumption).
    unfold truthy, signed.
    destruct (n <? 0)%Z;
      match goal with |- negb (?x =? 0)%Z = true =>
        destruct (Z.eqb_spec x 0); [lia|reflexivity] end.
Qed.

Lemma digit_of_range c d :
  digit_of 10 c = Some d -> (0 <= d < 10)%Z.
Proof.
  unfold digit_of.
  set (n := Z.of_N (N_of_ascii c)).
  destruct ((48 <=? n)%Z && (n <=? 57)%Z) eqn:E1.
  { apply andb_true_iff in E1 as [A B].
    apply Z.leb_le in A. apply Z.leb_le in B.
    destruct (Z.ltb_spec (n - 48) 10); intros Hs; inversion Hs; lia. }
  destruct ((97 <=? n)%Z && (n <=? 102)%Z) eqn:E2.
  { apply andb_true_iff in E2 as [A B].
    apply Z.leb_le in A. apply Z.leb_le in B.
    destruct (Z.ltb_spec (n - 87) 10); intros Hs; inversion Hs; lia. }
  destruct ((65 <=? n)%Z && (n <=? 70)%Z) eqn:E3.
  { apply andb_true_iff in E3 as [A B].
    apply Z.leb_le in A. apply Z.leb_le in B.
    destruct (Z.ltb_spec (n - 55) 10); intros Hs; inversion Hs; lia. }
  discriminate.
Qed.

Lemma digits_val_range d :
  forall acc,
    (0 <= acc)%Z ->
    (0 <= digits_val 10 acc d <
     (acc + 1) * 10 ^ Z.of_nat (String.length d))%Z.
Proof.
  induction d as [|c r IH]; intros acc Hacc.
  - simpl. lia.
  - cbn [digits_val String.length].
    assert (Hp : (0 < 10 ^ Z.of_nat (String.length r))%Z)
      by (apply Z.pow_pos_nonneg; lia).
    rewrite Nat2Z.inj_succ, Z.pow_succ_r by lia.
    destruct (digit_of 10 c) as [dv|] eqn:E.
    + pose proof (digit_of_range c dv E) as Hdv.
      destruct (IH (acc * 10 + dv)%Z) as [H1 H2]; [lia|].
      split; [exact H1|]. nia.
    + nia.
Qed.

Lemma count_is_exact d :
  Nat.leb (String.length d) 15 = true ->
  (Z.abs (digits_val 10 0 d) <= 2 ^ 53)%Z.
Proof.
  intros Hlen. apply Nat.leb_le in Hlen.
  destruct (digits_val_range d 0%Z) as [H1 H2]; [lia|].
  assert (10 ^ Z.of_nat (String.length d) <= 10 ^ 15)%Z
    by (apply Z.pow_le_mono_r; lia).
  change (10 ^ 15)%Z with 1000000000000000%Z in *.
  change (2 ^ 53)%Z with 9007199254740992%Z. lia.
Qed.

Lemma Number_digits d :
  all_digits d = true -> is_empty d = false ->
  Number d = to_double (digits_val 10 0 d) 0.
Proof.
  intros Hd Hne. unfold Number. rewrite trim_no_ws by now apply digits_no_ws.
  unfold StringToNumber. rewrite Hne.
  destruct d as [|c r]; [discriminate|].
  unfold all_digits in Hd. assert (Hall := Hd).
  cbn [every] in Hd. apply andb_true_iff in Hd as [Hc Hr].
  destruct (digit_char c Hc) as (_ & _ & Hplus & Hminus & _ & _ & _ & HI).
  assert (Hnd : non_decimal (String c r) = None).
  { destruct r as [|x r']; [reflexivity|]. cbn [every] in Hr.
    apply andb_true_iff in Hr as [Hx _].
    destruct (digit_char x Hx) as (_ & _ & _ & _ & _ & Hx1 & Hx2 & _).
    unfold non_decimal.
    destruct (Ascii.eqb c "0"); simpl; [|reflexivity].
    rewrite Hx1, Hx2. simpl.
    destruct x as [b0 b1 b2 b3 b4 b5 b6 b7].
    destruct b0, b1, b2, b3, b4, b5, b6, b7; try discriminate Hx; reflexivity. }
  rewrite Hnd. unfold strip_sign. rewrite Hplus, Hminus.
  simpl String.eqb. rewrite HI.
  unfold unsigned_decimal.
  rewrite (span_every _ _ Hall). simpl.
  now rewrite append_empty_r.
Qed.

Lemma parseInt_digits d :
  all_digits d = true -> is_empty d = false ->
  parseInt d = to_double (digits_val 10 0 d) 0.
Proof.
  intros Hd Hne. unfold parseInt.
  rewrite trimStart_no_ws by now apply digits_no_ws.
  destruct d as [|c r]; [discriminate|].
  unfold all_digits in Hd. assert (Hall := Hd).
  cbn [every] in Hd. apply andb_true_iff in Hd as [Hc Hr].
  destruct (digit_char c Hc) as (_ & _ & Hplus & Hminus & _).
  unfold strip_sign. rewrite Hplus, Hminus.
  destruct r as [|x r'].
  - rewrite (span_every _ _ Hall). reflexivity.
  - cbn [every] in Hr. apply andb_true_iff in Hr as [Hx _].
    destruct (digit_char x Hx) as (_ & _ & _ & _ & _ & Hx1 & Hx2 & _).
    rewrite Hx1, Hx2, andb_false_r.
    rewrite (span_every _ _ Hall). reflexivity.
Qed.


(* ================================================================== *)
(** ** The two availability tests *)
(* ================================================================== *)

Lemma is_count_digits s :
  is_count s = true -> all_digits s = true /\ is_empty s = false.
Proof.
  unfold is_count. intros H.
  apply andb_true_iff in H as [H _]. apply andb_true_iff in H as [H1 H2].
  split; [exact H1|]. now apply negb_true_iff in H2.
Qed.

Lemma is_empty_append a b : is_empty a = false -> is_empty (a ++ b)%string = false.
Proof. now destruct a. Qed.

Lemma is_count_exact s :
  is_count s = true -> (Z.abs (digits_val 10 0 s) <= 2 ^ 53)%Z.
Proof.
  unfold is_count. intros H. apply andb_true_iff in H as [_ H].
  now apply count_is_exact.
Qed.

Lemma Number_count d :
  is_count d = true -> Number d = int (digits_val 10 0 d).
Proof.
  intros H. destruct (is_count_digits _ H) as [Hd He].
  rewrite Number_digits by assumption.
  apply to_double_int. now apply is_count_exact.
Qed.

Lemma parseInt_count d :
  is_count d = true -> parseInt d = int (digits_val 10 0 d).
Proof.
  intros H. destruct (is_count_digits _ H) as [Hd He].
  rewrite parseInt_digits by assumption.
  apply to_double_int. now apply is_count_exact.
Qed.

Section Revisions.
Variable env : nat -> Outcome.
Variable email crn : string.

Lemma latest_parse_counts d1 d2 :
  is_count d1 = true -> is_count d2 = true ->
  SeatFinder.parseStatus (d1 ++ "/" ++ d2)%string =
    (Some (int (digits_val 10 0 d1)), Some (int (digits_val 10 0 d2))).
Proof.
  intros H1 H2.
  destruct (is_count_digits _ H1) as [Hd1 He1].
  destruct (is_count_digits _ H2) as [Hd2 He2].
  unfold SeatFinder.parseStatus. rewrite split_pair by assumption.
  simpl. now rewrite !Number_count by assumption.
Qed.

Lemma legacy_parse_counts d1 d2 :
  is_count d1 = true -> is_count d2 = true ->
  Legacy.parseStatus (d1 ++ "/" ++ d2)%string =
    (Some (int (digits_val 10 0 d1)), Some (int (digits_val 10 0 d2))).
Proof.
  intros H1 H2.
  destruct (is_count_digits _ H1) as [Hd1 He1].
  destruct (is_count_digits _ H2) as [Hd2 He2].
  unfold Legacy.parseStatus. rewrite split_pair by assumption.
  simpl. now rewrite !parseInt_count by assumption.
Qed.

Lemma tryStatus_closed w v0 text :
  env (clock w) = Resolved v0 ->
  env (1 + clock w) = Resolved text ->
  SeatFinder.seatsOpen (fst (SeatFinder.parseStatus (trim text)))
                       (snd (SeatFinder.parseStatus (trim text))) = false ->
  SeatFinder.tryStatus env email crn w =
    (Val tt, advance 2 w,
     [Called (WaitForSelector (SeatFinder.statusSelector crn)) (Resolved v0);
      Called (InnerText (SeatFinder.statusSelector crn)) (Resolved text);
      Log (Reading crn (fst (SeatFinder.parseStatus (trim text)))
                       (snd (SeatFinder.parseStatus (trim text))))]).
Proof.
  intros H0 H1 Hclosed. unfold SeatFinder.tryStatus.
  apply try_val. unfold SeatFinder.checkStatus.
  rewrite (bind_val _ _ _ _ _ _ (call_resolved env _ w v0 H0)).
  rewrite (bind_val _ _ _ _ _ _ (call_resolved env _ (tick w) text H1)).
  destruct (SeatFinder.parseStatus (trim text)) as [current max].
  simpl in Hclosed. rewrite Hclosed. reflexivity.
Qed.

Lemma legacy_tryStatus_counts w v0 text a b :
  env (clock w) = Resolved v0 ->
  env (1 + clock w) = Resolved text ->
  is_empty (trim text) = false ->
  Legacy.parseStatus (trim text) = (Some (int a), Some (int b)) ->
  Legacy.tryStatus env email crn w =
    if gt0 (sub (int b) (int a)) then
      match env (2 + clock w) with
      | Resolved v =>
          (Val tt, with_monitor (delete crn (monitor w)) (advance 3 w),
           [Called (WaitForSelector (SeatFinder.statusSelector crn)) (Resolved v0);
            Called (InnerText (SeatFinder.statusSelector crn)) (Resolved text);
            Log (StatusLine crn (trim text));
            Log (AvailableSeats (sub (int b) (int a)));
            Log (SendingNotification crn);
            Called (SendMail (SeatAvailable crn (Some (int a)) (Some (int b)))
                             email) (Resolved v);
            Log EmailSent])
      | Rejected msg =>
          (Val tt, advance 3 w,
           [Called (WaitForSelector (SeatFinder.statusSelector crn)) (Resolved v0);
            Called (InnerText (SeatFinder.statusSelector crn)) (Resolved text);
            Log (StatusLine crn (trim text));
            Log (AvailableSeats (sub (int b) (int a)));
            Log (SendingNotification crn);
            Called (SendMail (SeatAvailable crn (Some (int a)) (Some (int b)))
                             email) (Rejected msg);
            LogError (ErrorSendingEmail (Error msg));
            Log CheckEmailAndNetwork;
            LogError (ErrorChecking crn msg)])
      end
    else
      (Val tt, advance 2 w,
       [Called (WaitForSelector (SeatFinder.statusSelector crn)) (Resolved v0);
        Called (InnerText (SeatFinder.statusSelector crn)) (Resolved text);
        Log (StatusLine crn (trim text));
        Log (AvailableSeats (sub (int b) (int a)))]).
Proof.
  intros H0 H1 Hne Hparse.
  unfold Legacy.tryStatus, Legacy.checkStatus.
  unfold try_catch at 1.
  rewrite (bind_val _ _ _ _ _ _ (call_resolved env _ w v0 H0)).
  rewrite (bind_val _ _ _ _ _ _ (call_resolved env _ (tick w) text H1)).
  cbv zeta. rewrite Hne, Hparse.
  unfold Legacy.sendEmailNotification, SeatFinder.monitor_delete.
  unfold try_catch, bind, call, emit, ret, throw, message_of, get_monitor,
    set_monitor, preceded_by, result_of, world_of, trace_of.
  cbn -[sub gt0].
  destruct (gt0 (sub (int b) (int a))); [|reflexivity].
  cbn -[sub gt0]. destruct (env (S (S (clock w)))); reflexivity.
Qed.
End Revisions.

(** C10 (what the code does).  On a status text made of two counts
    separated by a slash, each of one to fifteen decimal digits, the v1.0
    test ([parseInt] and the [isNaN] guard) and the v2.1 test ([Number],
    no guard) make the same choice, and leave the same registry. *)
Theorem revisions_agree_on_counts :
  forall env email crn w v0 d1 d2,
    is_count d1 = true ->
    is_count d2 = true ->
    env (clock w) = Resolved v0 ->
    env (1 + clock w) = Resolved (d1 ++ "/" ++ d2)%string ->
    latest_choice env email crn w = legacy_choice env email crn w /\
    monitor (world_of (SeatFinder.tryStatus env email crn w)) =
    monitor (world_of (Legacy.tryStatus env email crn w)).
Proof.
  intros env email crn w v0 d1 d2 Hc1 Hc2 H0 H1.
  destruct (is_count_digits _ Hc1) as [Hd1 He1].
  destruct (is_count_digits _ Hc2) as [Hd2 He2].
  assert (Htrim := trim_pair d1 d2 Hd1 Hd2).
  assert (Hne : is_empty (trim (d1 ++ "/" ++ d2)%string) = false)
    by (rewrite Htrim; now apply is_empty_append).
  assert (Hlatest := latest_parse_counts d1 d2 Hc1 Hc2).
  assert (Hlegacy := legacy_parse_counts d1 d2 Hc1 Hc2).
  rewrite <- Htrim in Hlatest, Hlegacy.
  unfold latest_choice, legacy_choice.
  rewrite (legacy_tryStatus_counts env email crn w v0 _ _ _ H0 H1 Hne Hlegacy).
  destruct (gt0 (sub (int (digits_val 10 0 d2)) (int (digits_val 10 0 d1))))
    eqn:Hopen.
  - assert (Hopen' :
      SeatFinder.seatsOpen
        (fst (SeatFinder.parseStatus (trim (d1 ++ "/" ++ d2)%string)))
        (snd (SeatFinder.parseStatus (trim (d1 ++ "/" ++ d2)%string))) = true)
      by (rewrite Hlatest; exact Hopen).
    destruct (env (2 + clock w)) as [v|msg] eqn:H2.
    + rewrite (tryStatus_open_sent env email crn w v0 _ v H0 H1 H2 Hopen').
      split; reflexivity.
    + rewrite (tryStatus_open_failed env email crn w v0 _ msg H0 H1 H2 Hopen').
      split; reflexivity.
  - assert (Hclosed :
      SeatFinder.seatsOpen
        (fst (SeatFinder.parseStatus (trim (d1 ++ "/" ++ d2)%string)))
        (snd (SeatFinder.parseStatus (trim (d1 ++ "/" ++ d2)%string))) = false)
      by (rewrite Hlatest; exact Hopen).
    rewrite (tryStatus_closed env email crn w v0 _ H0 H1 Hclosed).
    split; reflexivity.
Qed.

Lemma revisions_agree_on_counts_witness :
  let w := polling ["12345"] "202610" in
  let env := script [ok; Resolved "29/30"; ok] in
  latest_choice env someone "12345" w = Notify /\
  legacy_choice env someone "12345" w = Notify.
Proof.
  intros w env.
  destruct (revisions_agree_on_counts env someone "12345" w "" "29" "30"
              eq_refl eq_refl eq_refl eq_refl) as [H _].
  split; [reflexivity|]. rewrite <- H. reflexivity.
Defined.

(** C10 as stated fails.  On ["/10"] v2.1 notifies and v1.0 does not;
    on ["5abc/10"] v1.0 notifies and v2.1 does not. *)
Lemma revisions_differ :
  let w := polling ["12345"] "202610" in
  (latest_choice (script [ok; Resolved "/10"; ok]) someone "12345" w = Notify /\
   legacy_choice (script [ok; Resolved "/10"; ok]) someone "12345" w = Skip) /\
  (latest_choice (script [ok; Resolved "5abc/10"; ok]) someone "12345" w = Skip /\
   legacy_choice (script [ok; Resolved "5abc/10"; ok]) someone "12345" w = Notify).
Proof. vm_compute. repeat split; reflexivity. Qed.

(* ================================================================== *)
(** ** Readings that are not a pair of counts *)
(* ================================================================== *)

(** A reading with a field that [Number] turns into [NaN] sends nothing
    and removes nothing: it is logged by the branch that logs a course
    with no open seat. *)
Lemma nan_reading_left_alone env email crn w v0 text :
  env (clock w) = Resolved v0 ->
  env (1 + clock w) = Resolved text ->
  ToNumber (fst (SeatFinder.parseStatus (trim text))) = NaN \/
  ToNumber (snd (SeatFinder.parseStatus (trim text))) = NaN ->
  SeatFinder.tryStatus env email crn w =
    (Val tt, advance 2 w,
     [Called (WaitForSelector (SeatFinder.statusSelector crn)) (Resolved v0);
      Called (InnerText (SeatFinder.statusSelector crn)) (Resolved text);
      Log (Reading crn (fst (SeatFinder.parseStatus (trim text)))
                       (snd (SeatFinder.parseStatus (trim text))))]).
Proof.
  intros H0 H1 Hnan. apply tryStatus_closed; try assumption.
  unfold SeatFinder.seatsOpen.
  destruct Hnan as [E|E]; rewrite E.
  - now destruct (ToNumber (snd (SeatFinder.parseStatus (trim text)))).
  - reflexivity.
Qed.

(** C2 (what the code does).  The status text ["/10"] has no enrolled
    count; [Number] reads the empty field as 0, so v2.1 sends a
    notification for ten open seats and removes the CRN.  The text
    ["abc/10"] is logged by the same branch, and in the same form, as the
    full course ["30/30"]; neither goes through the [catch] branch.  On
    ["/10"] the guard of v1.0 leaves the CRN alone. *)
Theorem malformed_reading_is_taken_as_a_count :
  let w := polling ["12345"] "202610" in
  SeatFinder.tryStatus (script [ok; Resolved "/10"; ok]) someone "12345" w =
    (Val tt, with_monitor (markSent (create EmptyObject)) (advance 3 w),
     [Called (WaitForSelector "#statusMessage12345") ok;
      Called (InnerText "#statusMessage12345") (Resolved "/10");
      Called (SendMail (SeatAvailable "12345" (Some (int 0)) (Some (int 10)))
                       someone) ok;
      Log (NotificationSent "12345")]) /\
  SeatFinder.tryStatus (script [ok; Resolved "abc/10"]) someone "12345" w =
    (Val tt, advance 2 w,
     [Called (WaitForSelector "#statusMessage12345") ok;
      Called (InnerText "#statusMessage12345") (Resolved "abc/10");
      Log (Reading "12345" (Some NaN) (Some (int 10)))]) /\
  SeatFinder.tryStatus (script [ok; Resolved "30/30"]) someone "12345" w =
    (Val tt, advance 2 w,
     [Called (WaitForSelector "#statusMessage12345") ok;
      Called (InnerText "#statusMessage12345") (Resolved "30/30");
      Log (Reading "12345" (Some (int 30)) (Some (int 30)))]) /\
  Legacy.tryStatus (script [ok; Resolved "/10"; ok]) someone "12345" w =
    (Val tt, advance 2 w,
     [Called (WaitForSelector "#statusMessage12345") ok;
      Called (InnerText "#statusMessage12345") (Resolved "/10");
      Log (StatusLine "12345" "/10")]).
Proof. vm_compute. repeat split; reflexivity. Qed.

(* ================================================================== *)
(** ** The JavaScript fragment on examples *)
(* ================================================================== *)


Example Number_ex1 : Number "29" = int 29. Proof. reflexivity. Qed.
Example Number_ex2 : Number "" = int 0. Proof. reflexivity. Qed.
Example Number_ex3 : Number "abc" = NaN. Proof. reflexivity. Qed.
Example Number_ex4 : Number " 1.5e3 " = int 1500. Proof. reflexivity. Qed.
Example Number_ex5 : Number "0x1F" = int 31. Proof. reflexivity. Qed.
Example Number_ex6 : Number "5abc" = NaN. Proof. reflexivity. Qed.
Example Number_ex7 : Number "-Infinity" = NInf. Proof. reflexivity. Qed.
Example Number_ex8 : Number "." = NaN. Proof. reflexivity. Qed.
Example Number_ex9 : Number "5." = Dec 5 0. Proof. reflexivity. Qed.
Example Number_ex10 : Number ".5" = Dec 5 (-1). Proof. reflexivity. Qed.
Example Number_ex11 : Number "9007199254740993" = int 9007199254740992.
Proof. vm_compute. reflexivity. Qed.
Example Number_ex12 : Number "9007199254740995" = int 9007199254740996.
Proof. vm_compute. reflexivity. Qed.
Example Number_ex13 : Number "1e400" = PInf.
Proof. vm_compute. reflexivity. Qed.
Example Number_ex14 : Number "1e-400" = int 0.
Proof. vm_compute. reflexivity. Qed.
Example Number_ex15 :
  Number "0.1" =
    Dec 1000000000000000055511151231257827021181583404541015625 (-55).
Proof. vm_compute. reflexivity. Qed.
Example Number_ex16 : Number "1.7976931348623157e308" = int (2 ^ 1024 - 2 ^ 971).
Proof. vm_compute. reflexivity. Qed.
Example Number_ex17 : Number "1.7976931348623159e308" = PInf.
Proof. vm_compute. reflexivity. Qed.
Example Number_ex18 : Number "5e-324" = Dec (5 ^ 1074) (-1074).
Proof. vm_compute. reflexivity. Qed.
Example Number_ex19 : Number "2.4e-324" = int 0.
Proof. vm_compute. reflexivity. Qed.
Example sub_ex1 : sub (Number "0.3") (Number "0.1") = Number "0.19999999999999998".
Proof. vm_compute. reflexivity. Qed.
Example sub_ex2 : sub (Number "1e400") (Number "1e401") = NaN.
Proof. vm_compute. reflexivity. Qed.
Example seatsOpen_ex1 :
  SeatFinder.seatsOpen (Some (Number "9007199254740992"))
                       (Some (Number "9007199254740993")) = false.
Proof. vm_compute. reflexivity. Qed.
Example seatsOpen_ex2 :
  SeatFinder.seatsOpen (Some (Number "1e400")) (Some (Number "1e401")) = false.
Proof. vm_compute. reflexivity. Qed.
Example parseInt_ex1 : parseInt "29" = int 29. Proof. reflexivity. Qed.
Example parseInt_ex2 : parseInt "" = NaN. Proof. reflexivity. Qed.
Example parseInt_ex3 : parseInt "5abc" = int 5. Proof. reflexivity. Qed.
Example parseInt_ex4 : parseInt " -0x1f" = int (-31). Proof. reflexivity. Qed.
Example parseInt_ex5 : parseInt "10.5" = int 10. Proof. reflexivity. Qed.
Example parseInt_ex6 : parseInt "9007199254740993" = int 9007199254740992.
Proof. vm_compute. reflexivity. Qed.
Example split_ex1 : split "/" "29/30" = ["29"; "30"]. Proof. reflexivity. Qed.
Example split_ex2 : split "/" "" = [""]. Proof. reflexivity. Qed.
Example split_ex3 : split "/" "/10" = [""; "10"]. Proof. reflexivity. Qed.
Example split_ex4 : split "/" "a/b/" = ["a"; "b"; ""]. Proof. reflexivity. Qed.
Example trim_ex1 : trim "  a b  " = "a b". Proof. reflexivity. Qed.

(* ================================================================== *)
(** ** More on the registry *)
(* ================================================================== *)

Section MoreMapFacts.
Variable V : Type.
Implicit Types (m : Map V) (k : string) (v : V).

Lemma map_set_absent k v m :
  ~ In k (map_keys m) -> map_set k v m = m ++ [(k, v)].
Proof.
  induction m as [|[k' v'] r IH]; simpl; intros H; [reflexivity|].
  destruct (String.eqb_spec k k') as [->|Hne].
  - exfalso. apply H. now left.
  - f_equal. apply IH. intros Hin. apply H. now right.
Qed.

Lemma map_delete_absent k m : ~ In k (map_keys m) -> map_delete k m = m.
Proof.
  induction m as [|[k' v'] r IH]; simpl; intros H; [reflexivity|].
  destruct (String.eqb_spec k k') as [->|Hne]; simpl.
  - exfalso. apply H. now left.
  - f_equal. apply IH. intros Hin. apply H. now right.
Qed.

Lemma map_delete_twice k m : map_delete k (map_delete k m) = map_delete k m.
Proof. apply map_delete_absent, map_delete_not_in. Qed.

Lemma map_delete_size k m : map_size (map_delete k m) <= map_size m.
Proof. unfold map_size, map_delete. apply filter_length_le. Qed.

Lemma map_delete_set_absent k v m :
  ~ In k (map_keys m) -> map_delete k (map_set k v m) = m.
Proof.
  intros H. rewrite map_set_absent by exact H.
  unfold map_delete. rewrite filter_app. simpl.
  rewrite String.eqb_refl. simpl. rewrite app_nil_r.
  now apply map_delete_absent.
Qed.

Lemma map_set_keys k v m :
  map_keys (map_set k v m) =
  if in_dec string_dec k (map_keys m) then map_keys m else map_keys m ++ [k].
Proof.
  destruct (in_dec string_dec k (map_keys m)) as [Hin|Hout].
  - now apply map_set_keys_present.
  - rewrite map_set_absent by exact Hout. unfold map_keys.
    now rewrite map_app.
Qed.

Lemma map_set_NoDup k v m :
  NoDup (map_keys m) -> NoDup (map_keys (map_set k v m)).
Proof.
  intros H. rewrite map_set_keys.
  destruct (in_dec string_dec k (map_keys m)) as [Hin|Hout]; [exact H|].
  apply NoDup_app; [exact H | repeat constructor; intros [] | ].
  intros x Hx [<-|[]]. contradiction.
Qed.

Lemma map_delete_NoDup k m :
  NoDup (map_keys m) -> NoDup (map_keys (map_delete k m)).
Proof. intros H. rewrite map_delete_keys. now apply NoDup_filter. Qed.

End MoreMapFacts.

(** X1.  [add] of a CRN that the registry does not hold puts it after
    all the others and makes the registry one larger; deleting it again
    gives the registry back. *)
Theorem add_new_crn_goes_last :
  forall (m : CourseMonitor EmptyObject) (crn : string),
    ~ In crn (all m) ->
    all (add21 crn m) = all m ++ [crn] /\
    size (add21 crn m) = S (size m) /\
    delete crn (add21 crn m) = m.
Proof.
  intros [cs sent] crn Hout. unfold all, size, add21, add, delete in *.
  simpl in *. split; [|split].
  - rewrite map_set_keys.
    destruct (in_dec string_dec crn (map_keys cs)); [contradiction|reflexivity].
  - rewrite map_set_absent by exact Hout. unfold map_size.
    rewrite length_app. simpl. lia.
  - f_equal. now apply map_delete_set_absent.
Qed.

Lemma add_new_crn_goes_last_witness :
  let m := registry_of ["11111"; "22222"] in
  all (add21 "33333" m) = ["11111"; "22222"; "33333"] /\
  size (add21 "33333" m) = 3 /\
  delete "33333" (add21 "33333" m) = m.
Proof.
  intros m.
  assert (Hout : ~ In "33333" (all m)).
  { simpl. intros [H|[H|[]]]; discriminate H. }
  destruct (add_new_crn_goes_last m "33333" Hout) as (Ha & Hs & Hd).
  split; [|split].
  - rewrite Ha. reflexivity.
  - rewrite Hs. reflexivity.
  - exact Hd.
Defined.

(** X2.  [delete] takes one CRN out and leaves the others in their
    order; deleting a CRN that is not there changes nothing, and so does
    deleting a second time; the registry never grows. *)
Theorem delete_removes_one_crn :
  forall (m : CourseMonitor EmptyObject) (crn : string),
    all (delete crn m) =
      filter (fun k => negb (String.eqb crn k)) (all m) /\
    (In crn (all m) \/ delete crn m = m) /\
    delete crn (delete crn m) = delete crn m /\
    size (delete crn m) <= size m /\
    confirmationSent (delete crn m) = confirmationSent m.
Proof.
  intros [cs sent] crn. unfold all, size, delete. simpl.
  split; [apply map_delete_keys|]. split; [|split; [|split]].
  - destruct (in_dec string_dec crn (map_keys cs)) as [Hin|Hout];
      [now left|right].
    f_equal. now apply map_delete_absent.
  - f_equal. apply map_delete_twice.
  - apply map_delete_size.
  - reflexivity.
Qed.

Section RegistryInvariant.
Lemma registry_fold_keys (l : list string) :
  forall m : CourseMonitor EmptyObject,
    NoDup (all m) ->
    NoDup (all (fold_left (fun m crn => add21 crn m) l m)) /\
    (forall crn,
        In crn (all (fold_left (fun m crn => add21 crn m) l m)) <->
        In crn (all m) \/ In crn l).
Proof.
  induction l as [|x l IH]; intros m Hnd; simpl.
  - split; [exact Hnd|]. intros crn. tauto.
  - assert (Hnd' : NoDup (all (add21 x m))).
    { destruct m as [cs sent]. unfold all, add21, add. simpl.
      now apply map_set_NoDup. }
    destruct (IH (add21 x m) Hnd') as [H1 H2]. split; [exact H1|].
    intros crn. rewrite H2.
    assert (Hkeys : In crn (all (add21 x m)) <-> In crn (all m) \/ x = crn).
    { destruct m as [cs sent]. unfold all, add21, add. simpl.
      rewrite map_set_keys.
      destruct (in_dec string_dec x (map_keys cs)) as [Hin|Hout].
      - split; [tauto|]. intros [H|<-]; assumption.
      - rewrite in_app_iff. simpl. tauto. }
    rewrite Hkeys. tauto.
Qed.
End RegistryInvariant.

(** X3.  Whatever CRNs are added, and however often, the registry holds
    each of them once: its keys are without repetition, they are the
    CRNs given, and there are no more of them than were given. *)
Theorem registry_holds_each_crn_once :
  forall crns : list string,
    NoDup (all (registry_of crns)) /\
    (forall crn, In crn (all (registry_of crns)) <-> In crn crns) /\
    size (registry_of crns) <= List.length crns.
Proof.
  intros crns. unfold registry_of.
  destruct (registry_fold_keys crns (create EmptyObject)) as [Hnd Hin];
    [constructor|].
  split; [exact Hnd|]. split.
  - intros crn. rewrite Hin. simpl. tauto.
  - unfold size, map_size.
    rewrite <- (length_map fst). fold (map_keys (courses
      (fold_left (fun m crn => add21 crn m) crns (create EmptyObject)))).
    apply NoDup_incl_length; [exact Hnd|].
    intros crn H. apply Hin in H. simpl in H. tauto.
Qed.

(* ================================================================== *)
(** ** The configuration *)
(* ================================================================== *)

Lemma or_else_truthy a b : truthy b = true -> truthy (or_else a b) = true.
Proof. unfold or_else. now destruct (truthy a) eqn:E. Qed.

Lemma str_or_not_empty a b : is_empty b = false -> is_empty (Config.str_or a b) = false.
Proof.
  intros Hb. destruct a as [s|]; simpl; [|exact Hb].
  now destruct (is_empty s) eqn:E.
Qed.

(** X4.  The polling interval is never [NaN] and never zero: a variable
    that is not set, is empty, is not a number or is zero gives the
    default of 120000 ms, and any other value is taken as it is.  For a
    variable made of decimal digits the interval is the double nearest
    to their value, or the default when the value is zero; up to fifteen
    digits it is the value itself. *)
Theorem check_interval_is_usable :
  forall (v : option string) (d : string),
    all_digits d = true ->
    truthy (SeatFinder.CHECK_INTERVAL v) = true /\
    (SeatFinder.CHECK_INTERVAL v = int 120000 \/
     SeatFinder.CHECK_INTERVAL v = Number_opt v) /\
    SeatFinder.CHECK_INTERVAL None = int 120000 /\
    SeatFinder.CHECK_INTERVAL (Some d) =
      (if Z.eqb (count_of d) 0 then int 120000
       else to_double (count_of d) 0) /\
    (String.length d <= 15 ->
     SeatFinder.CHECK_INTERVAL (Some d) =
       (if Z.eqb (count_of d) 0 then int 120000 else int (count_of d))).
Proof.
  intros v d Hd.
  assert (Hfour :
    SeatFinder.CHECK_INTERVAL (Some d) =
      (if Z.eqb (count_of d) 0 then int 120000
       else to_double (count_of d) 0)).
  { unfold SeatFinder.CHECK_INTERVAL, or_else, count_of. simpl Number_opt.
    destruct (is_empty d) eqn:He.
    - destruct d; [reflexivity|discriminate].
    - rewrite (Number_digits d Hd He).
      destruct (Z.eqb_spec (digits_val 10 0 d) 0) as [E|E].
      + rewrite E. reflexivity.
      + now rewrite (to_double_int_truthy _ E). }
  split; [|split; [|split; [|split]]].
  - now apply or_else_truthy.
  - unfold SeatFinder.CHECK_INTERVAL, or_else.
    destruct (truthy (Number_opt v)); [now right|now left].
  - reflexivity.
  - exact Hfour.
  - intros Hlen. rewrite Hfour. unfold count_of.
    rewrite to_double_int; [reflexivity|].
    apply count_is_exact. now apply Nat.leb_le.
Qed.

Lemma check_interval_is_usable_witness :
  SeatFinder.CHECK_INTERVAL (Some "30000") = int 30000 /\
  SeatFinder.CHECK_INTERVAL (Some "0") = int 120000 /\
  SeatFinder.CHECK_INTERVAL (Some "9007199254740993") = int 9007199254740992 /\
  SeatFinder.CHECK_INTERVAL (Some "soon") = int 120000.
Proof.
  destruct (check_interval_is_usable (Some "soon") "30000" eq_refl)
    as (_ & _ & _ & _ & H1).
  destruct (check_interval_is_usable None "0" eq_refl) as (_ & _ & _ & H2 & _).
  destruct (check_interval_is_usable None "9007199254740993" eq_refl)
    as (_ & _ & _ & H3 & _).
  split; [|split; [|split]].
  - rewrite H1 by (simpl; lia). reflexivity.
  - rewrite H2. reflexivity.
  - rewrite H3. vm_compute. reflexivity.
  - reflexivity.
Defined.

(** X5.  The mail transport never gets an empty host name, a port that
    is [NaN] or zero, or an empty password: each setting that is missing
    or empty falls back (host to the Miami relay, port to 587, user to
    the address of the recipient, and no password at all).  The
    connection is never marked secure and certificates are never
    checked. *)
Theorem transport_settings_fall_back :
  forall (SMTP_HOST SMTP_PORT SMTP_USER SMTP_PASS : option string)
         (userEmail : string),
    let t := Config.createTransport SMTP_HOST SMTP_PORT SMTP_USER SMTP_PASS
                                    userEmail in
    is_empty (Config.host t) = false /\
    truthy (Config.port t) = true /\
    Config.secure t = false /\
    Config.rejectUnauthorized t = false /\
    Config.pass (Config.auth t) <> Some "" /\
    Config.user (Config.auth t) = Config.str_or SMTP_USER userEmail /\
    Config.createTransport None (Some "") (Some "") (Some "") userEmail =
      {| Config.host := Config.MIAMI_DNS;
         Config.port := int 587;
         Config.secure := false;
         Config.rejectUnauthorized := false;
         Config.auth := {| Config.user := userEmail; Config.pass := None |} |}.
Proof.
  intros h p u pw email t. subst t. unfold Config.createTransport. simpl.
  split; [now apply str_or_not_empty|].
  split; [now apply or_else_truthy|].
  split; [reflexivity|]. split; [reflexivity|].
  split; [|split; [|reflexivity]].
  - destruct pw as [[|c s]|]; simpl; discriminate.
  - now destruct (Config.str_truthy pw).
Qed.

(** X6.  The browser runs headless unless [HEADLESS] is exactly the
    string [false], and the slow-motion delay is never [NaN]: a value
    that is missing or not a number gives 0. *)
Theorem launch_options_fall_back :
  forall HEADLESS PUPPETEER_SLOWMO : option string,
    let o := Config.buildLaunchOpts HEADLESS PUPPETEER_SLOWMO in
    (Config.headless o = false <-> HEADLESS = Some "false") /\
    Config.slowMo o <> NaN /\
    (truthy (Number_opt PUPPETEER_SLOWMO) = false -> Config.slowMo o = int 0) /\
    Config.args o = ["--no-sandbox"; "--disable-setuid-sandbox"].
Proof.
  intros hl sm o. subst o. unfold Config.buildLaunchOpts. simpl.
  split; [|split; [|split; [|reflexivity]]].
  - destruct hl as [s|]; [|split; discriminate].
    destruct (String.eqb_spec s "false") as [->|Hne]; simpl.
    + split; reflexivity.
    + split; [discriminate|]. intros H. inversion H. contradiction.
  - unfold or_else. destruct (truthy (Number_opt sm)) eqn:E; [|discriminate].
    intros H. rewrite H in E. discriminate.
  - unfold or_else. now intros ->.
Qed.

(* ================================================================== *)
(** ** [withRetry] for any number of attempts *)
(* ================================================================== *)

Section RetryFacts.
Variable env : nat -> Outcome.
Variable c : Call.
Variable delay : jsnum.
Variable attempts : nat.

Lemma sleep_runs ms w : SeatFinder.sleep ms w = (Val tt, w, [Slept ms]).
Proof. reflexivity. Qed.

Lemma withRetry_from_step {A} (fn : M A) i left err :
  SeatFinder.withRetry_from fn attempts delay i (S left) err =
  try_catch fn
    (fun e =>
       (if Nat.ltb i (attempts - 1) then SeatFinder.sleep delay else ret tt) ;;
       SeatFinder.withRetry_from fn attempts delay (S i) left e).
Proof. reflexivity. Qed.

Lemma withRetry_from_succeeds k :
  forall left i w err v,
    i + left = attempts ->
    k < left ->
    (forall j, j < k -> rejected (env (j + clock w)) = true) ->
    env (k + clock w) = Resolved v ->
    SeatFinder.withRetry_from (call env c) attempts delay i left err w =
      (Val v, advance (S k) w,
       failed_attempts env c delay (clock w) k ++ [Called c (Resolved v)]).
Proof.
  induction k as [|k IH]; intros left i w err v Hsum Hlt Hrej Hok.
  - destruct left as [|left]; [lia|]. simpl.
    now rewrite (try_val _ _ _ _ _ _ (call_resolved env c w v Hok)).
  - destruct left as [|left]; [lia|].
    assert (H0 : rejected (env (clock w)) = true) by (apply (Hrej 0); lia).
    destruct (env (clock w)) as [v0|msg] eqn:E; [discriminate|].
    rewrite withRetry_from_step.
    rewrite (try_throw _ _ _ _ _ _ (call_rejected env c w msg E)).
    assert (Hi : Nat.ltb i (attempts - 1) = true) by (apply Nat.ltb_lt; lia).
    rewrite Hi.
    rewrite (bind_val _ _ _ _ _ _ (sleep_runs delay (tick w))).
    rewrite (IH left (S i) (tick w) (Error msg) v).
    + rewrite advance_tick. cbn [failed_attempts]. rewrite E.
      unfold preceded_by, result_of, world_of, trace_of. reflexivity.
    + lia.
    + lia.
    + intros j Hj. simpl. replace (j + S (clock w)) with (S j + clock w) by lia.
      apply Hrej. lia.
    + simpl. replace (k + S (clock w)) with (S k + clock w) by lia. exact Hok.
Qed.

Lemma withRetry_from_exhausted n :
  forall left i w err msg,
    i + left = attempts ->
    left = S n ->
    (forall j, j < n -> rejected (env (j + clock w)) = true) ->
    env (n + clock w) = Rejected msg ->
    SeatFinder.withRetry_from (call env c) attempts delay i left err w =
      (Throw (Error msg), advance (S n) w,
       failed_attempts env c delay (clock w) n ++ [Called c (Rejected msg)]).
Proof.
  induction n as [|n IH]; intros left i w err msg Hsum Hleft Hrej Hlast;
    subst left.
  - simpl in Hlast. rewrite withRetry_from_step.
    rewrite (try_throw _ _ _ _ _ _ (call_rejected env c w msg Hlast)).
    assert (Hi : Nat.ltb i (attempts - 1) = false) by (apply Nat.ltb_ge; lia).
    rewrite Hi. reflexivity.
  - assert (H0 : rejected (env (clock w)) = true) by (apply (Hrej 0); lia).
    destruct (env (clock w)) as [v0|msg0] eqn:E; [discriminate|].
    rewrite withRetry_from_step.
    rewrite (try_throw _ _ _ _ _ _ (call_rejected env c w msg0 E)).
    assert (Hi : Nat.ltb i (attempts - 1) = true) by (apply Nat.ltb_lt; lia).
    rewrite Hi.
    rewrite (bind_val _ _ _ _ _ _ (sleep_runs delay (tick w))).
    rewrite (IH (S n) (S i) (tick w) (Error msg0) msg).
    + rewrite advance_tick. cbn [failed_attempts]. rewrite E.
      unfold preceded_by, result_of, world_of, trace_of. reflexivity.
    + lia.
    + reflexivity.
    + intros j Hj. simpl. replace (j + S (clock w)) with (S j + clock w) by lia.
      apply Hrej. lia.
    + simpl. replace (n + S (clock w)) with (S n + clock w) by lia.
      exact Hlast.
Qed.
End RetryFacts.

(** X7.  [withRetry] returns the value of the first attempt that
    succeeds: when the first [k] attempts fail and attempt [k + 1] is
    within the cap and succeeds, there are exactly [k + 1] calls, each
    failed one followed by the delay, and no call after the success. *)
Theorem retry_stops_at_first_success :
  forall env c delay attempts k w v,
    k < attempts ->
    (forall j, j < k -> rejected (env (j + clock w)) = true) ->
    env (k + clock w) = Resolved v ->
    SeatFinder.withRetry (call env c) attempts delay w =
      (Val v, advance (S k) w,
       failed_attempts env c delay (clock w) k ++ [Called c (Resolved v)]).
Proof.
  intros env c delay attempts k w v Hk Hrej Hok.
  unfold SeatFinder.withRetry.
  now apply withRetry_from_succeeds.
Qed.

Lemma retry_stops_at_first_success_witness :
  let env := script [Rejected "timeout"; Rejected "timeout"; Resolved "page"] in
  let w := polling ["12345"] "202610" in
  SeatFinder.withRetry (call env Goto) 5 (int 2000) w =
    (Val "page", advance 3 w,
     [Called Goto (Rejected "timeout"); Slept (int 2000);
      Called Goto (Rejected "timeout"); Slept (int 2000);
      Called Goto (Resolved "page")]).
Proof.
  intros env w.
  assert (Hrej : forall j, j < 2 -> rejected (env (j + clock w)) = true).
  { intros j Hj. destruct j as [|[|j]]; try reflexivity. lia. }
  assert (Hk : 2 < 5) by lia.
  exact (retry_stops_at_first_success env Goto (int 2000) 5 2 w "page"
           Hk Hrej eq_refl).
Defined.

(** X8.  When every attempt fails, [withRetry] makes exactly [attempts]
    calls, sleeps the delay between them but not after the last, and
    throws the error of the last attempt (the earlier errors are lost). *)
Theorem retry_gives_up_with_last_error :
  forall env c delay n w msg,
    (forall j, j < n -> rejected (env (j + clock w)) = true) ->
    env (n + clock w) = Rejected msg ->
    SeatFinder.withRetry (call env c) (S n) delay w =
      (Throw (Error msg), advance (S n) w,
       failed_attempts env c delay (clock w) n ++ [Called c (Rejected msg)]).
Proof.
  intros env c delay n w msg Hrej Hlast.
  unfold SeatFinder.withRetry.
  now apply withRetry_from_exhausted.
Qed.

Lemma retry_gives_up_with_last_error_witness :
  let env := script [Rejected "first"; Rejected "second"; Rejected "third";
                     Rejected "fourth"] in
  let w := polling ["12345"] "202610" in
  SeatFinder.withRetry (call env Goto) 4 (int 2000) w =
    (Throw (Error "fourth"), advance 4 w,
     [Called Goto (Rejected "first"); Slept (int 2000);
      Called Goto (Rejected "second"); Slept (int 2000);
      Called Goto (Rejected "third"); Slept (int 2000);
      Called Goto (Rejected "fourth")]).
Proof.
  intros env w.
  assert (Hrej : forall j, j < 3 -> rejected (env (j + clock w)) = true).
  { intros j Hj. destruct j as [|[|[|j]]]; try reflexivity. lia. }
  exact (retry_gives_up_with_last_error env Goto (int 2000) 3 w "fourth"
           Hrej eq_refl).
Defined.

(* ================================================================== *)
(** ** One CRN of a poll cycle *)
(* ================================================================== *)

Section OneCRN.
Variable env : nat -> Outcome.
Variable email crn : string.

Lemma tryStatus_wait_failed w msg :
  env (clock w) = Rejected msg ->
  SeatFinder.tryStatus env email crn w =
    (Val tt, tick w,
     [Called (WaitForSelector (SeatFinder.statusSelector crn)) (Rejected msg);
      LogError (CouldNotFetch crn msg)]).
Proof.
  intros H0. unfold SeatFinder.tryStatus.
  assert (Hthrow :
    SeatFinder.checkStatus env email crn w =
      (Throw (Error msg), tick w,
       [Called (WaitForSelector (SeatFinder.statusSelector crn))
               (Rejected msg)])).
  { unfold SeatFinder.checkStatus.
    now rewrite (bind_throw _ _ _ _ _ _ (call_rejected env _ w msg H0)). }
  rewrite (try_throw _ _ _ _ _ _ Hthrow). reflexivity.
Qed.

Lemma tryStatus_text_failed w v0 msg :
  env (clock w) = Resolved v0 ->
  env (1 + clock w) = Rejected msg ->
  SeatFinder.tryStatus env email crn w =
    (Val tt, advance 2 w,
     [Called (WaitForSelector (SeatFinder.statusSelector crn)) (Resolved v0);
      Called (InnerText (SeatFinder.statusSelector crn)) (Rejected msg);
      LogError (CouldNotFetch crn msg)]).
Proof.
  intros H0 H1. unfold SeatFinder.tryStatus.
  assert (Hthrow :
    SeatFinder.checkStatus env email crn w =
      (Throw (Error msg), advance 2 w,
       [Called (WaitForSelector (SeatFinder.statusSelector crn)) (Resolved v0);
        Called (InnerText (SeatFinder.statusSelector crn)) (Rejected msg)])).
  { unfold SeatFinder.checkStatus.
    rewrite (bind_val _ _ _ _ _ _ (call_resolved env _ w v0 H0)).
    now rewrite (bind_throw _ _ _ _ _ _
                   (call_rejected env _ (tick w) msg H1)). }
  rewrite (try_throw _ _ _ _ _ _ Hthrow). reflexivity.
Qed.

(** The ways the [try] statement can go: it always returns, and the
    world it leaves is the starting one some calls later, with the CRN
    deleted or not. *)
Lemma tryStatus_cases w :
  result_of (SeatFinder.tryStatus env email crn w) = Val tt /\
  exists n,
    world_of (SeatFinder.tryStatus env email crn w) = advance n w \/
    world_of (SeatFinder.tryStatus env email crn w) =
      with_monitor (delete crn (monitor w)) (advance n w).
Proof.
  destruct (env (clock w)) as [v0|msg0] eqn:H0.
  2:{ rewrite (tryStatus_wait_failed w msg0 H0). split; [reflexivity|].
      exists 1. now left. }
  destruct (env (1 + clock w)) as [text|msg1] eqn:H1.
  2:{ rewrite (tryStatus_text_failed w v0 msg1 H0 H1). split; [reflexivity|].
      exists 2. now left. }
  destruct (SeatFinder.seatsOpen
              (fst (SeatFinder.parseStatus (trim text)))
              (snd (SeatFinder.parseStatus (trim text)))) eqn:Hopen.
  - destruct (env (2 + clock w)) as [v|msg] eqn:H2.
    + rewrite (tryStatus_open_sent env email crn w v0 text v H0 H1 H2 Hopen).
      split; [reflexivity|]. exists 3. now right.
    + rewrite (tryStatus_open_failed env email crn w v0 text msg H0 H1 H2 Hopen).
      split; [reflexivity|]. exists 3. now left.
  - rewrite (tryStatus_closed env email crn w v0 text H0 H1 Hopen).
    split; [reflexivity|]. exists 2. now left.
Qed.

Lemma pollCRN_enters w :
  (forall j, j < 4 -> rejected (env (j + clock w)) = false) ->
  SeatFinder.pollCRN env email crn w =
    preceded_by
      [Called (WaitForSelector "#crnNumber") (env (clock w));
       Called (ClearValue "#crnNumber") (env (1 + clock w));
       Called (TypeText "#crnNumber" crn) (env (2 + clock w));
       Called (Click "#courseSearch") (env (3 + clock w))]
      (SeatFinder.tryStatus env email crn (advance 4 w)).
Proof.
  intros Hres.
  assert (H0 := Hres 0 ltac:(lia)). assert (H1 := Hres 1 ltac:(lia)).
  assert (H2 := Hres 2 ltac:(lia)). assert (H3 := Hres 3 ltac:(lia)).
  simpl in H0, H1, H2, H3.
  destruct (env (clock w)) as [v0|] eqn:E0; [|discriminate].
  destruct (env (S (clock w))) as [v1|] eqn:E1; [|discriminate].
  destruct (env (S (S (clock w)))) as [v2|] eqn:E2; [|discriminate].
  destruct (env (S (S (S (clock w))))) as [v3|] eqn:E3; [|discriminate].
  unfold SeatFinder.pollCRN.
  rewrite (bind_val _ _ _ _ _ _ (call_resolved env _ w v0 E0)).
  rewrite (bind_val _ _ _ _ _ _ (call_resolved env _ (tick w) v1 E1)).
  rewrite (bind_val _ _ _ _ _ _ (call_resolved env _ (tick (tick w)) v2 E2)).
  rewrite (bind_val _ _ _ _ _ _
             (call_resolved env _ (tick (tick (tick w))) v3 E3)).
  rewrite !preceded_by_app. simpl. rewrite E1, E2, E3. reflexivity.
Qed.
End OneCRN.

(** X9.  The [try] statement of [pollOnce] never throws and never ends
    the process, whatever the page and the mail relay answer; it leaves
    the term code, the browser and the confirmation flag as they were,
    and the only CRN it can take out of the registry is its own. *)
Theorem status_check_always_returns :
  forall env email crn w,
    let run := SeatFinder.tryStatus env email crn w in
    result_of run = Val tt /\
    termCode (world_of run) = termCode w /\
    browser (world_of run) = browser w /\
    confirmationSent (monitor (world_of run)) = confirmationSent (monitor w) /\
    (forall other, other <> crn ->
       (In other (all (monitor (world_of run))) <-> In other (all (monitor w)))) /\
    (forall other, In other (all (monitor (world_of run))) ->
                   In other (all (monitor w))).
Proof.
  intros env email crn w run. subst run.
  destruct (tryStatus_cases env email crn w) as [Hr [n [Hw|Hw]]]; rewrite Hw.
  - split; [exact Hr|]. repeat split; tauto.
  - split; [exact Hr|]. simpl. split; [reflexivity|]. split; [reflexivity|].
    split; [reflexivity|]. unfold all, delete. simpl. split.
    + intros other Hne. apply map_delete_other. congruence.
    + intros other H. rewrite map_delete_keys in H.
      now apply filter_In in H.
Qed.

(** X10.  When the status element of a CRN does not appear, or its text
    cannot be read, the failure is logged with the message of the error,
    no mail is sent and the registry is left as it was. *)
Theorem missing_status_keeps_crn :
  forall env email crn w msg,
    env (clock w) = Rejected msg \/
    (rejected (env (clock w)) = false /\ env (1 + clock w) = Rejected msg) ->
    let run := SeatFinder.tryStatus env email crn w in
    result_of run = Val tt /\
    monitor (world_of run) = monitor w /\
    existsb is_mail (trace_of run) = false /\
    last (trace_of run) (Log AllDone) = LogError (CouldNotFetch crn msg).
Proof.
  intros env email crn w msg [H0|[H0 H1]] run; subst run.
  - rewrite (tryStatus_wait_failed env email crn w msg H0).
    repeat split; reflexivity.
  - destruct (env (clock w)) as [v0|] eqn:E0; [|discriminate].
    rewrite (tryStatus_text_failed env email crn w v0 msg E0 H1).
    repeat split; reflexivity.
Qed.

Lemma missing_status_keeps_crn_witness :
  let w := polling ["11111"; "22222"] "202610" in
  let run := SeatFinder.tryStatus
               (script [Rejected "Waiting for selector failed: 7000ms exceeded"])
               someone "11111" w in
  all (monitor (world_of run)) = ["11111"; "22222"] /\
  trace_of run =
    [Called (WaitForSelector "#statusMessage11111")
            (Rejected "Waiting for selector failed: 7000ms exceeded");
     LogError (CouldNotFetch "11111"
                 "Waiting for selector failed: 7000ms exceeded")].
Proof.
  intros w run.
  destruct (missing_status_keeps_crn
              (script [Rejected "Waiting for selector failed: 7000ms exceeded"])
              someone "11111" w
              "Waiting for selector failed: 7000ms exceeded"
              (or_introl eq_refl)) as (_ & Hm & _ & _).
  split.
  - unfold run. rewrite Hm. reflexivity.
  - reflexivity.
Defined.

Lemma sub_int a b :
  (Z.abs (b - a) <= 2 ^ 53)%Z -> sub (int b) (int a) = int (b - a).
Proof.
  intros H. unfold int, sub. simpl. rewrite !Z.mul_1_r.
  now apply to_double_int.
Qed.

Lemma seats_open_on_counts a b :
  (Z.abs (b - a) <= 2 ^ 53)%Z ->
  SeatFinder.seatsOpen (Some (int a)) (Some (int b)) = Z.ltb a b.
Proof.
  intros H. unfold SeatFinder.seatsOpen, ToNumber.
  rewrite (sub_int a b H). unfold int, gt0.
  destruct (Z.ltb_spec 0 (b - a)); destruct (Z.ltb_spec a b);
    try reflexivity; lia.
Qed.

Lemma counts_difference_exact d1 d2 :
  is_count d1 = true -> is_count d2 = true ->
  (Z.abs (count_of d2 - count_of d1) <= 2 ^ 53)%Z.
Proof.
  unfold is_count, count_of. intros H1 H2.
  apply andb_true_iff in H1 as [_ H1]. apply andb_true_iff in H2 as [_ H2].
  apply Nat.leb_le in H1. apply Nat.leb_le in H2.
  destruct (digits_val_range d1 0%Z) as [A1 B1]; [lia|].
  destruct (digits_val_range d2 0%Z) as [A2 B2]; [lia|].
  assert (10 ^ Z.of_nat (String.length d1) <= 10 ^ 15)%Z
    by (apply Z.pow_le_mono_r; lia).
  assert (10 ^ Z.of_nat (String.length d2) <= 10 ^ 15)%Z
    by (apply Z.pow_le_mono_r; lia).
  change (10 ^ 15)%Z with 1000000000000000%Z in *.
  change (2 ^ 53)%Z with 9007199254740992%Z. lia.
Qed.

(** X11.  For a status text made of two counts, [current/capacity], a
    notification is sent exactly when [current < capacity]; when the
    course is full (or over-full) the reading is logged and the world is
    the starting one two calls later. *)
Theorem notifies_exactly_when_seats_are_open :
  forall env email crn w v0 d1 d2,
    is_count d1 = true ->
    is_count d2 = true ->
    env (clock w) = Resolved v0 ->
    env (1 + clock w) = Resolved (d1 ++ "/" ++ d2)%string ->
    let run := SeatFinder.tryStatus env email crn w in
    existsb is_notification (trace_of run) =
      Z.ltb (count_of d1) (count_of d2) /\
    (Z.ltb (count_of d1) (count_of d2) = false ->
     run = (Val tt, advance 2 w,
            [Called (WaitForSelector (SeatFinder.statusSelector crn))
                    (Resolved v0);
             Called (InnerText (SeatFinder.statusSelector crn))
                    (Resolved (d1 ++ "/" ++ d2)%string);
             Log (Reading crn (Some (int (count_of d1)))
                              (Some (int (count_of d2))))])).
Proof.
  intros env email crn w v0 d1 d2 Hc1 Hc2 H0 H1 run. subst run.
  destruct (is_count_digits _ Hc1) as [Hd1 He1].
  destruct (is_count_digits _ Hc2) as [Hd2 He2].
  assert (Htrim := trim_pair d1 d2 Hd1 Hd2).
  assert (Hparse := latest_parse_counts d1 d2 Hc1 Hc2).
  rewrite <- Htrim in Hparse.
  assert (Hopen :
    SeatFinder.seatsOpen
      (fst (SeatFinder.parseStatus (trim (d1 ++ "/" ++ d2)%string)))
      (snd (SeatFinder.parseStatus (trim (d1 ++ "/" ++ d2)%string))) =
    Z.ltb (count_of d1) (count_of d2))
    by (rewrite Hparse; apply seats_open_on_counts;
        now apply counts_difference_exact).
  destruct (Z.ltb (count_of d1) (count_of d2)) eqn:Hlt.
  - split; [|discriminate].
    destruct (env (2 + clock w)) as [v|msg] eqn:H2.
    + now rewrite (tryStatus_open_sent env email crn w v0 _ v H0 H1 H2 Hopen).
    + now rewrite (tryStatus_open_failed env email crn w v0 _ msg H0 H1 H2 Hopen).
  - rewrite (tryStatus_closed env email crn w v0 _ H0 H1 Hopen).
    rewrite Hparse. split; [reflexivity|]. intros _. reflexivity.
Qed.

Lemma notifies_exactly_when_seats_are_open_witness :
  let w := polling ["12345"] "202610" in
  existsb is_notification
    (trace_of (SeatFinder.tryStatus (script [ok; Resolved "29/30"; ok])
                                    someone "12345" w)) = true /\
  existsb is_notification
    (trace_of (SeatFinder.tryStatus (script [ok; Resolved "30/30"; ok])
                                    someone "12345" w)) = false.
Proof.
  intros w.
  destruct (notifies_exactly_when_seats_are_open
              (script [ok; Resolved "29/30"; ok]) someone "12345" w
              "" "29" "30" eq_refl eq_refl eq_refl eq_refl) as [H1 _].
  destruct (notifies_exactly_when_seats_are_open
              (script [ok; Resolved "30/30"; ok]) someone "12345" w
              "" "30" "30" eq_refl eq_refl eq_refl eq_refl) as [H2 _].
  split; [rewrite H1|rewrite H2]; reflexivity.
Defined.

(** X12.  Once a CRN has been typed into the search form (the four page
    calls before the [try] statement succeed), nothing that happens while
    its status is read or its mail is sent stops the cycle: the body of
    the loop returns and the remaining CRNs of the snapshot are polled
    from the world it leaves. *)
Theorem one_crn_never_stops_the_cycle :
  forall env email crn rest w,
    (forall j, j < 4 -> rejected (env (j + clock w)) = false) ->
    result_of (SeatFinder.pollCRN env email crn w) = Val tt /\
    forEach (crn :: rest) (SeatFinder.pollCRN env email) w =
      preceded_by
        (trace_of (SeatFinder.pollCRN env email crn w))
        (forEach rest (SeatFinder.pollCRN env email)
                 (world_of (SeatFinder.pollCRN env email crn w))).
Proof.
  intros env email crn rest w Hres.
  assert (Hval : result_of (SeatFinder.pollCRN env email crn w) = Val tt).
  { rewrite (pollCRN_enters env email crn w Hres).
    destruct (tryStatus_cases env email crn (advance 4 w)) as [Hr _].
    exact Hr. }
  split; [exact Hval|].
  destruct (SeatFinder.pollCRN env email crn w) as [[r w1] t1] eqn:E.
  unfold result_of in Hval. simpl in Hval. subst r.
  simpl forEach. now rewrite (bind_val _ _ _ _ _ _ E).
Qed.

Lemma one_crn_never_stops_the_cycle_witness :
  let env := script (search_ok ++ [Rejected "timeout"] ++
                     search_ok ++ [ok; Resolved "5/10"; ok]) in
  let w := polling ["11111"; "22222"] "202610" in
  let run := forEach ["11111"; "22222"] (SeatFinder.pollCRN env someone) w in
  result_of run = Val tt /\
  all (monitor (world_of run)) = ["11111"] /\
  filter is_mail (trace_of run) =
    [Called (SendMail (SeatAvailable "22222" (Some (int 5)) (Some (int 10)))
                      someone) ok].
Proof.
  intros env w run.
  assert (Hres : forall j, j < 4 -> rejected (env (j + clock w)) = false).
  { intros j Hj. destruct j as [|[|[|[|j]]]]; try reflexivity. lia. }
  destruct (one_crn_never_stops_the_cycle env someone "11111" ["22222"] w Hres)
    as [_ Hrun].
  unfold run. rewrite Hrun. vm_compute. repeat split; reflexivity.
Defined.

(* ================================================================== *)
(** ** Failures outside the [try] statement *)
(* ================================================================== *)

(** X13.  A page call that fails while [pollOnce] sets the term and
    campus filters (any of the seven calls before the loop over the
    CRNs) ends the cycle with that error: no CRN is looked up, no mail is
    sent and the registry is left as it was. *)
Theorem filter_failure_ends_the_cycle :
  forall env email w j msg,
    j < 7 ->
    (forall i, i < j -> rejected (env (i + clock w)) = false) ->
    env (j + clock w) = Rejected msg ->
    result_of (SeatFinder.pollOnce env email w) = Throw (Error msg) /\
    world_of (SeatFinder.pollOnce env email w) = advance (S j) w /\
    existsb is_mail (trace_of (SeatFinder.pollOnce env email w)) = false /\
    existsb (fun ev => match ev with
                       | Called (TypeText _ _) _ => true
                       | _ => false
                       end)
            (trace_of (SeatFinder.pollOnce env email w)) = false.
Proof.
  intros env email w j msg Hj Hres Hrej.
  assert (Hres' : forall i, i < j -> exists v, env (i + clock w) = Resolved v).
  { intros i Hi. specialize (Hres i Hi).
    destruct (env (i + clock w)) as [v|]; [now exists v|discriminate]. }
  clear Hres.
  destruct j as [|[|[|[|[|[|[|j]]]]]]]; [ | | | | | | |lia];
    try (destruct (Hres' 0 ltac:(lia)) as [v0 E0]; simpl in E0);
    try (destruct (Hres' 1 ltac:(lia)) as [v1 E1]; simpl in E1);
    try (destruct (Hres' 2 ltac:(lia)) as [v2 E2]; simpl in E2);
    try (destruct (Hres' 3 ltac:(lia)) as [v3 E3]; simpl in E3);
    try (destruct (Hres' 4 ltac:(lia)) as [v4 E4]; simpl in E4);
    try (destruct (Hres' 5 ltac:(lia)) as [v5 E5]; simpl in E5);
    clear Hres'; simpl in Hrej;
    unfold SeatFinder.pollOnce, SeatFinder.sleep, bind, call, get_termCode,
      emit, result_of, world_of, trace_of, advance;
    cbn [clock tick fst snd];
    repeat match goal with
           | E : env _ = _ |- _ => rewrite E; clear E; cbn [clock tick fst snd]
           end;
    repeat split; reflexivity.
Qed.

Lemma filter_failure_ends_the_cycle_witness :
  let env := script [ok; ok; Rejected "No element found for selector: .ms-choice"] in
  let w := polling ["12345"] "202610" in
  SeatFinder.pollOnce env someone w =
    (Throw (Error "No element found for selector: .ms-choice"), advance 3 w,
     [Called (WaitForSelector "#termFilter") ok;
      Called (Select "#termFilter" "202610") ok;
      Called (WaitForSelector ".ms-choice")
             (Rejected "No element found for selector: .ms-choice")]).
Proof.
  intros env w.
  assert (Hres : forall i, i < 2 -> rejected (env (i + clock w)) = false).
  { intros i Hi. destruct i as [|[|i]]; try reflexivity. lia. }
  assert (Hj : 2 < 7) by lia.
  destruct (filter_failure_ends_the_cycle env someone w 2
              "No element found for selector: .ms-choice" Hj Hres eq_refl)
    as (Hr & Hw & _).
  destruct (SeatFinder.pollOnce env someone w) as [[r w1] t] eqn:E.
  unfold result_of, world_of in Hr, Hw. simpl in Hr, Hw. subst r w1.
  f_equal. vm_compute in E. now inversion E.
Defined.

(* ================================================================== *)
(** ** The loop between two cycles *)
(* ================================================================== *)

(** X14.  When a cycle ends with CRNs still in the registry, the loop
    sleeps once, for the polling interval, and then goes back to the
    connectivity probe. *)
Theorem sleeps_one_interval_between_cycles :
  forall env interval email fuel w v w1 t1,
    size (monitor w) <> 0 ->
    env (clock w) = Resolved v ->
    SeatFinder.cycle env email (tick w) = (Val tt, w1, t1) ->
    size (monitor w1) <> 0 ->
    SeatFinder.monitorLoop env interval (S fuel) email w =
      preceded_by
        (Called DnsLookup (Resolved v) :: t1 ++
         [Slept (SeatFinder.CHECK_INTERVAL interval)])
        (SeatFinder.monitorLoop env interval fuel email w1).
Proof.
  intros env interval email fuel w v w1 t1 Hsize H0 Hc Hleft.
  rewrite monitorLoop_step by exact Hsize.
  now rewrite (bind_val _ _ _ _ _ _
                 (iteration_more env interval email w v w1 t1 H0 Hc Hleft)).
Qed.

Lemma sleeps_one_interval_between_cycles_witness :
  let env := script ([ok; ok] ++ filters_ok ++ search_ok ++
                     [ok; Resolved "30/30"]) in
  let w := polling ["12345"] "202610" in
  filter is_sleep
    (trace_of (SeatFinder.monitorLoop env (Some "90000") 1 someone w)) =
    [Slept (int 500); Slept (int 90000)] /\
  result_of (SeatFinder.monitorLoop env (Some "90000") 1 someone w) =
    OutOfFuel.
Proof.
  intros env w.
  assert (Hsize : size (monitor w) <> 0) by (vm_compute; discriminate).
  pose (x := SeatFinder.cycle env someone (tick w)).
  assert (Hc : SeatFinder.cycle env someone (tick w) =
               (Val tt, world_of x, trace_of x)) by (vm_compute; reflexivity).
  assert (Hleft : size (monitor (world_of x)) <> 0)
    by (vm_compute; discriminate).
  rewrite (sleeps_one_interval_between_cycles env (Some "90000") someone 0 w
             "" (world_of x) (trace_of x) Hsize eq_refl Hc Hleft).
  vm_compute. split; reflexivity.
Defined.

(* ================================================================== *)
(** ** What a run leaves alone *)
(* ================================================================== *)

Section FrameFacts.
Variable env : nat -> Outcome.
Variable interval : option string.
Variable email : string.

Lemma frame_refl w : frame w w [].
Proof. split; [apply incl_refl|reflexivity]. Qed.

Lemma frame_trans w w1 w2 t1 t2 :
  frame w w1 t1 -> frame w1 w2 t2 -> frame w w2 (t1 ++ t2).
Proof.
  intros [H1 E1] [H2 E2]. split.
  - eapply incl_tran; eassumption.
  - congruence.
Qed.

Lemma frame_same w w' t :
  all (monitor w') = all (monitor w) -> termCode w' = termCode w ->
  frame w w' t.
Proof. intros Ha Et. split; [rewrite Ha; apply incl_refl|exact Et]. Qed.

Lemma frame_notify crn current max v w :
  frame w (with_monitor (delete crn (monitor w)) (tick w))
    [Called (SendMail (SeatAvailable crn current max) email) (Resolved v);
     Log (NotificationSent crn)].
Proof.
  split; [|reflexivity]. simpl. unfold all, delete. simpl.
  rewrite map_delete_keys. apply incl_filter.
Qed.

Lemma keeps_frame_confirm :
  keeps frame (SeatFinder.confirm env interval email).
Proof.
  intros w. apply frame_same.
  - unfold SeatFinder.confirm, SeatFinder.sendMail, bind, get_monitor, call,
      set_monitor, ret, world_of.
    destruct (confirmationSent (monitor w)); simpl; [reflexivity|].
    destruct (env (clock w)); reflexivity.
  - unfold SeatFinder.confirm, SeatFinder.sendMail, bind, get_monitor, call,
      set_monitor, ret, world_of.
    destruct (confirmationSent (monitor w)); simpl; [reflexivity|].
    destruct (env (clock w)); reflexivity.
Qed.

Lemma main_frame fuel :
  keeps frame (SeatFinder.main env interval fuel email).
Proof.
  apply keeps_main.
  - apply frame_refl.
  - apply frame_trans.
  - intros c o w _. now apply frame_same.
  - intros ev w _. now apply frame_same.
  - apply frame_notify.
  - intros b hs w. now apply frame_same.
  - apply keeps_frame_confirm.
Qed.
End FrameFacts.

(** X15.  A run never adds a CRN to the registry and never changes the
    term code: whatever the collaborators answer and however long the
    run lasts, the CRNs at the end are among those at the start. *)
Theorem run_never_adds_a_crn :
  forall env interval fuel email w,
    let run := SeatFinder.main env interval fuel email w in
    (forall crn, In crn (all (monitor (world_of run))) ->
                 In crn (all (monitor w))) /\
    termCode (world_of run) = termCode w.
Proof.
  intros env interval fuel email w run.
  exact (main_frame env interval email fuel w).
Qed.

(* ================================================================== *)
(** ** Errors before the loop *)
(* ================================================================== *)

(** X16.  When the network is unreachable at the start, the run ends at
    once, with the fatal message and exit code 1: no mail is sent, no
    browser is launched, and the registry is not touched. *)
Theorem no_network_at_start_is_fatal :
  forall env interval fuel email w msg,
    browser w = false ->
    env (clock w) = Rejected msg ->
    SeatFinder.main env interval fuel email w =
      (Exit 1%Z, tick w,
       [Called DnsLookup (Rejected msg);
        LogError (Fatal "Not connected to Miami network/VPN.")]).
Proof.
  intros env interval fuel email w msg Hb H0. unfold SeatFinder.main.
  assert (Hthrow :
    (okay <- SeatFinder.checkMiamiConnection env ;;
     if negb okay then throw (Error "Not connected to Miami network/VPN.")
     else SeatFinder.seatFinder env interval fuel email) w =
    (Throw (Error "Not connected to Miami network/VPN."), tick w,
     [Called DnsLookup (Rejected msg)])).
  { now rewrite (bind_val _ _ _ _ _ _ (check_unreachable env w msg H0)). }
  rewrite (try_throw _ _ _ _ _ _ Hthrow).
  unfold SeatFinder.closeBrowser, bind, message_of, emit, get_browser, exit,
    ret.
  simpl. rewrite Hb. reflexivity.
Qed.

Lemma no_network_at_start_is_fatal_witness :
  let env := script [Rejected "getaddrinfo ENOTFOUND"] in
  let w := start ["12345"] "202610" in
  SeatFinder.main env None 10 someone w =
    (Exit 1%Z, tick w,
     [Called DnsLookup (Rejected "getaddrinfo ENOTFOUND");
      LogError (Fatal "Not connected to Miami network/VPN.")]).
Proof.
  intros env w.
  exact (no_network_at_start_is_fatal env None 10 someone w
           "getaddrinfo ENOTFOUND" eq_refl eq_refl).
Defined.

Section SessionFacts.
Variable env : nat -> Outcome.
Variable interval : option string.
Variable email : string.

Lemma main_body_starts fuel w v0 v1 :
  confirmationSent (monitor w) = false ->
  env (clock w) = Resolved v0 ->
  env (1 + clock w) = Resolved v1 ->
  (okay <- SeatFinder.checkMiamiConnection env ;;
   if negb okay then throw (Error "Not connected to Miami network/VPN.")
   else SeatFinder.seatFinder env interval fuel email) w =
  preceded_by
    [Called DnsLookup (Resolved v0);
     Called (SendMail (Confirmation (all (monitor w))
                          (SeatFinder.CHECK_INTERVAL interval)) email)
            (Resolved v1)]
    (SeatFinder.session env interval fuel email
       (with_monitor (markSent (monitor w)) (advance 2 w))).
Proof.
  intros Hs H0 H1.
  rewrite (bind_val _ _ _ _ _ _ (check_reachable env w v0 H0)).
  change (negb true) with false. cbv beta iota.
  unfold SeatFinder.seatFinder.
  rewrite (bind_val _ _ _ _ _ _
             (confirm_sent env interval email (tick w) v1 Hs H1)).
  rewrite preceded_by_app. reflexivity.
Qed.
End SessionFacts.

(** X17.  A failure to create the page session is fatal, and the browser
    is closed exactly when it had been launched: if [puppeteer.launch]
    fails the run ends with exit code 1 and nothing to close; if
    [newPage] fails after a successful launch, the handler closes the
    browser and then exits with code 1.  If that [browser.close()]
    rejects as well, [process.exit(1)] is not reached and the error
    leaves the top-level function.  In every case no cycle takes place. *)
Theorem session_failure_is_fatal :
  forall env interval fuel email w v0 v1,
    browser w = false ->
    confirmationSent (monitor w) = false ->
    env (clock w) = Resolved v0 ->
    env (1 + clock w) = Resolved v1 ->
    let confirmed :=
      [Called DnsLookup (Resolved v0);
       Called (SendMail (Confirmation (all (monitor w))
                            (SeatFinder.CHECK_INTERVAL interval)) email)
              (Resolved v1)] in
    let run := SeatFinder.main env interval fuel email w in
    (forall msg,
        env (2 + clock w) = Rejected msg ->
        result_of run = Exit 1%Z /\
        trace_of run =
          confirmed ++ [Called Launch (Rejected msg); LogError (Fatal msg)]) /\
    (forall v2 msg v4,
        env (2 + clock w) = Resolved v2 ->
        env (3 + clock w) = Rejected msg ->
        env (4 + clock w) = Resolved v4 ->
        result_of run = Exit 1%Z /\
        trace_of run =
          confirmed ++ [Called Launch (Resolved v2);
                        Called NewPage (Rejected msg);
                        LogError (Fatal msg);
                        Called Close (Resolved v4)]) /\
    (forall v2 msg msg',
        env (2 + clock w) = Resolved v2 ->
        env (3 + clock w) = Rejected msg ->
        env (4 + clock w) = Rejected msg' ->
        result_of run = Throw (Error msg') /\
        trace_of run =
          confirmed ++ [Called Launch (Resolved v2);
                        Called NewPage (Rejected msg);
                        LogError (Fatal msg);
                        Called Close (Rejected msg')]).
Proof.
  intros env interval fuel email w v0 v1 Hb Hs H0 H1 confirmed run.
  subst confirmed run.
  assert (Hbody := main_body_starts env interval email fuel w v0 v1 Hs H0 H1).
  assert (Hnewpage : forall v2 msg,
    env (2 + clock w) = Resolved v2 ->
    env (3 + clock w) = Rejected msg ->
    SeatFinder.session env interval fuel email
      (with_monitor (markSent (monitor w)) (advance 2 w)) =
    (Throw (Error msg),
     {| clock := 4 + clock w; monitor := markSent (monitor w);
        termCode := termCode w; browser := true; handled := handled w |},
     [Called Launch (Resolved v2); Called NewPage (Rejected msg)])).
  { intros v2 msg H2 H3. unfold SeatFinder.session.
    rewrite (bind_val _ _ _ _ _ _
               (call_resolved env Launch
                  (with_monitor (markSent (monitor w)) (advance 2 w))
                  v2 H2)).
    unfold bind at 1. unfold set_browser at 1. cbv beta iota.
    unfold bind at 1. unfold call at 1. simpl clock.
    simpl in H3. rewrite H3. reflexivity. }
  split; [|split].
  - intros msg H2. unfold SeatFinder.main.
    assert (Hsession :
      SeatFinder.session env interval fuel email
        (with_monitor (markSent (monitor w)) (advance 2 w)) =
      (Throw (Error msg),
       with_monitor (markSent (monitor w)) (advance 3 w),
       [Called Launch (Rejected msg)])).
    { unfold SeatFinder.session.
      now rewrite (bind_throw _ _ _ _ _ _
                     (call_rejected env Launch
                        (with_monitor (markSent (monitor w)) (advance 2 w))
                        msg H2)). }
    rewrite Hsession in Hbody.
    rewrite (try_throw _ _ _ _ _ _ Hbody).
    rewrite fatal_handler_no_browser by exact Hb.
    split; reflexivity.
  - intros v2 msg v4 H2 H3 H4. unfold SeatFinder.main.
    rewrite (Hnewpage v2 msg H2 H3) in Hbody.
    rewrite (try_throw _ _ _ _ _ _ Hbody).
    rewrite (fatal_handler_closes _ _ _ v4) by (reflexivity || exact H4).
    split; reflexivity.
  - intros v2 msg msg' H2 H3 H4. unfold SeatFinder.main.
    rewrite (Hnewpage v2 msg H2 H3) in Hbody.
    rewrite (try_throw _ _ _ _ _ _ Hbody).
    rewrite (fatal_handler_close_fails _ _ _ msg')
      by (reflexivity || exact H4).
    split; reflexivity.
Qed.

Lemma session_failure_is_fatal_witness :
  let w := start ["12345"] "202610" in
  trace_of (SeatFinder.main (script [ok; ok; Rejected "Failed to launch"])
                            None 10 someone w) =
    [Called DnsLookup ok;
     Called (SendMail (Confirmation ["12345"] (int 120000)) someone) ok;
     Called Launch (Rejected "Failed to launch");
     LogError (Fatal "Failed to launch")] /\
  trace_of (SeatFinder.main (script [ok; ok; ok; Rejected "Target closed"])
                            None 10 someone w) =
    [Called DnsLookup ok;
     Called (SendMail (Confirmation ["12345"] (int 120000)) someone) ok;
     Called Launch ok;
     Called NewPage (Rejected "Target closed");
     LogError (Fatal "Target closed"); Called Close ok] /\
  result_of (SeatFinder.main
               (script [ok; ok; ok; Rejected "Target closed";
                        Rejected "Protocol error"])
               None 10 someone w) = Throw (Error "Protocol error").
Proof.
  intros w.
  destruct (session_failure_is_fatal
              (script [ok; ok; Rejected "Failed to launch"])
              None 10 someone w "" "" eq_refl eq_refl eq_refl eq_refl)
    as (H1 & _ & _).
  destruct (session_failure_is_fatal
              (script [ok; ok; ok; Rejected "Target closed"])
              None 10 someone w "" "" eq_refl eq_refl eq_refl eq_refl)
    as (_ & H2 & _).
  destruct (session_failure_is_fatal
              (script [ok; ok; ok; Rejected "Target closed";
                       Rejected "Protocol error"])
              None 10 someone w "" "" eq_refl eq_refl eq_refl eq_refl)
    as (_ & _ & H3).
  destruct (H1 "Failed to launch" eq_refl) as [_ T1].
  destruct (H2 "" "Target closed" "" eq_refl eq_refl eq_refl) as [_ T2].
  destruct (H3 "" "Target closed" "Protocol error" eq_refl eq_refl eq_refl)
    as [R3 _].
  split; [rewrite T1|split; [rewrite T2|rewrite R3]]; reflexivity.
Defined.

(* ================================================================== *)
(** ** How a run ends *)
(* ================================================================== *)

Section PlainFacts.
Variable env : nat -> Outcome.
Variable interval : option string.
Variable email : string.

Lemma plain_ret {A} (a : A) : plain (ret a).
Proof. intros w. exact I. Qed.

Lemma plain_throw {A} msg : plain (@throw A (Error msg)).
Proof. intros w. exact I. Qed.

Lemma plain_emit ev : plain (emit ev).
Proof. intros w. exact I. Qed.

Lemma plain_out_of_fuel {A} : plain (fun w => (@OutOfFuel A, w, [])).
Proof. intros w. exact I. Qed.

Lemma plain_call c : plain (call env c).
Proof. intros w. unfold call, result_of. now destruct (env (clock w)). Qed.

Lemma plain_get_monitor : plain get_monitor.
Proof. intros w. exact I. Qed.

Lemma plain_set_monitor m : plain (set_monitor m).
Proof. intros w. exact I. Qed.

Lemma plain_get_termCode : plain get_termCode.
Proof. intros w. exact I. Qed.

Lemma plain_bind {A B} (m : M A) (k : A -> M B) :
  plain m -> (forall a, plain (k a)) -> plain (bind m k).
Proof.
  intros Hm Hk w. specialize (Hm w). unfold bind, result_of in *.
  destruct (m w) as [[r w1] t1]. simpl in *.
  destruct r as [a|e|c|]; simpl; try exact Hm.
  specialize (Hk a w1). unfold result_of in Hk.
  now destruct (k a w1) as [[r2 w2] t2].
Qed.

Lemma plain_try {A} (m : M A) (h : exn -> M A) :
  plain m -> (forall msg, plain (h (Error msg))) -> plain (try_catch m h).
Proof.
  intros Hm Hh w. specialize (Hm w). unfold try_catch, result_of in *.
  destruct (m w) as [[r w1] t1]. simpl in *.
  destruct r as [a|e|c|]; simpl; try exact Hm.
  destruct e as [msg|]; [|contradiction].
  specialize (Hh msg w1). unfold result_of in Hh.
  now destruct (h (Error msg) w1) as [[r2 w2] t2].
Qed.

Lemma plain_if {A} (b : bool) (m1 m2 : M A) :
  plain m1 -> plain m2 -> plain (if b then m1 else m2).
Proof. now destruct b. Qed.

Lemma plain_forEach {A} (l : list A) (f : A -> M unit) :
  (forall x, plain (f x)) -> plain (forEach l f).
Proof.
  intros Hf. induction l as [|x r IH]; simpl.
  - apply plain_ret.
  - apply plain_bind; [apply Hf | intros _; exact IH].
Qed.

Ltac plain_step :=
  first
    [ apply plain_ret
    | apply plain_throw
    | apply plain_emit
    | apply plain_out_of_fuel
    | apply plain_call
    | apply plain_get_monitor
    | apply plain_set_monitor
    | apply plain_get_termCode
    | apply plain_bind; [ | intros ? ]
    | apply plain_try; [ | intros ? ]
    | apply plain_if ].

Lemma plain_checkMiamiConnection : plain (SeatFinder.checkMiamiConnection env).
Proof. unfold SeatFinder.checkMiamiConnection. repeat plain_step. Qed.

Lemma plain_withRetry_from {A} (fn : M A) attempts delay left :
  plain fn ->
  forall i err,
    (left = 0 -> exists msg, err = Error msg) ->
    plain (SeatFinder.withRetry_from fn attempts delay i left err).
Proof.
  intros Hfn. induction left as [|left IH]; intros i err Herr; simpl.
  - destruct (Herr eq_refl) as [msg ->]. apply plain_throw.
  - apply plain_try; [exact Hfn | intros msg].
    apply plain_bind; [unfold SeatFinder.sleep; repeat plain_step|intros _].
    apply IH. intros _. now exists msg.
Qed.

Lemma plain_tryStatus crn : plain (SeatFinder.tryStatus env email crn).
Proof.
  unfold SeatFinder.tryStatus, SeatFinder.checkStatus.
  apply plain_try.
  - apply plain_bind; [plain_step|intros _].
    apply plain_bind; [plain_step|intros text].
    cbv zeta.
    destruct (SeatFinder.parseStatus (trim text)) as [current max].
    apply plain_if; [|plain_step].
    unfold SeatFinder.notify, SeatFinder.sendMail, SeatFinder.monitor_delete.
    repeat plain_step.
  - intros msg. unfold message_of. repeat plain_step.
Qed.

Lemma plain_pollOnce : plain (SeatFinder.pollOnce env email).
Proof.
  unfold SeatFinder.pollOnce, SeatFinder.sleep.
  repeat (apply plain_bind; [plain_step | intros ?]).
  apply plain_forEach. intros crn. unfold SeatFinder.pollCRN.
  repeat (apply plain_bind; [plain_step | intros _]).
  apply plain_tryStatus.
Qed.

Lemma plain_iteration : plain (SeatFinder.iteration env interval email).
Proof.
  unfold SeatFinder.iteration, SeatFinder.cycle, SeatFinder.withRetry,
    SeatFinder.sleep.
  apply plain_bind; [apply plain_checkMiamiConnection | intros okay].
  apply plain_if; [repeat plain_step|].
  apply plain_bind.
  - apply plain_bind; [|intros _; apply plain_pollOnce].
    apply plain_withRetry_from; [apply plain_call|]. discriminate.
  - intros _. repeat plain_step.
Qed.

Lemma plain_monitorLoop fuel :
  plain (SeatFinder.monitorLoop env interval fuel email).
Proof.
  induction fuel as [|fuel IH]; simpl.
  - repeat plain_step.
  - apply plain_bind; [plain_step | intros m].
    apply plain_if; [plain_step|].
    apply plain_bind; [apply plain_iteration | intros _; exact IH].
Qed.

Lemma monitorLoop_returns_when_empty fuel :
  forall w,
    result_of (SeatFinder.monitorLoop env interval fuel email w) = Val tt ->
    size (monitor (world_of (SeatFinder.monitorLoop env interval fuel email w)))
    = 0.
Proof.
  induction fuel as [|fuel IH]; intros w Hval.
  - destruct (Nat.eq_dec (size (monitor w)) 0) as [Hz|Hnz].
    + now rewrite (monitorLoop_done env interval email 0 w Hz).
    + exfalso. revert Hval. simpl. unfold bind, get_monitor, result_of.
      destruct (Nat.eqb_spec (size (monitor w)) 0); [contradiction|].
      discriminate.
  - destruct (Nat.eq_dec (size (monitor w)) 0) as [Hz|Hnz].
    + now rewrite (monitorLoop_done env interval email (S fuel) w Hz).
    + revert Hval. rewrite (monitorLoop_step env interval email fuel w Hnz).
      unfold bind at 1 2.
      destruct (SeatFinder.iteration env interval email w) as [[r w1] t1].
      destruct r as [[]|e|c|]; try discriminate.
      specialize (IH w1).
      destruct (SeatFinder.monitorLoop env interval fuel email w1)
        as [[r2 w2] t2].
      unfold result_of, world_of in *. simpl in *. exact IH.
Qed.

Lemma ends_well_bind {A B} (m : M A) (k : A -> M B) :
  plain m -> (forall a, ends_well (k a)) -> ends_well (bind m k).
Proof.
  intros Hm Hk w. specialize (Hm w). unfold bind, result_of, world_of in *.
  destruct (m w) as [[r w1] t1]. simpl in *.
  destruct r as [a|e|c|]; simpl; try contradiction; try exact I.
  - specialize (Hk a w1). unfold result_of, world_of in Hk.
    now destruct (k a w1) as [[r2 w2] t2].
  - now destruct e.
Qed.

Lemma ends_well_loop fuel :
  ends_well (SeatFinder.monitorLoop env interval fuel email ;;
             SeatFinder.finish env).
Proof.
  intros w.
  pose proof (plain_monitorLoop fuel w) as Hp.
  pose proof (monitorLoop_returns_when_empty fuel w) as Hz.
  unfold bind.
  destruct (SeatFinder.monitorLoop env interval fuel email w) as [[r w1] t1].
  unfold result_of, world_of in *. simpl in *.
  destruct r as [[]|e|c|]; simpl; try contradiction; try exact I.
  - destruct (browser w1) eqn:Hb.
    + destruct (env (clock w1)) as [v|msg] eqn:H0.
      * rewrite (finish_exits env w1 v Hb H0). simpl.
        split; [reflexivity|]. now apply Hz.
      * rewrite (finish_close_failed env w1 msg Hb H0). exact I.
    + rewrite (finish_no_browser env w1 Hb). simpl.
      split; [reflexivity|]. now apply Hz.
  - now destruct e.
Qed.

Lemma ends_well_body fuel :
  ends_well
    (okay <- SeatFinder.checkMiamiConnection env ;;
     if negb okay then throw (Error "Not connected to Miami network/VPN.")
     else SeatFinder.seatFinder env interval fuel email).
Proof.
  apply ends_well_bind; [apply plain_checkMiamiConnection | intros okay].
  destruct (negb okay).
  - intros w. exact I.
  - unfold SeatFinder.seatFinder, SeatFinder.session.
    apply ends_well_bind.
    { unfold SeatFinder.confirm, SeatFinder.sendMail. repeat plain_step. }
    intros _.
    apply ends_well_bind; [plain_step | intros _].
    apply ends_well_bind; [intros w; exact I | intros _].
    apply ends_well_bind; [plain_step | intros _].
    apply ends_well_bind; [plain_step | intros _].
    apply ends_well_bind; [intros w; exact I | intros _].
    apply ends_well_bind; [intros w; exact I | intros _].
    apply ends_well_loop.
Qed.
End PlainFacts.

(** X18.  How the main flow of the process ends, for every behaviour of
    the collaborators.  It never returns.  It ends the process with exit
    code 1 (an error was reported as fatal), or with exit code 0, and
    with 0 only when the registry is empty, that is when every monitored
    CRN has been notified; or the [browser.close()] of the handler of the
    top level rejects after the fatal line, and that error leaves the
    top-level function; otherwise it is still running when the loop
    budget is used up.  (What a signal does is [deliver], below.) *)
Theorem exits_zero_only_when_registry_empty :
  forall env interval fuel email w,
    let run := SeatFinder.main env interval fuel email w in
    result_of run = OutOfFuel \/
    result_of run = Exit 1%Z \/
    (result_of run = Exit 0%Z /\ size (monitor (world_of run)) = 0) \/
    (exists msg fatal t,
        result_of run = Throw (Error msg) /\
        trace_of run =
          t ++ [LogError (Fatal fatal); Called Close (Rejected msg)]).
Proof.
  intros env interval fuel email w run. subst run.
  pose proof (ends_well_body env interval email fuel w) as Hb.
  unfold SeatFinder.main, try_catch.
  destruct ((okay <- SeatFinder.checkMiamiConnection env ;;
             if negb okay
             then throw (Error "Not connected to Miami network/VPN.")
             else SeatFinder.seatFinder env interval fuel email) w)
    as [[r w1] t1].
  unfold result_of, world_of in *. simpl in Hb.
  destruct r as [a|e|c|]; try contradiction.
  - destruct e as [msg|]; [|contradiction].
    destruct (browser w1) eqn:Hbr.
    + destruct (env (clock w1)) as [v|msg'] eqn:H0.
      * rewrite (fatal_handler_closes env msg w1 v Hbr H0).
        right. left. reflexivity.
      * rewrite (fatal_handler_close_fails env msg w1 msg' Hbr H0).
        right. right. right. exists msg', msg, t1. split; reflexivity.
    + rewrite (fatal_handler_no_browser env msg w1 Hbr).
      right. left. reflexivity.
  - destruct Hb as [-> Hz]. right. right. left. simpl. now split.
  - left. reflexivity.
Qed.

(** The main flow lets an error escape only through the second
    [browser.close()]: a run in which navigation fails three times and
    the browser then cannot be closed. *)
Example close_failure_in_handler_escapes :
  let env := script [ok; ok; ok; ok; ok; ok;
                     Rejected "net::ERR_TIMED_OUT";
                     Rejected "net::ERR_TIMED_OUT";
                     Rejected "net::ERR_TIMED_OUT";
                     Rejected "Protocol error: Connection closed."] in
  let run := SeatFinder.main env None 10 someone (start ["12345"] "202610") in
  result_of run = Throw (Error "Protocol error: Connection closed.") /\
  all (monitor (world_of run)) = ["12345"].
Proof. vm_compute. split; reflexivity. Qed.

(* ================================================================== *)
(** ** Signals *)
(* ================================================================== *)

Section SignalFacts.
Variable env : nat -> Outcome.
Variable interval : option string.
Variable email : string.






End SignalFacts.



(* ================================================================== *)
(** ** The interactive setup *)
(* ================================================================== *)

Lemma length_append a b :
  String.length (a ++ b)%string = String.length a + String.length b.
Proof. induction a as [|c r IH]; simpl; [reflexivity|now rewrite IH]. Qed.

Lemma substring_all s : substring 0 (String.length s) s = s.
Proof. induction s as [|c r IH]; simpl; [reflexivity|now rewrite IH]. Qed.

Lemma substring_split n : forall s,
  n <= String.length s ->
  s = (substring 0 n s ++ substring n (String.length s - n) s)%string.
Proof.
  induction n as [|n IH]; intros s Hn.
  - rewrite Nat.sub_0_r, substring_all. now destruct s.
  - destruct s as [|c r]; simpl in Hn; [lia|].
    simpl. f_equal. apply IH. lia.
Qed.

Lemma endsWith_suffix s suffix :
  Setup.endsWith s suffix = true -> exists p, s = (p ++ suffix)%string.
Proof.
  unfold Setup.endsWith. intros H. apply andb_true_iff in H as [Hk He].
  apply Nat.leb_le in Hk. apply String.eqb_eq in He.
  exists (substring 0 (String.length s - String.length suffix) s).
  rewrite <- He at 2.
  rewrite (substring_split (String.length s - String.length suffix) s) at 1
    by lia.
  do 2 f_equal. lia.
Qed.

Lemma test_digits_append year code :
  Setup.test_digits 2 code = true ->
  Setup.test_digits 6 (year ++ code)%string = Setup.test_digits 4 year.
Proof.
  unfold Setup.test_digits. intros H. apply andb_true_iff in H as [Hl Hd].
  apply Nat.eqb_eq in Hl.
  rewrite length_append, every_append, Hl, Hd, andb_true_r.
  f_equal. destruct (Nat.eqb_spec (String.length year + 2) 6);
    destruct (Nat.eqb_spec (String.length year) 4); try reflexivity; lia.
Qed.

Lemma termMap_own k code :
  Setup.termMap k = Setup.Own code ->
  In k ["1"; "2"; "3"; "4"] /\ In code ["10"; "15"; "20"; "30"] /\
  Setup.test_digits 2 code = true.
Proof.
  unfold Setup.termMap.
  destruct (String.eqb_spec k "1") as [->|_].
  { intros H. injection H as <-.
    split; [simpl; auto 6|split; [simpl; auto 6|reflexivity]]. }
  destruct (String.eqb_spec k "2") as [->|_].
  { intros H. injection H as <-.
    split; [simpl; auto 6|split; [simpl; auto 6|reflexivity]]. }
  destruct (String.eqb_spec k "3") as [->|_].
  { intros H. injection H as <-.
    split; [simpl; auto 6|split; [simpl; auto 6|reflexivity]]. }
  destruct (String.eqb_spec k "4") as [->|_].
  { intros H. injection H as <-.
    split; [simpl; auto 6|split; [simpl; auto 6|reflexivity]]. }
  destruct (existsb _ _); discriminate.
Qed.

Lemma termMap_not_own k :
  ~ In k ["1"; "2"; "3"; "4"] ->
  Setup.termMap k = Setup.Inherited \/ Setup.termMap k = Setup.Missing.
Proof.
  intros H. destruct (Setup.termMap k) as [code| |] eqn:E; auto.
  exfalso. apply H. now destruct (termMap_own k code E).
Qed.

Lemma add21_keys crn (m : CourseMonitor EmptyObject) :
  all (add21 crn m) =
  if in_dec string_dec crn (all m) then all m else all m ++ [crn].
Proof. destruct m as [cs sent]. apply map_set_keys. Qed.

Lemma add21_size crn (m : CourseMonitor EmptyObject) :
  size (add21 crn m) <> 0.
Proof.
  destruct m as [cs sent]. unfold size, add21, add, map_size. simpl.
  destruct cs as [|[k v] r]; simpl; [discriminate|].
  destruct (String.eqb crn k); discriminate.
Qed.

Lemma readCRNs_done answers :
  forall m m' ls,
    Setup.readCRNs answers m = (Some m', ls) ->
    NoDup (all m) ->
    Forall (fun crn => Setup.test_digits 5 crn = true) (all m) ->
    size m' <> 0 /\
    NoDup (all m') /\
    Forall (fun crn => Setup.test_digits 5 crn = true) (all m') /\
    (forall crn, In crn (all m') ->
                 In crn (all m) \/ In crn (List.map trim answers)) /\
    confirmationSent m' = confirmationSent m.
Proof.
  induction answers as [|a rest IH]; intros m m' ls Hread Hnd Hall;
    simpl in Hread; [discriminate|].
  destruct (is_empty (trim a)) eqn:Hempty.
  - destruct (Nat.eqb_spec (size m) 0) as [Hz|Hnz]; simpl in Hread.
    + destruct (Setup.readCRNs rest m) as [r ls'] eqn:E.
      inversion Hread; subst.
      destruct (IH m m' ls' E Hnd Hall) as (H1 & H2 & H3 & H4 & H5).
      repeat split; try assumption.
      intros crn Hin. destruct (H4 crn Hin); [now left|right; now right].
    + inversion Hread; subst. repeat split; try assumption.
      intros crn Hin. now left.
  - destruct (Setup.test_digits 5 (trim a)) eqn:Hfive; simpl in Hread.
    + destruct (Setup.readCRNs rest (add21 (trim a) m)) as [r ls'] eqn:E.
      inversion Hread; subst.
      assert (Hnd' : NoDup (all (add21 (trim a) m))).
      { destruct m as [cs sent]. unfold all, add21, add. simpl.
        now apply map_set_NoDup. }
      assert (Hall' : Forall (fun crn => Setup.test_digits 5 crn = true)
                             (all (add21 (trim a) m))).
      { rewrite add21_keys.
        destruct (in_dec string_dec (trim a) (all m)); [exact Hall|].
        apply Forall_app. split; [exact Hall|]. now repeat constructor. }
      destruct (IH _ m' ls' E Hnd' Hall') as (H1 & H2 & H3 & H4 & H5).
      repeat split; try assumption.
      intros crn Hin. destruct (H4 crn Hin) as [Hk|Hk].
      * rewrite add21_keys in Hk.
        destruct (in_dec string_dec (trim a) (all m)); [now left|].
        apply in_app_iff in Hk as [Hk|[<-|[]]]; [now left|].
        right. now left.
      * right. now right.
    + destruct (Setup.readCRNs rest m) as [r ls'] eqn:E.
      inversion Hread; subst.
      destruct (IH m m' ls' E Hnd Hall) as (H1 & H2 & H3 & H4 & H5).
      repeat split; try assumption.
      intros crn Hin. destruct (H4 crn Hin); [now left|right; now right].
Qed.

(** X19.  When the setup lets the run start, what it hands over is
    valid: the address is some text followed by [@miamioh.edu]; the term
    code is a four-digit year followed by 10, 15, 20 or 30; the registry
    is not empty, holds no CRN twice, and each of its CRNs is five
    decimal digits that were typed at a prompt; the confirmation flag is
    not set. *)
Theorem setup_hands_over_valid_data :
  forall answers email termCode m,
    fst (Setup.setup answers) = Setup.Ready email termCode m ->
    (exists id, email = (id ++ "@miamioh.edu")%string) /\
    (exists year code,
        termCode = (year ++ code)%string /\
        Setup.test_digits 4 year = true /\
        In code ["10"; "15"; "20"; "30"]) /\
    size m <> 0 /\
    NoDup (all m) /\
    Forall (fun crn => Setup.test_digits 5 crn = true) (all m) /\
    (forall crn, In crn (all m) -> In crn (List.map trim answers)) /\
    confirmationSent m = false.
Proof.
  intros answers email termCode m. unfold Setup.setup.
  destruct answers as [|a1 rest1]; [discriminate|].
  destruct (Setup.endsWith (trim a1) Config.MIAMI_EMAIL_DOMAIN) eqn:Hmail;
    simpl negb; cbv iota; [|discriminate].
  destruct rest1 as [|a2 [|a3 rest3]]; try discriminate.
  destruct (Setup.termMap (trim a3)) as [code| |] eqn:Hterm; try discriminate.
  destruct (termMap_own _ _ Hterm) as (_ & Hcode & Htwo).
  cbv zeta.
  destruct (Setup.test_digits 6 (trim a2 ++ code)%string) eqn:Hsix;
    simpl negb; cbv iota; [|discriminate].
  destruct (Setup.readCRNs rest3 (create EmptyObject)) as [[m'|] ls] eqn:Hread;
    [|discriminate].
  intros H. simpl in H. inversion H; subst. clear H.
  destruct (readCRNs_done rest3 (create EmptyObject) m ls Hread)
    as (H1 & H2 & H3 & H4 & H5); [constructor|constructor|].
  split; [now apply endsWith_suffix|].
  split.
  { exists (trim a2), code. split; [reflexivity|]. split; [|exact Hcode].
    now rewrite <- (test_digits_append (trim a2) code Htwo). }
  split; [exact H1|]. split; [exact H2|]. split; [exact H3|].
  split; [|exact H5].
  intros crn Hin. destruct (H4 crn Hin) as [[]|Hk].
  simpl. right. right. now right.
Qed.

Lemma setup_hands_over_valid_data_witness :
  let answers := [" ab12cd@miamioh.edu "; "2026"; "1"; ""; "1234"; "12345";
                  "67890"; "12345"; ""] in
  fst (Setup.setup answers) =
    Setup.Ready "ab12cd@miamioh.edu" "202610" (registry_of ["12345"; "67890"]) /\
  all (registry_of ["12345"; "67890"]) = ["12345"; "67890"] /\
  NoDup (all (registry_of ["12345"; "67890"])).
Proof.
  intros answers.
  assert (Hrun : fst (Setup.setup answers) =
                 Setup.Ready "ab12cd@miamioh.edu" "202610"
                             (registry_of ["12345"; "67890"]))
    by reflexivity.
  destruct (setup_hands_over_valid_data answers _ _ _ Hrun)
    as (_ & _ & _ & Hnd & _).
  split; [exact Hrun|]. split; [reflexivity|exact Hnd].
Defined.

(** X20.  An address that does not end in [@miamioh.edu], a term choice
    other than 1, 2, 3 or 4, or a school year that is not four digits
    ends the process with exit code 1 and one fatal line, before any
    call to the network, the mail relay or the browser, whatever CRNs
    would have been typed. *)
Theorem invalid_setup_is_fatal :
  forall env interval fuel a1 a2 a3 rest,
    Setup.endsWith (trim a1) "@miamioh.edu" = false \/
    ~ In (trim a3) ["1"; "2"; "3"; "4"] \/
    Setup.test_digits 4 (trim a2) = false ->
    exists msg,
      Setup.program env interval fuel (a1 :: a2 :: a3 :: rest) =
        (Exit 1%Z, [LogError (Fatal msg)]).
Proof.
  intros env interval fuel a1 a2 a3 rest Hbad.
  unfold Setup.program, Setup.setup.
  change Config.MIAMI_EMAIL_DOMAIN with "@miamioh.edu".
  destruct (Setup.endsWith (trim a1) "@miamioh.edu") eqn:Hmail;
    simpl negb; cbv iota; [|now eexists].
  destruct Hbad as [Hbad|[Hbad|Hbad]]; [discriminate| |].
  - destruct (termMap_not_own _ Hbad) as [-> | ->]; now eexists.
  - destruct (Setup.termMap (trim a3)) as [code| |] eqn:Hterm;
      try now eexists.
    destruct (termMap_own _ _ Hterm) as (_ & _ & Htwo). cbv zeta.
    rewrite (test_digits_append (trim a2) code Htwo), Hbad. now eexists.
Qed.

Lemma invalid_setup_is_fatal_witness :
  Setup.program ok_script None 10 ["someone@gmail.com"; "2026"; "1"; "12345"; ""] =
    (Exit 1%Z, [LogError (Fatal "Invalid Miami email.")]) /\
  Setup.program ok_script None 10 ["ab@miamioh.edu"; "2026"; "toString"; "12345"; ""] =
    (Exit 1%Z, [LogError (Fatal "Term code must be 6 digits.")]) /\
  Setup.program ok_script None 10 ["ab@miamioh.edu"; "26"; "5"; "12345"; ""] =
    (Exit 1%Z, [LogError (Fatal "Invalid term choice.")]).
Proof.
  destruct (invalid_setup_is_fatal ok_script None 10
              "someone@gmail.com" "2026" "1" ["12345"; ""]
              (or_introl eq_refl)) as [msg H].
  split; [|split]; reflexivity.
Defined.

Lemma termMap_choice k :
  In k ["1"; "2"; "3"; "4"] ->
  exists code, Setup.termMap k = Setup.Own code /\
               Setup.test_digits 2 code = true.
Proof.
  intros [<-|[<-|[<-|[<-|[]]]]]; eexists; split; reflexivity.
Qed.

Lemma readCRNs_until_blank pre blank :
  is_empty (trim blank) = true ->
  Forall (fun a => is_empty (trim a) = false) pre ->
  forall m,
    size m <> 0 \/
    Exists (fun a => Setup.test_digits 5 (trim a) = true) pre ->
    exists m' ls,
      (forall post,
          Setup.readCRNs (pre ++ blank :: post) m = (Some m', ls)) /\
      (forall crn,
          In crn (all m') <->
          In crn (all m) \/
          In crn (filter (Setup.test_digits 5) (List.map trim pre))).
Proof.
  intros Hblank Hpre. induction Hpre as [|a pre Ha Hpre IH]; intros m Hsome.
  - destruct Hsome as [Hsize|Hex]; [|inversion Hex].
    exists m, []. split.
    + intros post. simpl. rewrite Hblank.
      destruct (Nat.eqb_spec (size m) 0); [contradiction|reflexivity].
    + intros crn. simpl. tauto.
  - simpl. rewrite Ha.
    destruct (Setup.test_digits 5 (trim a)) eqn:Hfive; simpl.
    + destruct (IH (add21 (trim a) m)) as (m' & ls & Hrun & Hkeys);
        [left; apply add21_size|].
      exists m', (Setup.Added (trim a) :: ls). split.
      * intros post. now rewrite Hrun.
      * intros crn. rewrite Hkeys, add21_keys.
        destruct (in_dec string_dec (trim a) (all m)) as [Hin|Hin].
        -- simpl. split; [tauto|]. intros [H|[<-|H]]; tauto.
        -- rewrite in_app_iff. simpl. tauto.
    + destruct (IH m) as (m' & ls & Hrun & Hkeys).
      { destruct Hsome as [Hsize|Hex]; [now left|right].
        inversion Hex; subst; [congruence|assumption]. }
      exists m', (Setup.MustBeFiveDigits :: ls). split.
      * intros post. now rewrite Hrun.
      * exact Hkeys.
Qed.

(** X21.  Valid answers start the run.  With an address that ends in
    [@miamioh.edu], a four-digit year, a term choice among 1, 2, 3 and 4,
    then answers none of which is blank and at least one of which is a
    five-digit CRN, then a blank answer, the setup succeeds: the registry
    holds exactly the five-digit answers, the other ones having been
    turned down, and nothing typed after the blank answer is read. *)
Theorem valid_answers_start_the_run :
  forall a1 a2 a3 pre blank,
    Setup.endsWith (trim a1) "@miamioh.edu" = true ->
    Setup.test_digits 4 (trim a2) = true ->
    In (trim a3) ["1"; "2"; "3"; "4"] ->
    Forall (fun a => is_empty (trim a) = false) pre ->
    Exists (fun a => Setup.test_digits 5 (trim a) = true) pre ->
    is_empty (trim blank) = true ->
    exists code m ls,
      In code ["10"; "15"; "20"; "30"] /\
      (forall post,
          Setup.setup (a1 :: a2 :: a3 :: pre ++ blank :: post) =
            (Setup.Ready (trim a1) (trim a2 ++ code)%string m, ls)) /\
      (forall crn,
          In crn (all m) <->
          In crn (filter (Setup.test_digits 5) (List.map trim pre))).
Proof.
  intros a1 a2 a3 pre blank Hmail Hyear Hchoice Hpre Hex Hblank.
  destruct (termMap_choice _ Hchoice) as (code & Hterm & Htwo).
  destruct (termMap_own _ _ Hterm) as (_ & Hcode & _).
  destruct (readCRNs_until_blank pre blank Hblank Hpre (create EmptyObject)
              (or_intror Hex)) as (m & ls & Hrun & Hkeys).
  exists code, m, ls. split; [exact Hcode|]. split.
  - intros post. unfold Setup.setup.
    change Config.MIAMI_EMAIL_DOMAIN with "@miamioh.edu".
    rewrite Hmail. simpl negb. cbv iota. rewrite Hterm. cbv zeta.
    rewrite (test_digits_append (trim a2) code Htwo), Hyear.
    simpl negb. cbv iota. now rewrite Hrun.
  - intros crn. rewrite Hkeys. simpl. tauto.
Qed.

Lemma valid_answers_start_the_run_witness :
  exists code m ls,
    In code ["10"; "15"; "20"; "30"] /\
    (forall post,
        Setup.setup ("ab12cd@miamioh.edu" :: " 2026" :: "3 " ::
                     ["12345"; "1234x"; " 67890 "] ++ " " :: post) =
          (Setup.Ready "ab12cd@miamioh.edu" ("2026" ++ code)%string m, ls)) /\
    (forall crn,
        In crn (all m) <-> In crn ["12345"; "67890"]).
Proof.
  apply (valid_answers_start_the_run
           "ab12cd@miamioh.edu" " 2026" "3 "
           ["12345"; "1234x"; " 67890 "] " ").
  - reflexivity.
  - reflexivity.
  - simpl. auto.
  - repeat constructor.
  - constructor. reflexivity.
  - reflexivity.
Defined.

(* ================================================================== *)
(** ** The v1.0 status check *)
(* ================================================================== *)

Lemma legacy_tryStatus_cases env email crn w :
  forall run, run = Legacy.tryStatus env email crn w ->
  result_of run = Val tt /\
  (existsb is_mail (trace_of run) = true <->
   rejected (env (clock w)) = false /\
   exists text, env (1 + clock w) = Resolved text /\
                legacy_guard text = true) /\
  (forall ev,
      In ev (trace_of run) -> is_mail ev = true ->
      exists text,
        env (1 + clock w) = Resolved text /\
        ev = Called (SendMail
                       (SeatAvailable crn
                          (fst (Legacy.parseStatus (trim text)))
                          (snd (Legacy.parseStatus (trim text))))
                       email)
                    (env (2 + clock w))) /\
  List.length (filter is_mail (trace_of run)) <= 1 /\
  monitor (world_of run) =
    (if existsb is_mail (trace_of run) && negb (rejected (env (2 + clock w)))
     then delete crn (monitor w) else monitor w).
Proof.
  intros run Hrun.
  unfold Legacy.tryStatus, Legacy.checkStatus in Hrun.
  unfold try_catch at 1 in Hrun.
  destruct (env (clock w)) as [v0|msg0] eqn:E0.
  2:{ rewrite (bind_throw _ _ _ _ _ _ (call_rejected env _ w msg0 E0)) in Hrun.
      rewrite Hrun.
      unfold bind, emit, ret, message_of, result_of, world_of, trace_of,
        preceded_by. simpl.
      split; [reflexivity|]. split; [|split; [|split; [lia|reflexivity]]].
      - split; [discriminate|]. intros [Hr _]. discriminate Hr.
      - intros ev [<-|[<-|[]]] Hm; discriminate Hm. }
  rewrite (bind_val _ _ _ _ _ _ (call_resolved env _ w v0 E0)) in Hrun.
  destruct (env (1 + clock w)) as [text|msg1] eqn:E1.
  2:{ rewrite (bind_throw _ _ _ _ _ _ (call_rejected env _ (tick w) msg1 E1))
        in Hrun.
      rewrite Hrun.
      unfold bind, emit, ret, message_of, result_of, world_of, trace_of,
        preceded_by. simpl.
      split; [reflexivity|]. split; [|split; [|split; [lia|reflexivity]]].
      - split; [discriminate|]. intros (_ & text' & Ht & _). discriminate Ht.
      - intros ev [<-|[<-|[<-|[]]]] Hm; discriminate Hm. }
  rewrite (bind_val _ _ _ _ _ _ (call_resolved env _ (tick w) text E1)) in Hrun.
  cbv zeta in Hrun.
  assert (Hguard : forall b,
    legacy_guard text = b ->
    (rejected (Resolved v0) = false /\
     exists text', Resolved text = Resolved text' /\
                   legacy_guard text' = true) -> b = true).
  { intros b Hb (_ & text' & Ht & Hg). injection Ht as <-. congruence. }
  destruct (is_empty (trim text)) eqn:Hne.
  { rewrite Hrun.
    unfold bind, emit, ret, message_of, result_of, world_of, trace_of,
      preceded_by. simpl.
    split; [reflexivity|]. split; [|split; [|split; [lia|reflexivity]]].
    - split; [discriminate|]. intros H. apply (Hguard false); [|exact H].
      unfold legacy_guard. cbv zeta. now rewrite Hne.
    - intros ev [<-|[<-|[<-|[]]]] Hm; discriminate Hm. }
  destruct (Legacy.parseStatus (trim text)) as [current max] eqn:Hparse.
  change (negb false) with true in Hrun. cbv beta iota in Hrun.
  destruct (isNaN current) eqn:Hc.
  { rewrite Hrun.
    unfold bind, emit, ret, message_of, result_of, world_of, trace_of,
      preceded_by. simpl.
    split; [reflexivity|]. split; [|split; [|split; [lia|reflexivity]]].
    - split; [discriminate|]. intros H. apply (Hguard false); [|exact H].
      unfold legacy_guard. cbv zeta. rewrite Hne, Hparse. unfold fst, snd.
      now rewrite Hc.
    - intros ev [<-|[<-|[<-|[]]]] Hm; discriminate Hm. }
  destruct (isNaN max) eqn:Hm.
  { rewrite Hrun.
    unfold bind, emit, ret, message_of, result_of, world_of, trace_of,
      preceded_by. simpl.
    split; [reflexivity|]. split; [|split; [|split; [lia|reflexivity]]].
    - split; [discriminate|]. intros H. apply (Hguard false); [|exact H].
      unfold legacy_guard. cbv zeta. rewrite Hne, Hparse. unfold fst, snd.
      now rewrite Hc, Hm.
    - intros ev [<-|[<-|[<-|[]]]] Hmail; discriminate Hmail. }
  change (negb false && negb false) with true in Hrun. cbv beta iota in Hrun.
  destruct (gt0 (sub (ToNumber max) (ToNumber current))) eqn:Hgt.
  2:{ rewrite Hrun.
      unfold bind, emit, ret, message_of, result_of, world_of, trace_of,
        preceded_by. cbn -[sub gt0 trim].
      split; [reflexivity|]. split; [|split; [|split; [lia|reflexivity]]].
      - split; [discriminate|]. intros H. apply (Hguard false); [|exact H].
        unfold legacy_guard. cbv zeta. rewrite Hne, Hparse. unfold fst, snd.
        now rewrite Hc, Hm, Hgt.
      - intros ev [<-|[<-|[<-|[<-|[]]]]] Hmail; discriminate Hmail. }
  assert (Hpass : legacy_guard text = true).
  { unfold legacy_guard. cbv zeta. rewrite Hne, Hparse. unfold fst, snd.
    now rewrite Hc, Hm, Hgt. }
  unfold Legacy.sendEmailNotification, SeatFinder.monitor_delete in Hrun.
  unfold try_catch, bind, call, emit, ret, throw, message_of, get_monitor,
    set_monitor, preceded_by in Hrun.
  simpl in Hrun. change (2 + clock w) with (S (S (clock w))).
  destruct (env (S (S (clock w)))) as [v2|msg2] eqn:E2; simpl in Hrun;
    rewrite Hrun; unfold result_of, world_of, trace_of;
    cbn -[Legacy.parseStatus trim is_empty isNaN gt0 sub ToNumber legacy_guard].
  - split; [reflexivity|]. split; [|split; [|split; [lia|reflexivity]]].
    + split; [intros _|reflexivity]. split; [reflexivity|].
      exists text. now split.
    + intros ev Hin Hmail. exists text. split; [reflexivity|].
      rewrite Hparse. unfold fst, snd.
      destruct Hin as [<-|[<-|[<-|[<-|[<-|[<-|[<-|[]]]]]]]];
        try discriminate Hmail; reflexivity.
  - split; [reflexivity|]. split; [|split; [|split; [lia|reflexivity]]].
    + split; [intros _|reflexivity]. split; [reflexivity|].
      exists text. now split.
    + intros ev Hin Hmail. exists text. split; [reflexivity|].
      rewrite Hparse. unfold fst, snd.
      destruct Hin as [<-|[<-|[<-|[<-|[<-|[<-|[<-|[<-|[<-|[]]]]]]]]]];
        try discriminate Hmail; reflexivity.
Qed.

(** X22.  The status check of v1.0 never throws and never ends the
    process.  It sends a mail exactly when the status element is found,
    its text is read and passes the guard: not empty, two fields that
    [parseInt] reads, capacity above enrolment.  There is at most one
    mail; it is the notification for this CRN, with the two counts read,
    to the recipient, and it is the third call.  The CRN leaves the
    registry exactly when that mail was sent and accepted; in every
    other case the registry is what it was. *)
Theorem legacy_check_is_guarded :
  forall env email crn w,
    let run := Legacy.tryStatus env email crn w in
    result_of run = Val tt /\
    (existsb is_mail (trace_of run) = true <->
     rejected (env (clock w)) = false /\
     exists text, env (1 + clock w) = Resolved text /\
                  legacy_guard text = true) /\
    (forall ev,
        In ev (trace_of run) -> is_mail ev = true ->
        exists text,
          env (1 + clock w) = Resolved text /\
          ev = Called (SendMail
                         (SeatAvailable crn
                            (fst (Legacy.parseStatus (trim text)))
                            (snd (Legacy.parseStatus (trim text))))
                         email)
                      (env (2 + clock w))) /\
    List.length (filter is_mail (trace_of run)) <= 1 /\
    monitor (world_of run) =
      (if existsb is_mail (trace_of run) &&
          negb (rejected (env (2 + clock w)))
       then delete crn (monitor w) else monitor w).
Proof.
  intros env email crn w run.
  exact (legacy_tryStatus_cases env email crn w run eq_refl).
Qed.
